(** * DAO dashboard: status engine, task rules and access control

    A shallow embedding of the business rules of the DAO dashboard
    (Express and MongoDB back ends, plus the task row of the front end),
    followed by the properties proved about them.

    Conventions of the embedding:
    - JavaScript numbers that carry identifiers, percentages, day counts and
      millisecond clocks are integers ([Z], or [N] where the code only ever
      produces naturals);
    - JavaScript strings are [string], read over the ASCII range (one
      character per code unit); [null]/[undefined]/absent fields are [None];
    - the in-memory stores are threaded explicitly through every handler;
    - [new Date()] and [Math.random()] are read by the caller and passed in. *)

From stdpp Require Import gmap strings list fin_maps.
From Stdlib Require Import ZArith Lia Ascii DecimalString.

Local Open Scope string_scope.
Local Open Scope Z_scope.

(** ** Strings *)

Module Str.

(** [Number.prototype.toString()] on a natural number. *)
Definition toString (n : N) : string :=
  NilEmpty.string_of_uint (N.to_uint n).

Fixpoint repeat0 (k : nat) : string :=
  match k with
  | O => ""
  | S k' => String "0"%char (repeat0 k')
  end.

(** [s.padStart(width, "0")]: never truncates. *)
Definition padStart0 (width : nat) (s : string) : string :=
  repeat0 (width - String.length s) +:+ s.

Definition isDigit (c : Ascii.ascii) : bool :=
  let n := Ascii.N_of_ascii c in ((48 <=? n) && (n <=? 57))%N.

Definition digitVal (c : Ascii.ascii) : N := (Ascii.N_of_ascii c - 48)%N.

(** [parseInt(s, 10)] on a string made of decimal digits only, which is
    all the regular-expression captures below ever hand to it. *)
Fixpoint parseDigits (acc : N) (s : string) : N :=
  match s with
  | "" => acc
  | String c s' => parseDigits (10 * acc + digitVal c)%N s'
  end.

Definition parseInt10 (s : string) : N := parseDigits 0%N s.

Fixpoint allDigits (s : string) : bool :=
  match s with
  | "" => true
  | String c s' => isDigit c && allDigits s'
  end.

(** ASCII part of [String.prototype.toLowerCase]. *)
Definition lowerChar (c : Ascii.ascii) : Ascii.ascii :=
  let n := Ascii.N_of_ascii c in
  if ((65 <=? n) && (n <=? 90))%N then Ascii.ascii_of_N (n + 32) else c.

Fixpoint toLowerCase (s : string) : string :=
  match s with
  | "" => ""
  | String c s' => String (lowerChar c) (toLowerCase s')
  end.

(** White space removed by [String.prototype.trim] (ASCII range). *)
Definition isSpace (c : Ascii.ascii) : bool :=
  let n := Ascii.N_of_ascii c in (((9 <=? n) && (n <=? 13)) || (n =? 32))%N.

Fixpoint trimStart (s : string) : string :=
  match s with
  | "" => ""
  | String c s' => if isSpace c then trimStart s' else s
  end.

Fixpoint trimEnd (s : string) : string :=
  match s with
  | "" => ""
  | String c s' =>
      match trimEnd s' with
      | "" => if isSpace c then "" else String c ""
      | r => String c r
      end
  end.

Definition trim (s : string) : string := trimEnd (trimStart s).

(** Rest of [s] after its first [">"], if there is one. *)
Fixpoint afterGt (s : string) : option string :=
  match s with
  | "" => None
  | String c s' => if Ascii.eqb c ">"%char then Some s' else afterGt s'
  end.

(** [s.replace(/<[^>]*>/g, "")]: every ["<"] that is followed, somewhere,
    by a [">"] is removed together with everything up to that [">"].
    The fuel is the length of the string; each step consumes a
    character. *)
Fixpoint stripTagsFuel (fuel : nat) (s : string) : string :=
  match fuel with
  | O => s
  | S fuel' =>
      match s with
      | "" => ""
      | String c s' =>
          if Ascii.eqb c "<"%char then
            match afterGt s' with
            | Some rest => stripTagsFuel fuel' rest
            | None => String c (stripTagsFuel fuel' s')
            end
          else String c (stripTagsFuel fuel' s')
      end
  end.

Definition stripTags (s : string) : string :=
  stripTagsFuel (String.length s) s.

End Str.

(** [sanitizeString] of the Express routes: remove HTML tags, then trim. *)
Definition sanitizeString (input : string) : string :=
  Str.trim (Str.stripTags input).

(** ** Domain model (shared/dao) *)

Inductive TeamRole := chef_equipe | membre_equipe.

Record TeamMember := mkTeamMember {
  tm_id : string;
  tm_name : string;
  tm_role : TeamRole;
  tm_email : option string
}.

Record DaoTask := mkTask {
  id : Z;
  name : string;
  progress : option Z;
  comment : option string;
  isApplicable : bool;
  assignedTo : option string;
  lastUpdatedBy : option string;
  lastUpdatedAt : option string
}.

Record Dao := mkDao {
  dao_id : string;
  numeroListe : string;
  objetDossier : string;
  reference : string;
  autoriteContractante : string;
  dateDepot : string;
  equipe : list TeamMember;
  tasks : list DaoTask;
  createdAt : string;
  updatedAt : string
}.

Inductive UserRole := admin | user.

Record AuthUser := mkAuthUser {
  au_id : string;
  au_name : string;
  au_email : string;
  au_role : UserRole
}.

Global Instance TeamRole_eq_dec : EqDecision TeamRole.
Proof. solve_decision. Defined.
Global Instance UserRole_eq_dec : EqDecision UserRole.
Proof. solve_decision. Defined.
Global Instance TeamMember_eq_dec : EqDecision TeamMember.
Proof. solve_decision. Defined.
Global Instance DaoTask_eq_dec : EqDecision DaoTask.
Proof. solve_decision. Defined.
Global Instance Dao_eq_dec : EqDecision Dao.
Proof. solve_decision. Defined.

(** ** Status and progress engine *)

Inductive DaoStatus := completed | urgent | safe | default.

Definition msPerDay : Z := 1000 * 60 * 60 * 24.

(** Calendar day (days since the epoch) of a millisecond clock value. *)
Definition dateOnly (t : Z) : Z := t / msPerDay.

(** Modelled from the spec: the day count inside [calculateDaoStatus]
    ([shared/dao], not among the sources).  Section 4.1: the difference
    [dateDepot - today] in whole days, date-only, not time-of-day. *)
Definition daysDiffOf (today dateDepot : Z) : Z :=
  dateOnly dateDepot - dateOnly today.

(** Modelled from the spec: [calculateDaoStatus] lives in [shared/dao],
    which is not among the sources; only its callers are.  Section 4.1: the
    status follows the five-step priority cascade.  [today] is the clock
    read by the function. *)
Definition calculateDaoStatus (today dateDepot progress : Z) : DaoStatus :=
  if progress =? 100 then completed
  else
    let daysDiff := daysDiffOf today dateDepot in
    if daysDiff <? 0 then urgent
    else if 5 <=? daysDiff then safe
    else if daysDiff <=? 3 then urgent
    else default.

(** [getProgressColor] of the task row (front end): the same cascade, with
    [daysDiff] received as a property of the row. *)
Definition getProgressColor (daysDiff progress : Z) : string :=
  if progress =? 100 then "bg-gray-400"
  else if daysDiff <? 0 then "bg-red-500"
  else if 5 <=? daysDiff then "bg-green-500"
  else if daysDiff <=? 3 then "bg-red-500"
  else "bg-blue-500".

(** [getSliderColor] of the same component. *)
Definition getSliderColor (daysDiff progress : Z) : string :=
  if progress =? 100 then "#9ca3af"
  else if daysDiff <? 0 then "#ef4444"
  else if 5 <=? daysDiff then "#10b981"
  else if daysDiff <=? 3 then "#ef4444"
  else "#3b82f6".

(** Colour class the task row shows for each status. *)
Definition statusColor (s : DaoStatus) : string :=
  match s with
  | completed => "bg-gray-400"
  | urgent => "bg-red-500"
  | safe => "bg-green-500"
  | default => "bg-blue-500"
  end.

(** [task.progress || 0]. *)
Definition progressOrZero (t : DaoTask) : Z :=
  match progress t with
  | Some p => p
  | None => 0
  end.

(** [Math.round(total / count)] for a positive [count]: the nearest integer,
    halves rounded up. *)
Definition roundDiv (total count : Z) : Z :=
  (2 * total + count) / (2 * count).

Definition clampPercent (x : Z) : Z := Z.max 0 (Z.min 100 x).

(** Modelled from the spec: [calculateDaoProgress] lives in [shared/dao],
    which is not among the sources.  Section 4.1: only the applicable tasks
    count; none gives 0; otherwise the rounded average of their progress, a
    null progress counting as 0, clamped to the range 0..100. *)
Definition calculateDaoProgress (tasks : list DaoTask) : Z :=
  let applicableTasks := List.filter isApplicable tasks in
  match applicableTasks with
  | [] => 0
  | _ =>
      let total := fold_left (fun sum t => sum + progressOrZero t) applicableTasks 0 in
      clampPercent (roundDiv total (Z.of_nat (List.length applicableTasks)))
  end.

(** ** DAO serial numbers *)

Module Serial.

(** Strip a literal prefix. *)
Fixpoint stripPrefix (p s : string) : option string :=
  match p, s with
  | "", _ => Some s
  | String a p', String b s' =>
      if Ascii.eqb a b then stripPrefix p' s' else None
  | String _ _, "" => None
  end.

(** [\d{n}] at the head of [s]: the digits taken and the rest. *)
Fixpoint takeDigits (n : nat) (s : string) : option (string * string) :=
  match n with
  | O => Some ("", s)
  | S n' =>
      match s with
      | String c s' =>
          if Str.isDigit c then
            match takeDigits n' s' with
            | Some (ds, rest) => Some (String c ds, rest)
            | None => None
            end
          else None
      | "" => None
      end
  end.

(** [DAO-(\d{4})-(\d{3})] at the head of [s]: both captures and what
    follows the match. *)
Definition matchHead (s : string) : option (string * string * string) :=
  match stripPrefix "DAO-" s with
  | Some r0 =>
      match takeDigits 4 r0 with
      | Some (yyyy, r1) =>
          match stripPrefix "-" r1 with
          | Some r2 =>
              match takeDigits 3 r2 with
              | Some (seq, rest) => Some (yyyy, seq, rest)
              | None => None
              end
          | None => None
          end
      | None => None
      end
  | None => None
  end.

(** [s.match(/^DAO-(\d{4})-(\d{3})$/)]: the two captures. *)
Definition matchAnchored (s : string) : option (string * string) :=
  match matchHead s with
  | Some (yyyy, seq, "") => Some (yyyy, seq)
  | _ => None
  end.

(** [s.match(/DAO-\d{4}-(\d{3})/)]: leftmost match anywhere in [s]; the
    capture. *)
Fixpoint matchAnywhere (s : string) : option string :=
  match matchHead s with
  | Some (_, seq, _) => Some seq
  | None =>
      match s with
      | "" => None
      | String _ s' => matchAnywhere s'
      end
  end.

(** [Math.max(...numbers)] on a non-empty array ([-Infinity] on an empty
    one is never asked for: every caller tests the length first). *)
Definition maxOf (numbers : list N) : N := fold_right N.max 0%N numbers.

(** [`DAO-${year}-${n.toString().padStart(3, "0")}`]. *)
Definition format (year n : N) : string :=
  "DAO-" +:+ Str.toString year +:+ "-" +:+ Str.padStart0 3 (Str.toString n).

(** [`DAO-${year}-001`]. *)
Definition first (year : N) : string :=
  "DAO-" +:+ Str.toString year +:+ "-001".

(** Outcome of the computation behind [GET /api/dao/next-number]. *)
Inductive outcome :=
| NextNumber (s : string)
| InvalidYear
| YearLimitExceeded.

(** The filter of the Express route:
    [m = s.match(/^DAO-(\d{4})-(\d{3})$/); m && parseInt(m[1], 10) === year]. *)
Definition isOfYear (year : N) (s : string) : bool :=
  match matchAnchored s with
  | Some (yyyy, _) => (Str.parseInt10 yyyy =? year)%N
  | None => false
  end.

(** The map of the Express route:
    [m = s.match(/^DAO-\d{4}-(\d{3})$/); m ? parseInt(m[1], 10) : 0]. *)
Definition seqAnchored (s : string) : N :=
  match matchAnchored s with
  | Some (_, seq) => Str.parseInt10 seq
  | None => 0%N
  end.

(** Express route [GET /api/dao/next-number] (routes/dao-simple.ts), on the
    serials held by the store and the current year. *)
Definition nextNumberExpress (existing : list string) (year : N) : outcome :=
  if ((year <? 2020) || (2100 <? year))%N then InvalidYear
  else
    let currentYear := List.filter (isOfYear year) existing in
    match currentYear with
    | [] => NextNumber (first year)
    | _ =>
        let numbers :=
          List.filter (fun num => (0 <? num)%N) (List.map seqAnchored currentYear) in
        let nextNumber :=
          match numbers with
          | [] => 1%N
          | _ => (maxOf numbers + 1)%N
          end in
        if (999 <? nextNumber)%N then YearLimitExceeded
        else NextNumber (format year nextNumber)
    end.

(** The capture-and-maximum step shared by the two MongoDB variants: no
    capacity test, and [padStart] only pads. *)
Definition nextFromMatches (found : list string) (year : N) : string :=
  match found with
  | [] => first year
  | _ =>
      let numbers :=
        List.map
          (fun s =>
             match matchAnywhere s with
             | Some seq => Str.parseInt10 seq
             | None => 0%N
             end) found in
      let nextNumber :=
        match numbers with
        | [] => 1%N
        | _ => (maxOf numbers + 1)%N
        end in
      format year nextNumber
  end.

(** [DaoService.generateNextDaoNumber] (services/daoService.ts): the query
    keeps the serials that start with [DAO-<year>-].  The query also sorts
    them, which the maximum does not depend on. *)
Definition generateNextDaoNumber (existing : list string) (year : N) : string :=
  let prefix := "DAO-" +:+ Str.toString year +:+ "-" in
  nextFromMatches
    (List.filter (fun s => bool_decide (is_Some (stripPrefix prefix s))) existing)
    year.

(** MongoDB route [GET /api/dao/next-number] (routes/dao.ts): the query
    keeps the serials matching [^DAO-<year>-\d{3}$]. *)
Definition nextNumberMongo (existing : list string) (year : N) : string :=
  let prefix := "DAO-" +:+ Str.toString year +:+ "-" in
  nextFromMatches
    (List.filter
       (fun s =>
          match stripPrefix prefix s with
          | Some r =>
              match takeDigits 3 r with
              | Some (_, "") => true
              | _ => false
              end
          | None => false
          end) existing)
    year.

End Serial.

(** ** HTTP replies and the authorization middleware *)

Inductive Reply :=
| ReplyError (status : Z) (error : string) (code : option string)
| ReplyDao (status : Z) (d : Dao)
| ReplyTaskDeleted (deletedId : Z) (deletedName : string) (d : Dao).

(** [authenticate] (middleware/auth.ts): the bearer credential either
    resolves to an active user, attached to the request, or the request is
    answered 401.  The argument is what the credential resolves to. *)
Definition authenticate (credential : option AuthUser) : Reply + AuthUser :=
  match credential with
  | None => inl (ReplyError 401 "Invalid or expired token" None)
  | Some u => inr u
  end.

(** [authorize(roles)] (middleware/auth.ts): [None] stands for [next()]. *)
Definition authorize (roles : list UserRole) (reqUser : option AuthUser) : option Reply :=
  match reqUser with
  | None => Some (ReplyError 401 "Authentication required" None)
  | Some u =>
      if bool_decide (au_role u ∈ roles) then None
      else Some (ReplyError 403 "Insufficient permissions" None)
  end.

(** [requireAdmin] and [requireUser] (middleware/auth.ts). *)
Definition requireAdmin := authorize [admin].
Definition requireUser := authorize [admin; user].

(** A route declared as [router.verb(path, authenticate, guard, handler)].
    The audit-log middleware of the Express routes only writes a log line
    and is left out. *)
Definition route {S : Type} (guard : option AuthUser → option Reply)
    (handler : AuthUser → S → S * Reply)
    (credential : option AuthUser) (st : S) : S * Reply :=
  match authenticate credential with
  | inl r => (st, r)
  | inr u =>
      match guard (Some u) with
      | Some r => (st, r)
      | None => handler u st
      end
  end.

(** ** Request bodies *)

(** Body of a task update; an absent field is [None]. *)
Record TaskPatch := mkPatch {
  p_progress : option Z;
  p_comment : option string;
  p_isApplicable : option bool;
  p_assignedTo : option string
}.

(** Body of [POST /api/dao/:daoId/tasks]. *)
Record TaskDraft := mkDraft {
  d_name : string;
  d_isApplicable : bool;
  d_progress : option Z;
  d_comment : option string;
  d_assignedTo : option string
}.

(** Body of [PUT /api/dao/:id]: every field of the creation schema, each
    optional. *)
Record DaoUpdate := mkDaoUpdate {
  b_numeroListe : option string;
  b_objetDossier : option string;
  b_reference : option string;
  b_autoriteContractante : option string;
  b_dateDepot : option string;
  b_equipe : option (list TeamMember);
  b_tasks : option (list DaoTask)
}.

Definition lengthIn (lo hi : nat) (s : string) : bool :=
  bool_decide (lo ≤ String.length s ≤ hi)%nat.

Definition optAll {A} (check : A → bool) (o : option A) : bool :=
  match o with
  | Some x => check x
  | None => true
  end.

(** [{ ...current, ...update }] on one field: the update's value when the
    key is present. *)
Definition orElse {A} (o : option A) (current : A) : A :=
  match o with
  | Some x => x
  | None => current
  end.

Definition percentOk (p : Z) : bool := (0 <=? p) && (p <=? 100).

(** ** Numbers *)

(** A JavaScript number is an IEEE 754 double: an integer is one exactly
    when it is [m * 2 ^ e] with [|m| < 2 ^ 53].  [roundDouble n] is the
    number nearest to the integer [n], a tie going to the even significand;
    it is what an addition of two numbers returns for the exact sum [n].
    (No overflow: the largest number plus one rounds back to it.) *)
Definition roundDouble (n : Z) : Z :=
  let a := Z.abs n in
  if a <? 2 ^ 53 then n
  else
    let e := Z.log2 a - 52 in
    let q := a / 2 ^ e in
    let r := a mod 2 ^ e in
    let half := 2 ^ (e - 1) in
    let q' := if r <? half then q
              else if half <? r then q + 1
              else if Z.even q then q else q + 1 in
    Z.sgn n * (q' * 2 ^ e).

(** [Number.isSafeInteger]: at most [2 ^ 53 - 1] in absolute value. *)
Definition isSafeInteger (n : Z) : bool := Z.abs n <=? 9007199254740991.

(** ** Express back end (routes/dao-simple.ts, data/daoStorage.ts) *)

Module Express.

(** Modelled from the spec: the Express routes import [requireAdmin] from
    their own [middleware/auth], which is not among the sources.  Section
    4.3: adding, deleting and renaming a task are admin-only.  It is taken
    to be the guard that the MongoDB back end's middleware declares under
    the same name. *)
Definition requireAdmin : option AuthUser → option Reply := authorize [admin].

(** Modelled from the spec: the Express routes import [requireUser] from the
    same missing file.  Section 4.3: updating a Dao or a task is open to
    users and admins.  It is taken to be the MongoDB back end's guard of the
    same name. *)
Definition requireUser : option AuthUser → option Reply := authorize [admin; user].

(** [DaoStorage]: the array and its index by id.  The index by
    contracting authority is never read by the routes and is left out. *)
Record DaoStorage := mkStorage {
  storage : list Dao;
  idIndex : gmap string nat
}.

Fixpoint indexFrom (i : nat) (l : list Dao) (m : gmap string nat) : gmap string nat :=
  match l with
  | [] => m
  | d :: l' => indexFrom (S i) l' (<[dao_id d := i]> m)
  end.

Definition rebuildIndexes (l : list Dao) : DaoStorage :=
  mkStorage l (indexFrom 0 l ∅).

Definition getAll (st : DaoStorage) : list Dao := storage st.

Definition findIndexById (st : DaoStorage) (i : string) : option nat :=
  idIndex st !! i.

Definition findById (st : DaoStorage) (i : string) : option Dao :=
  match idIndex st !! i with
  | Some index => storage st !! index
  | None => None
  end.

Definition updateAtIndex (st : DaoStorage) (index : nat) (dao : Dao) : DaoStorage :=
  match storage st !! index with
  | Some oldDao =>
      let storage' := <[index := dao]> (storage st) in
      if bool_decide (dao_id oldDao ≠ dao_id dao
                      ∨ autoriteContractante oldDao ≠ autoriteContractante dao)
      then rebuildIndexes storage'
      else mkStorage storage' (idIndex st)
  | None => st
  end.

Definition err (status : Z) (error code : string) : Reply :=
  ReplyError status error (Some code).

(** [!id || id.length > 100]. *)
Definition invalidId (i : string) : bool :=
  bool_decide (i = "") || bool_decide (100 < String.length i)%nat.

(** [taskUpdateSchema.parse]: none of its fields is transformed. *)
Definition taskUpdateSchema (b : TaskPatch) : bool :=
  optAll percentOk (p_progress b)
  && optAll (lengthIn 0 1000) (p_comment b)
  && optAll (lengthIn 0 50) (p_assignedTo b).

(** The four conditional assignments and the two audit stamps of
    [PUT /api/dao/:id/tasks/:taskId], on the task found. *)
Definition applyPatch (b : TaskPatch) (actor : string) (now : string) (t : DaoTask) : DaoTask :=
  {| id := id t;
     name := name t;
     progress := match p_progress b with Some p => Some p | None => progress t end;
     comment := match p_comment b with
                | Some c => Some (sanitizeString c)
                | None => comment t
                end;
     isApplicable := match p_isApplicable b with Some a => a | None => isApplicable t end;
     assignedTo := match p_assignedTo b with
                   | Some a => Some (sanitizeString a)
                   | None => assignedTo t
                   end;
     lastUpdatedBy := Some actor;
     lastUpdatedAt := Some now |}.

(** In-place change of the object returned by [tasks.find]: the first
    task with the id. *)
Fixpoint mutateFirst (taskId : Z) (f : DaoTask → DaoTask) (l : list DaoTask) : list DaoTask :=
  match l with
  | [] => []
  | t :: l' => if id t =? taskId then f t :: l' else t :: mutateFirst taskId f l'
  end.

Definition findTask (taskId : Z) (l : list DaoTask) : option DaoTask :=
  List.find (fun t => id t =? taskId) l.

Definition withTasks (d : Dao) (ts : list DaoTask) (now : string) : Dao :=
  {| dao_id := dao_id d;
     numeroListe := numeroListe d;
     objetDossier := objetDossier d;
     reference := reference d;
     autoriteContractante := autoriteContractante d;
     dateDepot := dateDepot d;
     equipe := equipe d;
     tasks := ts;
     createdAt := createdAt d;
     updatedAt := now |}.

(** Handler of [PUT /api/dao/:id/tasks/:taskId].  [taskId] is the value of
    [parseInt(req.params.taskId)], [None] for [NaN]. *)
Definition updateTaskHandler (now : string) (daoId : string) (taskId : option Z)
    (body : TaskPatch) (u : AuthUser) (st : DaoStorage) : DaoStorage * Reply :=
  if invalidId daoId then (st, err 400 "Invalid DAO ID" "INVALID_DAO_ID")
  else
    match taskId with
    | None => (st, err 400 "Invalid task ID" "INVALID_TASK_ID")
    | Some parsedTaskId =>
        if parsedTaskId <? 1 then (st, err 400 "Invalid task ID" "INVALID_TASK_ID")
        else if negb (taskUpdateSchema body)
        then (st, err 400 "Validation error" "VALIDATION_ERROR")
        else
          match findIndexById st daoId with
          | None => (st, err 404 "DAO not found" "DAO_NOT_FOUND")
          | Some daoIndex =>
              match findById st daoId with
              | None => (st, err 500 "Failed to update task" "TASK_UPDATE_ERROR")
              | Some dao =>
                  match findTask parsedTaskId (tasks dao) with
                  | None => (st, err 404 "Task not found" "TASK_NOT_FOUND")
                  | Some _ =>
                      let dao' :=
                        withTasks dao
                          (mutateFirst parsedTaskId (applyPatch body (au_id u) now) (tasks dao))
                          now in
                      (updateAtIndex st daoIndex dao', ReplyDao 200 dao')
                  end
              end
          end
    end.

Definition updateTask (now : string) (daoId : string) (taskId : option Z) (body : TaskPatch) :=
  route requireUser (updateTaskHandler now daoId taskId body).

(** [createTaskSchema.parse]: the name is trimmed after its length is
    checked. *)
Definition createTaskSchema (b : TaskDraft) : option TaskDraft :=
  if lengthIn 1 200 (d_name b)
     && optAll percentOk (d_progress b)
     && optAll (lengthIn 0 1000) (d_comment b)
     && optAll (lengthIn 0 50) (d_assignedTo b)
  then Some {| d_name := Str.trim (d_name b);
               d_isApplicable := d_isApplicable b;
               d_progress := d_progress b;
               d_comment := d_comment b;
               d_assignedTo := d_assignedTo b |}
  else None.

(** [existingIds.length > 0 ? Math.max(...existingIds) + 1 : 1]; the
    maximum is one of the ids, the addition is an addition of numbers. *)
Definition newTaskId (existingIds : list Z) : Z :=
  match existingIds with
  | [] => 1
  | i :: rest => roundDouble (fold_left Z.max rest i + 1)
  end.

Definition newTask (v : TaskDraft) (newId : Z) (actor now : string) : DaoTask :=
  {| id := newId;
     name := sanitizeString (d_name v);
     progress := if d_isApplicable v then d_progress v else None;
     comment := match d_comment v with
                | Some c => if bool_decide (c = "") then None else Some (sanitizeString c)
                | None => None
                end;
     isApplicable := d_isApplicable v;
     assignedTo := d_assignedTo v;
     lastUpdatedBy := Some actor;
     lastUpdatedAt := Some now |}.

(** Handler of [POST /api/dao/:daoId/tasks]. *)
Definition addTaskHandler (now : string) (daoId : string) (body : TaskDraft)
    (u : AuthUser) (st : DaoStorage) : DaoStorage * Reply :=
  if invalidId daoId then (st, err 400 "Invalid DAO ID" "INVALID_DAO_ID")
  else
    match createTaskSchema body with
    | None => (st, err 400 "Validation error" "VALIDATION_ERROR")
    | Some validatedData =>
        match findIndexById st daoId with
        | None => (st, err 404 "DAO not found" "DAO_NOT_FOUND")
        | Some daoIndex =>
            match findById st daoId with
            | None => (st, err 500 "Failed to add task" "ADD_TASK_ERROR")
            | Some dao =>
                let existingIds := List.map id (tasks dao) in
                let newId := newTaskId existingIds in
                let dao' :=
                  withTasks dao
                    (tasks dao ++ [newTask validatedData newId (au_id u) now]) now in
                (updateAtIndex st daoIndex dao', ReplyDao 201 dao')
            end
        end
    end.

Definition addTask (now : string) (daoId : string) (body : TaskDraft) :=
  route requireAdmin (addTaskHandler now daoId body).

Definition renameStamp (newName actor now : string) (t : DaoTask) : DaoTask :=
  {| id := id t;
     name := sanitizeString newName;
     progress := progress t;
     comment := comment t;
     isApplicable := isApplicable t;
     assignedTo := assignedTo t;
     lastUpdatedBy := Some actor;
     lastUpdatedAt := Some now |}.

(** Handler of [PUT /api/dao/:daoId/tasks/:taskId/name]; the body is
    [{ name }], trimmed by the schema after its length is checked. *)
Definition renameTaskHandler (now : string) (daoId : string) (taskId : option Z)
    (bodyName : string) (u : AuthUser) (st : DaoStorage) : DaoStorage * Reply :=
  if invalidId daoId then (st, err 400 "Invalid DAO ID" "INVALID_DAO_ID")
  else
    match taskId with
    | None => (st, err 400 "Invalid task ID" "INVALID_TASK_ID")
    | Some parsedTaskId =>
        if parsedTaskId <? 1 then (st, err 400 "Invalid task ID" "INVALID_TASK_ID")
        else if negb (lengthIn 1 200 bodyName)
        then (st, err 400 "Validation error" "VALIDATION_ERROR")
        else
          match findIndexById st daoId with
          | None => (st, err 404 "DAO not found" "DAO_NOT_FOUND")
          | Some daoIndex =>
              match findById st daoId with
              | None => (st, err 500 "Failed to update task name" "UPDATE_TASK_NAME_ERROR")
              | Some dao =>
                  match findTask parsedTaskId (tasks dao) with
                  | None => (st, err 404 "Task not found" "TASK_NOT_FOUND")
                  | Some _ =>
                      let dao' :=
                        withTasks dao
                          (mutateFirst parsedTaskId
                             (renameStamp (Str.trim bodyName) (au_id u) now) (tasks dao))
                          now in
                      (updateAtIndex st daoIndex dao', ReplyDao 200 dao')
                  end
              end
          end
    end.

Definition renameTask (now : string) (daoId : string) (taskId : option Z) (bodyName : string) :=
  route requireAdmin (renameTaskHandler now daoId taskId bodyName).

(** [tasks.splice(tasks.findIndex(t => t.id === taskId), 1)]. *)
Fixpoint spliceFirst (taskId : Z) (l : list DaoTask) : list DaoTask :=
  match l with
  | [] => []
  | t :: l' => if id t =? taskId then l' else t :: spliceFirst taskId l'
  end.

(** Handler of [DELETE /api/dao/:daoId/tasks/:taskId]. *)
Definition deleteTaskHandler (now : string) (daoId : string) (taskId : option Z)
    (u : AuthUser) (st : DaoStorage) : DaoStorage * Reply :=
  if invalidId daoId then (st, err 400 "Invalid DAO ID" "INVALID_DAO_ID")
  else
    match taskId with
    | None => (st, err 400 "Invalid task ID" "INVALID_TASK_ID")
    | Some parsedTaskId =>
        if parsedTaskId <? 1 then (st, err 400 "Invalid task ID" "INVALID_TASK_ID")
        else
          match findIndexById st daoId with
          | None => (st, err 404 "DAO not found" "DAO_NOT_FOUND")
          | Some daoIndex =>
              match findById st daoId with
              | None => (st, err 500 "Failed to delete task" "DELETE_TASK_ERROR")
              | Some dao =>
                  match findTask parsedTaskId (tasks dao) with
                  | None => (st, err 404 "Task not found" "TASK_NOT_FOUND")
                  | Some deletedTask =>
                      let dao' := withTasks dao (spliceFirst parsedTaskId (tasks dao)) now in
                      (updateAtIndex st daoIndex dao',
                       ReplyTaskDeleted (id deletedTask) (name deletedTask) dao')
                  end
              end
          end
    end.

Definition deleteTask (now : string) (daoId : string) (taskId : option Z) :=
  route requireAdmin (deleteTaskHandler now daoId taskId).

Section UpdateDao.

(** [!isNaN(Date.parse(s))] and zod's [email()] test are library code;
    the schema is stated over them. *)
Variable dateParses : string → bool.
Variable isEmail : string → bool.

Definition teamMemberSchema (m : TeamMember) : option TeamMember :=
  if lengthIn 1 50 (tm_id m) && lengthIn 1 100 (tm_name m) && optAll isEmail (tm_email m)
  then Some {| tm_id := tm_id m; tm_name := Str.trim (tm_name m);
               tm_role := tm_role m; tm_email := tm_email m |}
  else None.

Definition taskSchema (t : DaoTask) : option DaoTask :=
  if (1 <=? id t)
     && lengthIn 1 200 (name t)
     && optAll percentOk (progress t)
     && optAll (lengthIn 0 1000) (comment t)
     && optAll (lengthIn 0 50) (assignedTo t)
     && optAll (lengthIn 0 50) (lastUpdatedBy t)
  then Some {| id := id t; name := Str.trim (name t); progress := progress t;
               comment := comment t; isApplicable := isApplicable t;
               assignedTo := assignedTo t; lastUpdatedBy := lastUpdatedBy t;
               lastUpdatedAt := lastUpdatedAt t |}
  else None.

(** An optional, length-checked and then trimmed string field. *)
Definition trimmedField (lo hi : nat) (o : option string) : option (option string) :=
  match o with
  | None => Some None
  | Some s => if lengthIn lo hi s then Some (Some (Str.trim s)) else None
  end.

(** An optional array field with a length bound, each element parsed. *)
Definition arrayField {A} (lo hi : nat) (parse : A → option A) (o : option (list A))
    : option (option (list A)) :=
  match o with
  | None => Some None
  | Some l =>
      if bool_decide (lo ≤ List.length l ≤ hi)%nat
      then match mapM parse l with
           | Some l' => Some (Some l')
           | None => None
           end
      else None
  end.

(** [updateDaoSchema.parse], that is [createDaoSchema.partial()]. *)
Definition updateDaoSchema (b : DaoUpdate) : option DaoUpdate :=
  match trimmedField 1 50 (b_numeroListe b),
        trimmedField 1 500 (b_objetDossier b),
        trimmedField 1 200 (b_reference b),
        trimmedField 1 200 (b_autoriteContractante b),
        arrayField 1 20 teamMemberSchema (b_equipe b),
        arrayField 0 50 taskSchema (b_tasks b) with
  | Some n, Some o, Some r, Some a, Some e, Some t =>
      if optAll dateParses (b_dateDepot b)
      then Some {| b_numeroListe := n; b_objetDossier := o; b_reference := r;
                   b_autoriteContractante := a; b_dateDepot := b_dateDepot b;
                   b_equipe := e; b_tasks := t |}
      else None
  | _, _, _, _, _, _ => None
  end.

(** [if (v) v = sanitizeString(v)]: an empty string is falsy. *)
Definition sanitizeIfTruthy (s : string) : string :=
  if bool_decide (s = "") then s else sanitizeString s.

Definition sanitizeMember (m : TeamMember) : TeamMember :=
  {| tm_id := tm_id m; tm_name := sanitizeString (tm_name m);
     tm_role := tm_role m; tm_email := tm_email m |}.

(** [{ ...currentDao, ...sanitizedUpdates, updatedAt: now }]. *)
Definition mergeUpdate (currentDao : Dao) (v : DaoUpdate) (now : string) : Dao :=
  {| dao_id := dao_id currentDao;
     numeroListe := from_option sanitizeIfTruthy (numeroListe currentDao) (b_numeroListe v);
     objetDossier := from_option sanitizeIfTruthy (objetDossier currentDao) (b_objetDossier v);
     reference := from_option sanitizeIfTruthy (reference currentDao) (b_reference v);
     autoriteContractante :=
       from_option sanitizeIfTruthy (autoriteContractante currentDao) (b_autoriteContractante v);
     dateDepot := orElse (b_dateDepot v) (dateDepot currentDao);
     equipe := from_option (List.map sanitizeMember) (equipe currentDao) (b_equipe v);
     tasks := orElse (b_tasks v) (tasks currentDao);
     createdAt := createdAt currentDao;
     updatedAt := now |}.

(** The duplicate test of [PUT /api/dao/:id]. *)
Definition duplicateNumber (st : DaoStorage) (daoId : string) (v : DaoUpdate) : bool :=
  match b_numeroListe v with
  | Some n =>
      negb (bool_decide (n = ""))
      && existsb (fun d => negb (bool_decide (dao_id d = daoId))
                           && bool_decide (numeroListe d = n)) (getAll st)
  | None => false
  end.

(** Handler of [PUT /api/dao/:id].  An index entry pointing past the
    array cannot arise from the store's own operations; that branch is
    closed with the handler's catch-all reply. *)
Definition updateDaoHandler (now : string) (daoId : string) (body : DaoUpdate)
    (u : AuthUser) (st : DaoStorage) : DaoStorage * Reply :=
  if invalidId daoId then (st, err 400 "Invalid DAO ID" "INVALID_ID")
  else
    match updateDaoSchema body with
    | None => (st, err 400 "Validation error" "VALIDATION_ERROR")
    | Some validatedData =>
        match findIndexById st daoId with
        | None => (st, err 404 "DAO not found" "DAO_NOT_FOUND")
        | Some index =>
            if duplicateNumber st daoId validatedData
            then (st, err 400 "DAO number already exists" "DUPLICATE_NUMBER")
            else
              match getAll st !! index with
              | None => (st, err 500 "Failed to update DAO" "UPDATE_ERROR")
              | Some currentDao =>
                  let updatedDao := mergeUpdate currentDao validatedData now in
                  (updateAtIndex st index updatedDao, ReplyDao 200 updatedDao)
              end
        end
    end.

Definition updateDao (now : string) (daoId : string) (body : DaoUpdate) :=
  route requireUser (updateDaoHandler now daoId body).

End UpdateDao.

(** ** The rest of the store (data/daoStorage.ts) *)

(** [add(dao)]: push, then rebuild the indexes. *)
Definition add (st : DaoStorage) (dao : Dao) : DaoStorage :=
  rebuildIndexes (storage st ++ [dao]).

(** [deleteById(id)]: splice the indexed position out and rebuild; [false]
    when the id is not indexed. *)
Definition deleteById (st : DaoStorage) (i : string) : DaoStorage * bool :=
  match findIndexById st i with
  | Some index => (rebuildIndexes (delete index (storage st)), true)
  | None => (st, false)
  end.

(** [size()]. *)
Definition size (st : DaoStorage) : nat := List.length (storage st).

(** ** Dao routes that the task routes sit beside (routes/dao-simple.ts) *)

(** Handler of [GET /api/dao/:id]. *)
Definition getDaoHandler (daoId : string) (st : DaoStorage) : Reply :=
  if invalidId daoId then err 400 "Invalid DAO ID" "INVALID_ID"
  else
    match findById st daoId with
    | None => err 404 "DAO not found" "DAO_NOT_FOUND"
    | Some dao => ReplyDao 200 dao
    end.

(** Reply of [DELETE /api/dao/:id]: an error, or the id and serial of the
    Dao deleted. *)
Inductive DeleteReply :=
| DeleteFailed (r : Reply)
| DaoDeleted (deletedId deletedNumero : string).

(** Handler of [DELETE /api/dao/:id].  The Dao is read at the indexed
    position before [deleteById] runs and its fields are used after. *)
Definition deleteDaoHandler (daoId : string) (st : DaoStorage) : DaoStorage * DeleteReply :=
  if invalidId daoId then (st, DeleteFailed (err 400 "Invalid DAO ID" "INVALID_ID"))
  else
    match findIndexById st daoId with
    | None => (st, DeleteFailed (err 404 "DAO not found" "DAO_NOT_FOUND"))
    | Some index =>
        match getAll st !! index with
        | Some deletedDao =>
            (fst (deleteById st daoId), DaoDeleted (dao_id deletedDao) (numeroListe deletedDao))
        | None =>
            (fst (deleteById st daoId),
             DeleteFailed (err 500 "Failed to delete DAO" "DELETE_ERROR"))
        end
    end.

Section CreateDao.

(** [!isNaN(Date.parse(s))] and zod's [email()] test are library code, and
    [DEFAULT_TASKS] is a table of [shared/dao], which is not among the
    sources: the handler is stated over them. *)
Variable dateParses : string → bool.
Variable isEmail : string → bool.
Variable DEFAULT_TASKS : list DaoTask.

(** Body of [POST /api/dao]. *)
Record DaoCreate := mkDaoCreate {
  c_numeroListe : string;
  c_objetDossier : string;
  c_reference : string;
  c_autoriteContractante : string;
  c_dateDepot : string;
  c_equipe : list TeamMember;
  c_tasks : option (list DaoTask)
}.

(** [createDaoSchema.parse]: lengths are checked, then the strings are
    trimmed. *)
Definition createDaoSchema (b : DaoCreate) : option DaoCreate :=
  if lengthIn 1 50 (c_numeroListe b)
     && lengthIn 1 500 (c_objetDossier b)
     && lengthIn 1 200 (c_reference b)
     && lengthIn 1 200 (c_autoriteContractante b)
     && dateParses (c_dateDepot b)
  then
    match arrayField 1 20 (teamMemberSchema isEmail) (Some (c_equipe b)),
          arrayField 0 50 taskSchema (c_tasks b) with
    | Some (Some e), Some t =>
        Some {| c_numeroListe := Str.trim (c_numeroListe b);
                c_objetDossier := Str.trim (c_objetDossier b);
                c_reference := Str.trim (c_reference b);
                c_autoriteContractante := Str.trim (c_autoriteContractante b);
                c_dateDepot := c_dateDepot b;
                c_equipe := e;
                c_tasks := t |}
    | _, _ => None
    end
  else None.

(** [DEFAULT_TASKS.map(task => ({ ...task, progress: null, comment: "" }))]. *)
Definition blankTask (t : DaoTask) : DaoTask :=
  {| id := id t; name := name t; progress := None; comment := Some "";
     isApplicable := isApplicable t; assignedTo := assignedTo t;
     lastUpdatedBy := lastUpdatedBy t; lastUpdatedAt := lastUpdatedAt t |}.

(** The Dao built by [POST /api/dao] from the validated body. *)
Definition newDao (v : DaoCreate) (newId now : string) : Dao :=
  {| dao_id := newId;
     numeroListe := sanitizeString (c_numeroListe v);
     objetDossier := sanitizeString (c_objetDossier v);
     reference := sanitizeString (c_reference v);
     autoriteContractante := sanitizeString (c_autoriteContractante v);
     dateDepot := c_dateDepot v;
     equipe := List.map sanitizeMember (c_equipe v);
     tasks := match c_tasks v with
              | Some ts => ts
              | None => List.map blankTask DEFAULT_TASKS
              end;
     createdAt := now;
     updatedAt := now |}.

(** Handler of [POST /api/dao].  [newId] is the value of [generateId()]
    (clock and random draw) and [now] the clock. *)
Definition createDaoHandler (now newId : string) (body : DaoCreate) (st : DaoStorage)
    : DaoStorage * Reply :=
  match createDaoSchema body with
  | None => (st, err 400 "Validation error" "VALIDATION_ERROR")
  | Some validatedData =>
      if 10000 <? Z.of_nat (size st)
      then (st, err 400 "Maximum number of DAOs reached" "STORAGE_LIMIT")
      else if existsb (fun dao => bool_decide (numeroListe dao = c_numeroListe validatedData))
                (getAll st)
      then (st, err 400 "DAO number already exists" "DUPLICATE_NUMBER")
      else
        let dao := newDao validatedData newId now in
        (add st dao, ReplyDao 201 dao)
  end.

End CreateDao.

End Express.

(** ** MongoDB back end (routes/dao.ts, models/Dao.ts) *)

Module Mongo.

(** The validator of the [tasks] path of the Dao schema:
    [new Set(ids).size === ids.length] on the ids of the tasks. *)
Definition uniqueTaskIds (v : list DaoTask) : bool :=
  let ids := List.map id v in
  bool_decide (size (list_to_set ids : gset Z) = List.length ids).

(** The [min: 0, max: 100] of the [progress] path of the task schema; the
    default [null] passes. *)
Definition progressInRange (t : DaoTask) : bool :=
  optAll percentOk (progress t).

Section UpdateTask.

(** Mongoose is library code: whether a route parameter casts to an
    ObjectId, and whether a document passes the schema's validators when
    it is saved, are taken as given. *)
Variable isObjectId : string → bool.
Variable validates : Dao → bool.

Definition err (status : Z) (error : string) : Reply :=
  ReplyError status error None.

(** The four conditional assignments and the two audit stamps of
    [PUT /api/dao/:id/tasks/:taskId].  The task is a Mongoose subdocument:
    an assignment to [comment] goes through the setter of the path, which
    the task schema declares with [trim: true]; [assignedTo],
    [lastUpdatedBy] and [lastUpdatedAt] are plain strings. *)
Definition applyPatch (b : TaskPatch) (actor : string) (now : string) (t : DaoTask) : DaoTask :=
  {| id := id t;
     name := name t;
     progress := match p_progress b with
                 | Some p => Some (Z.max 0 (Z.min 100 p))
                 | None => progress t
                 end;
     comment := match p_comment b with Some c => Some (Str.trim c) | None => comment t end;
     isApplicable := match p_isApplicable b with Some a => a | None => isApplicable t end;
     assignedTo := match p_assignedTo b with Some a => Some a | None => assignedTo t end;
     lastUpdatedBy := Some actor;
     lastUpdatedAt := Some now |}.

(** [dao.save()]: the pre-save hook stamps [updatedAt] on a modified
    document; a validation failure throws and nothing is written. *)
Definition save (coll : gmap string Dao) (key : string) (old new : Dao) (now : string)
    : option (gmap string Dao * Dao) :=
  let stamped :=
    if bool_decide (new = old) then new
    else Express.withTasks new (tasks new) now in
  if validates stamped then Some (<[key := stamped]> coll, stamped) else None.

(** Handler of [PUT /api/dao/:id/tasks/:taskId].  The body is not
    validated: a field of the wrong type is skipped by the [typeof]
    tests, like an absent one. *)
Definition updateTaskHandler (now : string) (daoId : string) (taskId : option Z)
    (body : TaskPatch) (u : AuthUser) (coll : gmap string Dao) : gmap string Dao * Reply :=
  match taskId with
  | None => (coll, err 400 "Invalid task ID")
  | Some parsedTaskId =>
      if negb (isObjectId daoId) then (coll, err 500 "Failed to update task")
      else
        match coll !! daoId with
        | None => (coll, err 404 "DAO not found")
        | Some dao =>
            match Express.findTask parsedTaskId (tasks dao) with
            | None => (coll, err 404 "Task not found")
            | Some _ =>
                let dao' :=
                  Express.withTasks dao
                    (Express.mutateFirst parsedTaskId
                       (applyPatch body (au_id u) now) (tasks dao))
                    (updatedAt dao) in
                match save coll daoId dao dao' now with
                | Some (coll', saved) => (coll', ReplyDao 200 saved)
                | None => (coll, err 500 "Failed to update task")
                end
            end
        end
  end.

Definition updateTask (now : string) (daoId : string) (taskId : option Z) (body : TaskPatch) :=
  route requireUser (updateTaskHandler now daoId taskId body).

End UpdateTask.

End Mongo.

(** ** Password reset (Express AuthService) *)

Module Auth.

Record User := mkUser {
  usr_id : string;
  usr_name : string;
  usr_email : string;
  usr_role : UserRole;
  usr_createdAt : string;
  usr_isActive : bool;
  usr_lastLogin : option string
}.

(** The service's module-level stores.  The session set is not touched by
    the reset operations and is left out. *)
Record AuthState := mkAuth {
  users : list User;
  userPasswords : gmap string string;
  resetTokens : gmap string (string * Z)
}.

(** [userPasswords] is a plain object, and the map holds its own
    properties.  [userPasswords[key] = value] with the key ["__proto__"]
    goes to the setter that [Object.prototype] has under that name, which
    ignores a string: no property is written.  A read under a key that has
    no own property answers what [Object.prototype] has under it, if
    anything; that is never a string, [bcrypt.compare] throws on it and the
    [catch] of [login] answers [null], as it does for a missing hash.
    [createUser] is reached with any truthy address; the other writers are
    reached with the address of a user that logged in or that passed the
    address pattern of the routes. *)
Definition assign (passwords : gmap string string) (key value : string)
    : gmap string string :=
  if bool_decide (key = "__proto__") then passwords else <[key := value]> passwords.

Definition resetWindow : Z := 15 * 60 * 1000.

(** [users.find(u => u.email.toLowerCase() === email.toLowerCase() && u.isActive)]. *)
Definition findActiveByEmail (st : AuthState) (email : string) : option User :=
  List.find
    (fun u => bool_decide (Str.toLowerCase (usr_email u) = Str.toLowerCase email)
              && usr_isActive u)
    (users st).

(** [generateResetToken(email)]; [now] is [Date.now()] and [token] the
    string drawn from [Math.random()]. *)
Definition generateResetToken (st : AuthState) (email : string) (now : Z) (token : string)
    : AuthState * option string :=
  match findActiveByEmail st email with
  | None => (st, None)
  | Some u =>
      let expires := now + resetWindow in
      (mkAuth (users st) (userPasswords st)
         (<[token := (usr_email u, expires)]> (resetTokens st)),
       Some token)
  end.

(** [verifyResetToken(token, email)]. *)
Definition verifyResetToken (st : AuthState) (token email : string) (now : Z)
    : AuthState * bool :=
  match resetTokens st !! token with
  | None => (st, false)
  | Some (tokenEmail, expires) =>
      if negb (bool_decide (Str.toLowerCase tokenEmail = Str.toLowerCase email))
      then (st, false)
      else if expires <? now
      then (mkAuth (users st) (userPasswords st) (delete token (resetTokens st)), false)
      else (st, true)
  end.

Section Reset.

(** [bcrypt.hash(password, 12)] is library code. *)
Variable hash : string → string.

(** [resetPasswordWithToken(token, email, newPassword)]. *)
Definition resetPasswordWithToken (st : AuthState) (token email newPassword : string)
    (now : Z) : AuthState * bool :=
  let '(st1, isValidToken) := verifyResetToken st token email now in
  if negb isValidToken then (st1, false)
  else
    match findActiveByEmail st1 email with
    | None => (st1, false)
    | Some u =>
        (mkAuth (users st1)
           (<[usr_email u := hash newPassword]> (userPasswords st1))
           (delete token (resetTokens st1)),
         true)
    end.

End Reset.

(** ** The rest of the service (users, sessions) *)

(** [users.find(u => u.id === id)]. *)
Definition findUserById (st : AuthState) (i : string) : option User :=
  List.find (fun u => bool_decide (usr_id u = i)) (users st).

(** In-place change of the object returned by [users.find(p)]: the first
    user that satisfies [p]. *)
Fixpoint mutateFirstUser (p : User → bool) (f : User → User) (l : list User) : list User :=
  match l with
  | [] => []
  | u :: l' => if p u then f u :: l' else u :: mutateFirstUser p f l'
  end.

(** [getAllUsers()]. *)
Definition getAllUsers (st : AuthState) : list User :=
  List.filter usr_isActive (users st).

Definition withRole (role : UserRole) (u : User) : User :=
  mkUser (usr_id u) (usr_name u) (usr_email u) role (usr_createdAt u)
    (usr_isActive u) (usr_lastLogin u).

(** [updateUserRole(id, role)]. *)
Definition updateUserRole (st : AuthState) (i : string) (role : UserRole)
    : AuthState * option User :=
  match findUserById st i with
  | None => (st, None)
  | Some u =>
      (mkAuth (mutateFirstUser (fun u => bool_decide (usr_id u = i)) (withRole role) (users st))
         (userPasswords st) (resetTokens st),
       Some (withRole role u))
  end.

(** The service with its session set. *)
Record Service := mkService {
  state : AuthState;
  activeSessions : gset string
}.

Definition deactivated (u : User) : User :=
  mkUser (usr_id u) (usr_name u) (usr_email u) (usr_role u) (usr_createdAt u)
    false (usr_lastLogin u).

Definition withLastLogin (now : string) (u : User) : User :=
  mkUser (usr_id u) (usr_name u) (usr_email u) (usr_role u) (usr_createdAt u)
    (usr_isActive u) (Some now).

Definition authUserOf (u : User) : AuthUser :=
  mkAuthUser (usr_id u) (usr_name u) (usr_email u) (usr_role u).

Section Service.

(** bcrypt and jsonwebtoken are library code: [hash] and [compare] are
    [bcrypt.hash(_, 12)] and [bcrypt.compare]; [sign] is [jwt.sign] with the
    service's options; [verifyStrict] is [jwt.verify] with the issuer and
    audience options and [verifyLoose] without them, [None] when it
    throws. *)
Variable hash : string → string.
Variable compare : string → string → bool.
Variable sign : AuthUser → string.
Variable verifyStrict : string → option AuthUser.
Variable verifyLoose : string → option AuthUser.

(** [login(credentials)]; [None] is [null]. *)
Definition login (svc : Service) (email password : string) (now : string)
    : Service * option (AuthUser * string) :=
  match findActiveByEmail (state svc) email with
  | None => (svc, None)
  | Some u =>
      match userPasswords (state svc) !! usr_email u with
      | None => (svc, None)
      | Some hashedPassword =>
          if bool_decide (hashedPassword = "") then (svc, None)
          else if negb (compare password hashedPassword) then (svc, None)
          else
            let authUser := authUserOf u in
            let token := sign authUser in
            (mkService
               (mkAuth
                  (mutateFirstUser
                     (fun u => bool_decide (Str.toLowerCase (usr_email u) = Str.toLowerCase email)
                               && usr_isActive u)
                     (withLastLogin now) (users (state svc)))
                  (userPasswords (state svc)) (resetTokens (state svc)))
               ({[ token ]} ∪ activeSessions svc),
             Some (authUser, token))
      end
  end.

(** [verifyToken(token)]. *)
Definition verifyToken (svc : Service) (token : string) : Service * option AuthUser :=
  match verifyStrict token with
  | None => (mkService (state svc) (activeSessions svc ∖ {[ token ]}), None)
  | Some decoded =>
      match List.find (fun u => bool_decide (usr_id u = au_id decoded) && usr_isActive u)
              (users (state svc)) with
      | None => (mkService (state svc) (activeSessions svc ∖ {[ token ]}), None)
      | Some _ => (mkService (state svc) ({[ token ]} ∪ activeSessions svc), Some decoded)
      end
  end.

(** [logout(token)]. *)
Definition logout (svc : Service) (token : string) : Service :=
  mkService (state svc) (activeSessions svc ∖ {[ token ]}).

(** [deactivateUser(id)]: the user is flagged inactive and the sessions
    whose token decodes to the id are dropped. *)
Definition deactivateUser (svc : Service) (i : string) : Service * bool :=
  match findUserById (state svc) i with
  | None => (svc, false)
  | Some _ =>
      (mkService
         (mkAuth
            (mutateFirstUser (fun u => bool_decide (usr_id u = i)) deactivated
               (users (state svc)))
            (userPasswords (state svc)) (resetTokens (state svc)))
         (filter (fun token => au_id <$> verifyLoose token ≠ Some i) (activeSessions svc)),
       true)
  end.

(** [createUser(userData)]; [None] is the thrown "User already exists".
    [newId] is [Date.now().toString()] and [createdAt] the clock. *)
Definition createUser (st : AuthState) (name email : string) (role : UserRole)
    (password : option string) (newId createdAt : string) : option (AuthState * User) :=
  if existsb (fun u => bool_decide (Str.toLowerCase (usr_email u) = Str.toLowerCase email))
       (users st)
  then None
  else
    let defaultPassword :=
      match password with
      | Some p => if bool_decide (p = "") then "changeme123" else p
      | None => "changeme123"
      end in
    let newUser := mkUser newId name (Str.toLowerCase email) role createdAt true None in
    Some (mkAuth (users st ++ [newUser])
            (assign (userPasswords st) (usr_email newUser) (hash defaultPassword))
            (resetTokens st),
          newUser).

(** [changePassword(id, newPassword)]. *)
Definition changePassword (st : AuthState) (i newPassword : string) : AuthState * bool :=
  match findUserById st i with
  | None => (st, false)
  | Some u =>
      (mkAuth (users st) (<[usr_email u := hash newPassword]> (userPasswords st))
         (resetTokens st),
       true)
  end.

Definition withProfile (name email : string) (u : User) : User :=
  mkUser (usr_id u) name (Str.toLowerCase email) (usr_role u) (usr_createdAt u)
    (usr_isActive u) (usr_lastLogin u).

(** The password store after [updateProfile] has moved the hash of
    [oldEmail] under the lower-cased new address; a missing hash leaves the
    new key without one. *)
Definition moveHash (passwords : gmap string string) (oldEmail newEmail : string)
    : gmap string string :=
  match passwords !! oldEmail with
  | Some passwordHash => <[Str.toLowerCase newEmail := passwordHash]> (delete oldEmail passwords)
  | None => delete (Str.toLowerCase newEmail) (delete oldEmail passwords)
  end.

(** [updateProfile(id, { name, email })]; the outer [None] is the thrown
    "Email already exists", the inner one the [null] of an unknown id. *)
Definition updateProfile (st : AuthState) (i name email : string)
    : option (AuthState * option User) :=
  match findUserById st i with
  | None => Some (st, None)
  | Some u =>
      let rename := mutateFirstUser (fun u => bool_decide (usr_id u = i)) (withProfile name email) in
      if bool_decide (email ≠ usr_email u) then
        if existsb (fun x => bool_decide (Str.toLowerCase (usr_email x) = Str.toLowerCase email)
                             && negb (bool_decide (usr_id x = i)))
             (users st)
        then None
        else
          Some (mkAuth (rename (users st))
                  (moveHash (userPasswords st) (usr_email u) email)
                  (resetTokens st),
                Some (withProfile name email u))
      else
        Some (mkAuth (rename (users st)) (userPasswords st) (resetTokens st),
              Some (withProfile name email u))
  end.

End Service.

End Auth.

(** ** Express user routes (routes/auth.ts of the Express back end) *)

Module AuthRoutes.

(** Reply of a user route: an error, or a message. *)
Inductive UserReply :=
| UserError (status : Z) (error : string)
| UserMessage (message : string).

(** Handler of [DELETE /api/auth/users/:id], once past [authenticate] and
    [requireAdmin]; [verifyLoose] is [jwt.verify] without options. *)
Definition deactivateHandler (verifyLoose : string → option AuthUser)
    (targetId : string) (u : AuthUser) (svc : Auth.Service) : Auth.Service * UserReply :=
  if bool_decide (au_id u = targetId)
  then (svc, UserError 400 "Cannot deactivate your own account")
  else
    let result := Auth.deactivateUser verifyLoose svc targetId in
    if snd result then (fst result, UserMessage "User deactivated successfully")
    else (fst result, UserError 404 "User not found").

End AuthRoutes.

(** ** Front end: the Dao page and the export dialogs *)

Module Page.

(** [Math.ceil(a / b)] for a positive [b]. *)
Definition ceilDiv (a b : Z) : Z := - ((- a) / b).

(** The numeric fields of what [formatDate] returns. *)
Record DateInfo := mkDateInfo {
  di_daysDiff : Z;
  di_daysDiffAbs : Z;
  di_isOverdue : bool
}.

(** [formatDate(dateString)] of the Dao page; [date] is
    [new Date(dateString).getTime()] and [today] the clock, both in
    milliseconds. *)
Definition formatDate (date today : Z) : DateInfo :=
  let daysDiff := ceilDiv (date - today) msPerDay in
  {| di_daysDiff := daysDiff;
     di_daysDiffAbs := Z.abs daysDiff;
     di_isOverdue := daysDiff <? 0 |}.

(** The four counters under the page header. *)
Definition completedTasks (tasks : list DaoTask) : nat :=
  List.length (List.filter (fun t => isApplicable t && (100 <=? progressOrZero t)) tasks).

Definition inProgressTasks (tasks : list DaoTask) : nat :=
  List.length
    (List.filter
       (fun t => isApplicable t && (0 <? progressOrZero t) && (progressOrZero t <? 100))
       tasks).

Definition todoTasks (tasks : list DaoTask) : nat :=
  List.length (List.filter (fun t => isApplicable t && (progressOrZero t =? 0)) tasks).

Definition applicableTasks (tasks : list DaoTask) : nat :=
  List.length (List.filter isApplicable tasks).

(** Options of the task export of the Dao page. *)
Record ExportOptions := mkExportOptions {
  includeTodos : bool;
  includeInProgress : bool;
  includeCompleted : bool;
  includeNotApplicable : bool
}.

(** The filter of [handleExportWithOptions]. *)
Definition exportKeeps (options : ExportOptions) (task : DaoTask) : bool :=
  if negb (isApplicable task) && negb (includeNotApplicable options) then false
  else if isApplicable task then
    let progress := progressOrZero task in
    if (progress =? 0) && negb (includeTodos options) then false
    else if (0 <? progress) && (progress <? 100) && negb (includeInProgress options)
    then false
    else if (100 <=? progress) && negb (includeCompleted options) then false
    else true
  else true.

Definition filteredTasks (options : ExportOptions) (tasks : list DaoTask) : list DaoTask :=
  List.filter (exportKeeps options) tasks.

Section GlobalExport.

(** [calculateDaoStatus(dao.dateDepot, calculateDaoProgress(dao.tasks))]:
    both functions are those of [shared/dao]; the dialog is stated over
    their composition. *)
Variable statusOf : Dao → DaoStatus.

(** Options of the global export dialog. *)
Record GlobalExportOptions := mkGlobalExportOptions {
  g_includeCompleted : bool;
  g_includeInProgress : bool;
  g_includeAtRisk : bool
}.

Definition isCompleted (s : DaoStatus) : bool :=
  match s with completed => true | _ => false end.

Definition isAtRisk (s : DaoStatus) : bool :=
  match s with urgent => true | _ => false end.

(** [status === "safe" || status === "default"]. *)
Definition isInProgress (s : DaoStatus) : bool :=
  match s with safe | default => true | _ => false end.

Definition completedDaos (daos : list Dao) : list Dao :=
  List.filter (fun dao => isCompleted (statusOf dao)) daos.

Definition inProgressDaos (daos : list Dao) : list Dao :=
  List.filter (fun dao => isInProgress (statusOf dao)) daos.

Definition atRiskDaos (daos : list Dao) : list Dao :=
  List.filter (fun dao => isAtRisk (statusOf dao)) daos.

(** The filter of [handleExport]. *)
Definition filteredDaos (options : GlobalExportOptions) (daos : list Dao) : list Dao :=
  List.filter
    (fun dao =>
       let status := statusOf dao in
       if isCompleted status && negb (g_includeCompleted options) then false
       else if isAtRisk status && negb (g_includeAtRisk options) then false
       else if isInProgress status && negb (g_includeInProgress options) then false
       else true)
    daos.

End GlobalExport.

End Page.

(** ** Sample data *)

(** Two of the seeded users of the Express AuthService. *)
Definition adminUser : AuthUser := mkAuthUser "1" "Admin User" "admin@2snd.fr" admin.
Definition marie : AuthUser := mkAuthUser "2" "Marie Dubois" "marie.dubois@2snd.fr" user.

Definition sampleTask (i : Z) : DaoTask :=
  mkTask i "Offre technique" (Some 40) None true None None None.

Definition sampleDao : Dao :=
  mkDao "dao-1" "DAO-2025-001" "Fourniture" "REF-1" "Mairie" "2025-12-31"
    [mkTeamMember "m1" "Chef" chef_equipe None]
    [sampleTask 1; sampleTask 2; sampleTask 3]
    "2025-01-01T00:00:00.000Z" "2025-01-01T00:00:00.000Z".

Definition sampleStore : Express.DaoStorage := Express.rebuildIndexes [sampleDao].

Definition sampleCollection : gmap string Dao := {[ "dao-1" := sampleDao ]}.

Definition laterStamp : string := "2025-02-02T10:00:00.000Z".

(** A state of the AuthService with one seeded user and no reset token. *)
Definition sampleAuth : Auth.AuthState :=
  Auth.mkAuth
    [Auth.mkUser "2" "Marie Dubois" "marie.dubois@2snd.fr" user
       "2025-01-01T00:00:00.000Z" true None]
    {[ "marie.dubois@2snd.fr" := "$2a$12$seed" ]}
    ∅.

(** A stand-in for the password hash in the examples. *)
Definition sampleHash (password : string) : string := "$2a$12$" +:+ password.

Definition minutes (n : Z) : Z := n * 60 * 1000.

(** A creation body whose strings need neither trimming nor sanitizing. *)
Definition sampleCreate : Express.DaoCreate :=
  Express.mkDaoCreate "DAO-2025-002" "Entretien" "REF-2" "Mairie" "2025-11-30"
    [mkTeamMember "m1" "Chef" chef_equipe None] None.

(** ** Enumerations used to check the decimal round trips *)

Definition digitChars : list ascii :=
  ["0"; "1"; "2"; "3"; "4"; "5"; "6"; "7"; "8"; "9"]%char.

(** All strings of [n] decimal digits. *)
Definition digitStrings (n : nat) : list string :=
  Nat.iter n (fun acc => flat_map (fun c => List.map (String c) acc) digitChars) [""].

(** The naturals [lo .. lo + count - 1]. *)
Definition upTo (lo count : nat) : list N := List.map N.of_nat (seq lo count).

(** Three digits print back as themselves and stay below 1000. *)
Definition seqRoundTrip (q : string) : bool :=
  String.eqb (Str.padStart0 3 (Str.toString (Str.parseInt10 q))) q
  && (Str.parseInt10 q <=? 999)%N.

(** A number below 1000 pads to three digits that read back as it. *)
Definition padRoundTrip (n : N) : bool :=
  let q := Str.padStart0 3 (Str.toString n) in
  Nat.eqb (String.length q) 3 && Str.allDigits q && (Str.parseInt10 q =? n)%N.

(** Four digits that read as a year of the accepted range print back as
    themselves. *)
Definition yearRoundTrip (y : string) : bool :=
  let v := Str.parseInt10 y in
  if ((2020 <=? v) && (v <=? 2100))%N then String.eqb (Str.toString v) y else true.

(** A year of the accepted range prints as four digits that read back as
    it. *)
Definition yearPrints (year : N) : bool :=
  let y := Str.toString year in
  Nat.eqb (String.length y) 4 && Str.allDigits y && (Str.parseInt10 y =? year)%N.

(** ** Notions used to state the progress property *)

Definition sumZ (l : list Z) : Z := fold_right Z.add 0 l.

(** Progress values that count: those of the applicable tasks, null as 0. *)
Definition applicableProgress (tasks : list DaoTask) : list Z :=
  List.map progressOrZero (List.filter isApplicable tasks).

(** Two tasks that may differ only if both are not applicable. *)
Definition sameIfApplicable (t t' : DaoTask) : Prop :=
  isApplicable t = isApplicable t' ∧ (isApplicable t = true → t = t').

(** Rounded, clamped mean of a list of percentages; 0 for the empty list. *)
Definition roundedAverage (ps : list Z) : Z :=
  match ps with
  | [] => 0
  | _ => clampPercent (roundDiv (sumZ ps) (Z.of_nat (List.length ps)))
  end.

(** ** Notions used to state the task-update properties *)

(** [t'] is [t] after the patch [body]: only the fields present in the
    patch change, a supplied progress is stored within 0..100, free text
    goes through [clean], and the two audit stamps are set. *)
Definition patchedTask (clean : string → string) (body : TaskPatch) (actorId now : string)
    (t t' : DaoTask) : Prop :=
  id t' = id t
  ∧ name t' = name t
  ∧ progress t' = match p_progress body with
                  | Some p => Some (clampPercent p)
                  | None => progress t
                  end
  ∧ comment t' = match p_comment body with
                 | Some c => Some (clean c)
                 | None => comment t
                 end
  ∧ isApplicable t' = orElse (p_isApplicable body) (isApplicable t)
  ∧ assignedTo t' = match p_assignedTo body with
                    | Some a => Some (clean a)
                    | None => assignedTo t
                    end
  ∧ lastUpdatedBy t' = Some actorId
  ∧ lastUpdatedAt t' = Some now.

(** [t'] is the subdocument [t] after the patch [body] in the MongoDB back
    end: as above, with the comment trimmed by the schema and the assignee
    as sent. *)
Definition patchedSubdocument (body : TaskPatch) (actorId now : string)
    (t t' : DaoTask) : Prop :=
  id t' = id t
  ∧ name t' = name t
  ∧ progress t' = match p_progress body with
                  | Some p => Some (clampPercent p)
                  | None => progress t
                  end
  ∧ comment t' = match p_comment body with
                 | Some c => Some (Str.trim c)
                 | None => comment t
                 end
  ∧ isApplicable t' = orElse (p_isApplicable body) (isApplicable t)
  ∧ assignedTo t' = match p_assignedTo body with
                    | Some a => Some a
                    | None => assignedTo t
                    end
  ∧ lastUpdatedBy t' = Some actorId
  ∧ lastUpdatedAt t' = Some now.

(** ** Notions used to state the Dao-update property *)

(** A task as the update schema hands it on: the name trimmed, the rest as
    sent. *)
Definition trimmedName (t : DaoTask) : DaoTask :=
  {| id := id t; name := Str.trim (name t); progress := progress t;
     comment := comment t; isApplicable := isApplicable t;
     assignedTo := assignedTo t; lastUpdatedBy := lastUpdatedBy t;
     lastUpdatedAt := lastUpdatedAt t |}.

(** The reply of [authorize] to a role that is not listed. *)
Definition forbidden : Reply := ReplyError 403 "Insufficient permissions" None.

(** ** Notions used to state the store properties *)

(** The index holds, for every id, the last position of the array whose
    Dao has that id: what [rebuildIndexes] computes. *)
Definition indexed (st : Express.DaoStorage) : Prop :=
  Express.idIndex st = Express.indexFrom 0 (Express.storage st) ∅.

(** The Daos of [l] whose id is [k], in order. *)
Definition withId (k : string) (l : list Dao) : list Dao :=
  List.filter (fun d => bool_decide (dao_id d = k)) l.

(** Last position of [l] whose Dao has id [k]. *)
Fixpoint lastPos (k : string) (l : list Dao) : option nat :=
  match l with
  | [] => None
  | d :: l' =>
      match lastPos k l' with
      | Some j => Some (S j)
      | None => if bool_decide (dao_id d = k) then Some 0%nat else None
      end
  end.

(** ** Notions used to state the sanitizing properties *)

(** Some ["<"] of [s] has a [">"] somewhere after it: [s] has a substring
    that the pattern [<[^>]*>] matches. *)
Fixpoint hasTag (s : string) : bool :=
  match s with
  | "" => false
  | String c s' =>
      (Ascii.eqb c "<"%char && bool_decide (is_Some (Str.afterGt s'))) || hasTag s'
  end.

(** ** Notions used to state the user-store properties *)

(** No two users share an id. *)
Definition distinctIds (st : Auth.AuthState) : Prop :=
  NoDup (List.map Auth.usr_id (Auth.users st)).

(** No two users share an address, letter case aside. *)
Definition distinctEmails (st : Auth.AuthState) : Prop :=
  NoDup (List.map (fun u => Str.toLowerCase (Auth.usr_email u)) (Auth.users st)).

(** Every stored address is in lower case, as the seed users' and those
    that [createUser] and [updateProfile] write are. *)
Definition lowercaseEmails (st : Auth.AuthState) : Prop :=
  ∀ u, In u (Auth.users st) → Str.toLowerCase (Auth.usr_email u) = Auth.usr_email u.

(** * Properties *)

(** ** Status cascade *)

Lemma daysDiffOf_shift (today k : Z) :
  daysDiffOf today (today + k * msPerDay) = k.
Proof.
  unfold daysDiffOf, dateOnly.
  rewrite Z.div_add by (unfold msPerDay; lia).
  lia.
Qed.

(** C1. [calculateDaoStatus] follows the priority cascade exactly: progress
    100 is [completed] whatever the date; otherwise a deadline at least five
    days ahead is [safe], exactly four days ahead is [default], and three
    days or fewer (the past included) is [urgent]; a deadline 5, 4 and 3
    days after today gives [safe], [default] and [urgent].  The task row's
    [getProgressColor] paints the same cascade. *)
Theorem calculateDaoStatus_cascade (today dateDepot progress : Z) :
  let daysDiff := daysDiffOf today dateDepot in
  let status := calculateDaoStatus today dateDepot progress in
  (status = completed ↔ progress = 100)
  ∧ (status = urgent ↔ progress ≠ 100 ∧ (daysDiff < 0 ∨ daysDiff ≤ 3))
  ∧ (status = safe ↔ progress ≠ 100 ∧ 5 ≤ daysDiff)
  ∧ (status = default ↔ progress ≠ 100 ∧ daysDiff = 4)
  ∧ calculateDaoStatus today (today + 5 * msPerDay) 0 = safe
  ∧ calculateDaoStatus today (today + 4 * msPerDay) 0 = default
  ∧ calculateDaoStatus today (today + 3 * msPerDay) 0 = urgent
  ∧ getProgressColor daysDiff progress = statusColor status.
Proof.
  cbv zeta. unfold calculateDaoStatus, getProgressColor.
  rewrite !daysDiffOf_shift.
  set (d := daysDiffOf today dateDepot).
  destruct (Z.eqb_spec progress 100) as [Hp | Hp];
    [ | destruct (Z.ltb_spec d 0);
        [ | destruct (Z.leb_spec 5 d); [ | destruct (Z.leb_spec d 3) ] ] ];
    cbn; repeat split; intros; try discriminate; try lia; tauto.
Qed.

(** ** Progress *)

Lemma fold_left_progress (l : list DaoTask) (a : Z) :
  fold_left (fun sum t => sum + progressOrZero t) l a
  = a + sumZ (List.map progressOrZero l).
Proof.
  revert a. induction l as [ | t l IH ]; intros a; simpl.
  - lia.
  - rewrite IH. lia.
Qed.

Lemma calculateDaoProgress_unfold (tasks : list DaoTask) :
  calculateDaoProgress tasks
  = roundedAverage (applicableProgress tasks).
Proof.
  unfold calculateDaoProgress, applicableProgress, roundedAverage.
  destruct (List.filter isApplicable tasks) as [ | t l ] eqn:E; [ reflexivity | ].
  rewrite fold_left_progress. cbn [List.map List.length sumZ fold_right].
  rewrite length_map. reflexivity.
Qed.

Lemma filter_applicable_perm (l l' : list DaoTask) :
  l ≡ₚ l' → List.filter isApplicable l ≡ₚ List.filter isApplicable l'.
Proof.
  induction 1 as [ | x l l' _ IH | x y l | l1 l2 l3 _ IH1 _ IH2 ]; simpl.
  - reflexivity.
  - destruct (isApplicable x); [ constructor | ]; exact IH.
  - destruct (isApplicable x), (isApplicable y); try reflexivity. constructor.
  - etransitivity; eassumption.
Qed.

Lemma sumZ_perm (l l' : list Z) : l ≡ₚ l' → sumZ l = sumZ l'.
Proof.
  induction 1; simpl; lia.
Qed.

Lemma applicableProgress_perm (l l' : list DaoTask) :
  l ≡ₚ l' → applicableProgress l ≡ₚ applicableProgress l'.
Proof.
  intros H. unfold applicableProgress.
  apply Permutation_map, filter_applicable_perm, H.
Qed.

Lemma applicableProgress_same (l l' : list DaoTask) :
  Forall2 sameIfApplicable l l' → applicableProgress l = applicableProgress l'.
Proof.
  unfold applicableProgress.
  induction 1 as [ | t t' l l' [Hflag Hsame] _ IH ]; simpl; [ reflexivity | ].
  rewrite <- Hflag. destruct (isApplicable t) eqn:E; [ | exact IH ].
  rewrite <- (Hsame eq_refl). simpl. f_equal. exact IH.
Qed.

Lemma progress_of_perm (ps ps' : list Z) :
  ps ≡ₚ ps' → roundedAverage ps = roundedAverage ps'.
Proof.
  intros H. unfold roundedAverage.
  pose proof (sumZ_perm _ _ H) as Hs.
  pose proof (Permutation_length H) as Hl.
  destruct ps, ps'; try discriminate; [ reflexivity | ].
  rewrite Hs, Hl. reflexivity.
Qed.

Lemma roundDiv_nearest (total n : Z) :
  0 < n →
  n * (2 * roundDiv total n - 1) ≤ 2 * total < n * (2 * roundDiv total n + 1).
Proof.
  intros Hn. unfold roundDiv.
  pose proof (Z.div_mod (2 * total + n) (2 * n) ltac:(lia)) as Hdm.
  pose proof (Z.mod_pos_bound (2 * total + n) (2 * n) ltac:(lia)) as Hmod.
  nia.
Qed.

(** C2. [calculateDaoProgress] is the average progress of exactly the
    applicable tasks (null counting as 0), rounded to the nearest integer
    and clamped to 0..100; reordering the list, or changing any field of
    tasks that are not applicable, does not change it. *)
Theorem calculateDaoProgress_average (tasks : list DaoTask) :
  let ps := applicableProgress tasks in
  let n := Z.of_nat (List.length ps) in
  let result := calculateDaoProgress tasks in
  (n = 0 → result = 0)
  ∧ (0 < n →
     ∃ q, n * (2 * q - 1) ≤ 2 * sumZ ps < n * (2 * q + 1)
          ∧ result = Z.max 0 (Z.min 100 q))
  ∧ 0 ≤ result ≤ 100
  ∧ (∀ tasks', tasks ≡ₚ tasks' → calculateDaoProgress tasks' = result)
  ∧ (∀ tasks', Forall2 sameIfApplicable tasks tasks' →
               calculateDaoProgress tasks' = result).
Proof.
  cbv zeta. rewrite calculateDaoProgress_unfold. unfold roundedAverage.
  repeat split.
  - destruct (applicableProgress tasks); [ reflexivity | simpl; lia ].
  - intros Hn. exists (roundDiv (sumZ (applicableProgress tasks))
                                (Z.of_nat (List.length (applicableProgress tasks)))).
    split; [ apply roundDiv_nearest, Hn | ].
    destruct (applicableProgress tasks); [ simpl in Hn; lia | reflexivity ].
  - destruct (applicableProgress tasks); unfold clampPercent; lia.
  - destruct (applicableProgress tasks); unfold clampPercent; lia.
  - intros tasks' Hperm. rewrite calculateDaoProgress_unfold.
    symmetry. apply (progress_of_perm _ _ (applicableProgress_perm _ _ Hperm)).
  - intros tasks' Hsame. rewrite calculateDaoProgress_unfold.
    rewrite (applicableProgress_same _ _ Hsame). reflexivity.
Qed.

(** Two applicable tasks at 50 and null, one task that is not applicable:
    the mean of 50 and 0. *)
Example calculateDaoProgress_sample :
  calculateDaoProgress
    [mkTask 1 "a" (Some 50) None true None None None;
     mkTask 2 "b" None None true None None None;
     mkTask 3 "c" (Some 100) None false None None None] = 25.
Proof. reflexivity. Qed.

(** One third rounds down, two thirds round up, one half rounds up. *)
Example roundDiv_samples :
  roundDiv 100 3 = 33 ∧ roundDiv 200 3 = 67 ∧ roundDiv 1 2 = 1.
Proof. repeat split. Qed.

(** ** Serial numbers *)

Section SerialFacts.

Import Serial.

Lemma append_cons (a : ascii) (s r : string) : String a s +:+ r = String a (s +:+ r).
Proof. reflexivity. Qed.

Lemma append_nil_l (r : string) : "" +:+ r = r.
Proof. reflexivity. Qed.

Lemma append_nil_r (s : string) : s +:+ "" = s.
Proof. induction s as [ | a s IH ]; [ reflexivity | ]. rewrite append_cons, IH. reflexivity. Qed.

Lemma append_assoc (a b c : string) : (a +:+ b) +:+ c = a +:+ (b +:+ c).
Proof.
  induction a as [ | x a IH ]; [ reflexivity | ].
  rewrite !append_cons, IH. reflexivity.
Qed.

Lemma stripPrefix_Some (p s r : string) : stripPrefix p s = Some r → s = p +:+ r.
Proof.
  revert s. induction p as [ | a p IH ]; intros s H; simpl in H.
  - destruct s; inversion H; reflexivity.
  - destruct s as [ | b s ]; [ discriminate | ].
    destruct (Ascii.eqb_spec a b) as [ -> | ]; [ | discriminate ].
    rewrite append_cons. f_equal. apply IH, H.
Qed.

Lemma stripPrefix_app (p r : string) : stripPrefix p (p +:+ r) = Some r.
Proof.
  induction p as [ | a p IH ]; [ destruct r; reflexivity | ].
  rewrite append_cons. simpl. rewrite Ascii.eqb_refl. exact IH.
Qed.

Lemma takeDigits_Some (n : nat) (s ds r : string) :
  takeDigits n s = Some (ds, r) →
  s = ds +:+ r ∧ String.length ds = n ∧ Str.allDigits ds = true.
Proof.
  revert s ds. induction n as [ | n IH ]; intros s ds H; simpl in H.
  - inversion H; subst. auto.
  - destruct s as [ | c s ]; [ discriminate | ].
    destruct (Str.isDigit c) eqn:Hc; [ | discriminate ].
    destruct (takeDigits n s) as [ [ds' r'] | ] eqn:E; [ | discriminate ].
    inversion H; subst. destruct (IH _ _ E) as (-> & <- & Hd).
    rewrite append_cons. simpl. rewrite Hc, Hd. auto.
Qed.

Lemma takeDigits_app (ds r : string) :
  Str.allDigits ds = true → takeDigits (String.length ds) (ds +:+ r) = Some (ds, r).
Proof.
  induction ds as [ | c ds IH ]; intros H; [ reflexivity | ].
  apply andb_prop in H as [Hc Hd].
  rewrite append_cons. cbn [String.length takeDigits].
  rewrite Hc, (IH Hd). reflexivity.
Qed.

(** What the anchored pattern accepts. *)
Lemma matchAnchored_Some (s yyyy seq : string) :
  matchAnchored s = Some (yyyy, seq) →
  s = "DAO-" +:+ yyyy +:+ "-" +:+ seq
  ∧ String.length yyyy = 4%nat ∧ Str.allDigits yyyy = true
  ∧ String.length seq = 3%nat ∧ Str.allDigits seq = true.
Proof.
  unfold matchAnchored, matchHead. intros H.
  destruct (stripPrefix "DAO-" s) as [ r0 | ] eqn:E0; [ | discriminate ].
  destruct (takeDigits 4 r0) as [ [y r1] | ] eqn:E1; [ | discriminate ].
  destruct (stripPrefix "-" r1) as [ r2 | ] eqn:E2; [ | discriminate ].
  destruct (takeDigits 3 r2) as [ [q rest] | ] eqn:E3; [ | discriminate ].
  destruct rest; [ | discriminate ]. inversion H; subst.
  apply stripPrefix_Some in E0, E2.
  apply takeDigits_Some in E1 as (-> & Hly & Hdy).
  apply takeDigits_Some in E3 as (-> & Hlq & Hdq).
  subst. rewrite append_nil_r. auto.
Qed.

Lemma matchAnchored_app (yyyy seq : string) :
  String.length yyyy = 4%nat → Str.allDigits yyyy = true →
  String.length seq = 3%nat → Str.allDigits seq = true →
  matchAnchored ("DAO-" +:+ yyyy +:+ "-" +:+ seq) = Some (yyyy, seq).
Proof.
  intros Hly Hdy Hlq Hdq. unfold matchAnchored, matchHead.
  rewrite stripPrefix_app, <- Hly, (takeDigits_app _ _ Hdy), stripPrefix_app.
  rewrite <- (append_nil_r seq) at 1.
  rewrite <- Hlq, (takeDigits_app _ _ Hdq). reflexivity.
Qed.

End SerialFacts.

Section SerialEnum.

Import Serial.

Lemma isDigit_In (c : ascii) : Str.isDigit c = true → In c digitChars.
Proof.
  destruct c as [[] [] [] [] [] [] [] []]; intros H; vm_compute in H;
    try discriminate H; unfold digitChars;
    repeat first [ left; reflexivity | right ].
Qed.

Lemma digitStrings_In (s : string) :
  Str.allDigits s = true → In s (digitStrings (String.length s)).
Proof.
  induction s as [ | c s IH ]; intros H.
  - left. reflexivity.
  - apply andb_prop in H as [Hc Hs].
    cbn [String.length digitStrings Nat.iter].
    apply in_flat_map. exists c. split.
    + apply isDigit_In, Hc.
    + apply in_map, IH, Hs.
Qed.


Lemma upTo_In (lo count : nat) (n : N) :
  (N.of_nat lo ≤ n < N.of_nat (lo + count))%N → In n (upTo lo count).
Proof.
  intros H. unfold upTo. apply in_map_iff. exists (N.to_nat n). split.
  - apply N2Nat.id.
  - apply in_seq. lia.
Qed.

Lemma seqRoundTrip_all : forallb seqRoundTrip (digitStrings 3) = true.
Proof. vm_compute. reflexivity. Qed.

Lemma padRoundTrip_all : forallb padRoundTrip (upTo 0 1000) = true.
Proof. vm_compute. reflexivity. Qed.

Lemma yearRoundTrip_all : forallb yearRoundTrip (digitStrings 4) = true.
Proof. vm_compute. reflexivity. Qed.

Lemma yearPrints_all : forallb yearPrints (upTo 2020 81) = true.
Proof. vm_compute. reflexivity. Qed.

Lemma seq_round_trip (q : string) :
  String.length q = 3%nat → Str.allDigits q = true →
  Str.padStart0 3 (Str.toString (Str.parseInt10 q)) = q ∧ (Str.parseInt10 q ≤ 999)%N.
Proof.
  intros Hl Hd. pose proof (digitStrings_In q Hd) as Hin. rewrite Hl in Hin.
  pose proof (proj1 (forallb_forall _ _) seqRoundTrip_all q Hin) as H.
  apply andb_prop in H as [H1 H2].
  split; [ apply String.eqb_eq, H1 | apply N.leb_le, H2 ].
Qed.

Lemma pad_round_trip (n : N) :
  (n ≤ 999)%N →
  let q := Str.padStart0 3 (Str.toString n) in
  String.length q = 3%nat ∧ Str.allDigits q = true ∧ Str.parseInt10 q = n.
Proof.
  intros Hn.
  pose proof (proj1 (forallb_forall _ _) padRoundTrip_all n
                (upTo_In 0 1000 n ltac:(lia))) as H.
  apply andb_prop in H as [H H3]. apply andb_prop in H as [H1 H2].
  repeat split; [ apply Nat.eqb_eq, H1 | exact H2 | apply N.eqb_eq, H3 ].
Qed.

Lemma year_round_trip (y : string) (year : N) :
  (2020 ≤ year ≤ 2100)%N →
  String.length y = 4%nat → Str.allDigits y = true →
  Str.parseInt10 y = year → Str.toString year = y.
Proof.
  intros Hy Hl Hd Hv. pose proof (digitStrings_In y Hd) as Hin. rewrite Hl in Hin.
  pose proof (proj1 (forallb_forall _ _) yearRoundTrip_all y Hin) as H.
  unfold yearRoundTrip in H. rewrite Hv in H.
  replace ((2020 <=? year) && (year <=? 2100))%N with true in H
    by (symmetry; apply andb_true_intro; split; apply N.leb_le; lia).
  apply String.eqb_eq, H.
Qed.

Lemma year_prints (year : N) :
  (2020 ≤ year ≤ 2100)%N →
  let y := Str.toString year in
  String.length y = 4%nat ∧ Str.allDigits y = true ∧ Str.parseInt10 y = year.
Proof.
  intros Hy.
  pose proof (proj1 (forallb_forall _ _) yearPrints_all year
                (upTo_In 2020 81 year ltac:(lia))) as H.
  apply andb_prop in H as [H H3]. apply andb_prop in H as [H1 H2].
  repeat split; [ apply Nat.eqb_eq, H1 | exact H2 | apply N.eqb_eq, H3 ].
Qed.

End SerialEnum.

Section SerialExpress.

Import Serial.

Lemma format_counted (year n : N) :
  (2020 ≤ year ≤ 2100)%N → (n ≤ 999)%N →
  isOfYear year (format year n) = true ∧ seqAnchored (format year n) = n.
Proof.
  intros Hy Hn.
  destruct (year_prints year Hy) as (Hly & Hdy & Hvy).
  destruct (pad_round_trip n Hn) as (Hlq & Hdq & Hvq).
  unfold isOfYear, seqAnchored, format.
  rewrite (matchAnchored_app _ _ Hly Hdy Hlq Hdq).
  split; [ apply N.eqb_eq, Hvy | exact Hvq ].
Qed.

Lemma counted_format (year : N) (s : string) :
  (2020 ≤ year ≤ 2100)%N → isOfYear year s = true →
  (seqAnchored s ≤ 999)%N ∧ s = format year (seqAnchored s).
Proof.
  intros Hy H. unfold isOfYear, seqAnchored in *.
  destruct (matchAnchored s) as [ [y q] | ] eqn:E; [ | discriminate ].
  apply matchAnchored_Some in E as (-> & Hly & Hdy & Hlq & Hdq).
  apply N.eqb_eq in H.
  destruct (seq_round_trip q Hlq Hdq) as [Hq Hle].
  split; [ exact Hle | ].
  unfold format. rewrite Hq, (year_round_trip y year Hy Hly Hdy H). reflexivity.
Qed.

(** The sequence numbers the route extracts are those of the serials of
    the year that are present. *)
Lemma seqs_of_year (existing : list string) (year n : N) :
  (2020 ≤ year ≤ 2100)%N →
  In n (List.map seqAnchored (List.filter (isOfYear year) existing))
  ↔ (n ≤ 999)%N ∧ In (format year n) existing.
Proof.
  intros Hy. rewrite in_map_iff. split.
  - intros (s & <- & Hin). apply filter_In in Hin as [Hin Hc].
    destruct (counted_format year s Hy Hc) as [Hle Hs].
    split; [ exact Hle | rewrite <- Hs; exact Hin ].
  - intros [Hn Hin]. destruct (format_counted year n Hy Hn) as [Hc Hs].
    exists (format year n). split; [ exact Hs | ].
    apply filter_In. auto.
Qed.

Lemma maxOf_upper (l : list N) (n : N) : In n l → (n ≤ maxOf l)%N.
Proof.
  induction l as [ | x l IH ]; simpl; [ tauto | ].
  intros [ -> | H ]; [ lia | specialize (IH H); lia ].
Qed.

Lemma maxOf_least (l : list N) (m : N) : (∀ n, In n l → (n ≤ m)%N) → (maxOf l ≤ m)%N.
Proof.
  induction l as [ | x l IH ]; simpl; intros H; [ lia | ].
  pose proof (H x (or_introl eq_refl)).
  assert (maxOf l ≤ m)%N by (apply IH; intros; apply H; auto).
  lia.
Qed.

Lemma maxOf_positive (l : list N) :
  maxOf (List.filter (fun num => (0 <? num)%N) l) = maxOf l.
Proof.
  induction l as [ | x l IH ]; simpl; [ reflexivity | ].
  destruct (N.ltb_spec 0 x); simpl; rewrite IH; lia.
Qed.

(** What the Express route computes from the positive numbers is one more
    than the maximum of all the numbers extracted. *)
Lemma next_of_positive (l : list N) :
  match List.filter (fun num => (0 <? num)%N) l with
  | [] => 1%N
  | _ => (maxOf (List.filter (fun num => (0 <? num)%N) l) + 1)%N
  end = (maxOf l + 1)%N.
Proof.
  rewrite <- (maxOf_positive l).
  destruct (List.filter _ l); reflexivity.
Qed.

(** The serials the Express route keeps are exactly those of the shape
    [DAO-<year>-ddd]. *)
Lemma isOfYear_pattern (year : N) (s : string) :
  (2020 ≤ year ≤ 2100)%N →
  isOfYear year s = true
  ↔ ∃ q, String.length q = 3%nat ∧ Str.allDigits q = true
         ∧ s = "DAO-" +:+ Str.toString year +:+ "-" +:+ q.
Proof.
  intros Hy. split.
  - intros H. unfold isOfYear in H.
    destruct (matchAnchored s) as [ [y q] | ] eqn:E; [ | discriminate ].
    apply matchAnchored_Some in E as (-> & Hly & Hdy & Hlq & Hdq).
    apply N.eqb_eq in H. exists q.
    rewrite (year_round_trip y year Hy Hly Hdy H). auto.
  - intros (q & Hlq & Hdq & ->).
    destruct (year_prints year Hy) as (Hly & Hdy & Hvy).
    unfold isOfYear. rewrite (matchAnchored_app _ _ Hly Hdy Hlq Hdq).
    apply N.eqb_eq, Hvy.
Qed.

(** The Express route on the serials of an accepted year: with no serial of
    the year present the answer is number 001; with [m] the largest sequence
    number present, the answer is number [m + 1] below the capacity and a
    failure at the capacity. *)
Lemma nextNumberExpress_spec (existing : list string) (year : N) :
  (2020 ≤ year ≤ 2100)%N →
  let result := nextNumberExpress existing year in
  ((∀ n, (n ≤ 999)%N → ¬ In (format year n) existing) →
   result = NextNumber (format year 1))
  ∧ (∀ m, (m ≤ 999)%N → In (format year m) existing →
          (∀ n, (n ≤ 999)%N → In (format year n) existing → (n ≤ m)%N) →
          ((m < 999)%N → result = NextNumber (format year (m + 1)))
          ∧ (m = 999%N → result = YearLimitExceeded)).
Proof.
  intros Hy. cbv zeta. unfold nextNumberExpress.
  replace ((year <? 2020) || (2100 <? year))%N with false
    by (symmetry; apply orb_false_intro; apply N.ltb_ge; lia).
  set (cur := List.filter (isOfYear year) existing).
  pose proof (fun n => seqs_of_year existing year n Hy) as Hseqs. fold cur in Hseqs.
  split.
  - intros Hnone. destruct cur as [ | s cur' ] eqn:E; [ reflexivity | ].
    exfalso. destruct (proj1 (Hseqs (seqAnchored s)) (or_introl eq_refl)) as [Hle Hin].
    exact (Hnone _ Hle Hin).
  - intros m Hm Hin Hmax.
    assert (Hm_in : In m (List.map seqAnchored cur)) by (apply Hseqs; auto).
    assert (Hmaxof : maxOf (List.map seqAnchored cur) = m).
    { apply N.le_antisymm.
      - apply maxOf_least. intros n Hn. apply Hseqs in Hn as [Hn1 Hn2]. auto.
      - apply maxOf_upper, Hm_in. }
    destruct cur as [ | s cur' ] eqn:E; [ destruct Hm_in | ].
    rewrite next_of_positive, Hmaxof.
    split; intros Hcase.
    + replace (999 <? m + 1)%N with false by (symmetry; apply N.ltb_ge; lia).
      reflexivity.
    + replace (999 <? m + 1)%N with true by (symmetry; apply N.ltb_lt; lia).
      reflexivity.
Qed.

End SerialExpress.

(** C3. For a year it accepts, the Express route counts exactly the
    serials of the shape [DAO-<year>-ddd], answers 001 when there is none
    and the maximum plus one, padded to three digits, otherwise, and fails
    at the capacity of 999.  The two MongoDB variants of the same
    computation ([DaoService] and the MongoDB route) have no capacity test:
    with [DAO-2025-999] present they answer [DAO-2025-1000]. *)
Theorem nextDaoNumber_capacity :
  (∀ existing year,
     (2020 ≤ year ≤ 2100)%N →
     (∀ s, Serial.isOfYear year s = true
           ↔ ∃ q, String.length q = 3%nat ∧ Str.allDigits q = true
                  ∧ s = "DAO-" +:+ Str.toString year +:+ "-" +:+ q)
     ∧ ((∀ n, (n ≤ 999)%N → ¬ In (Serial.format year n) existing) →
        Serial.nextNumberExpress existing year = Serial.NextNumber (Serial.format year 1))
     ∧ (∀ m, (m ≤ 999)%N → In (Serial.format year m) existing →
             (∀ n, (n ≤ 999)%N → In (Serial.format year n) existing → (n ≤ m)%N) →
             ((m < 999)%N →
              Serial.nextNumberExpress existing year
              = Serial.NextNumber (Serial.format year (m + 1)))
             ∧ (m = 999%N →
                Serial.nextNumberExpress existing year = Serial.YearLimitExceeded)))
  ∧ Serial.nextNumberExpress [] 2025 = Serial.NextNumber "DAO-2025-001"
  ∧ Serial.nextNumberExpress ["DAO-2025-007"; "DAO-2024-123"; "DAO-2025-003"] 2025
    = Serial.NextNumber "DAO-2025-008"
  ∧ Serial.nextNumberExpress ["DAO-2025-999"] 2025 = Serial.YearLimitExceeded
  ∧ Serial.generateNextDaoNumber ["DAO-2025-999"] 2025 = "DAO-2025-1000"
  ∧ Serial.nextNumberMongo ["DAO-2025-999"] 2025 = "DAO-2025-1000".
Proof.
  split.
  - intros existing year Hy. split.
    + intros s. exact (isOfYear_pattern year s Hy).
    + exact (nextNumberExpress_spec existing year Hy).
  - repeat split; vm_compute; reflexivity.
Qed.

(** ** Routes and the store *)

Section RouteFacts.

Context {S : Type}.

Lemma route_requireAdmin_user (handler : AuthUser → S → S * Reply) (u : AuthUser) (st : S) :
  au_role u = user →
  route (authorize [admin]) handler (Some u) st = (st, forbidden).
Proof.
  intros Hrole. unfold route, forbidden, authorize, authenticate.
  rewrite Hrole, bool_decide_eq_false_2; [ reflexivity | ].
  intros H. apply list_elem_of_In in H. destruct H as [ H | [] ]. discriminate H.
Qed.

Lemma route_requireAdmin_admin (handler : AuthUser → S → S * Reply) (u : AuthUser) (st : S) :
  au_role u = admin → route (authorize [admin]) handler (Some u) st = handler u st.
Proof.
  intros Hrole. unfold route, forbidden, authorize, authenticate.
  rewrite Hrole, bool_decide_eq_true_2; [ reflexivity | ].
  apply list_elem_of_In. left. reflexivity.
Qed.

Lemma route_requireUser (handler : AuthUser → S → S * Reply) (u : AuthUser) (st : S) :
  route (authorize [admin; user]) handler (Some u) st = handler u st.
Proof.
  unfold route, authorize, authenticate.
  rewrite bool_decide_eq_true_2; [ reflexivity | ].
  apply list_elem_of_In. destruct (au_role u); simpl; auto.
Qed.

End RouteFacts.

Section TaskListFacts.

Import Express.

Lemma findTask_None (taskId : Z) (l : list DaoTask) :
  findTask taskId l = None ↔ ¬ In taskId (List.map id l).
Proof.
  unfold findTask. induction l as [ | t l IH ]; simpl.
  - tauto.
  - destruct (Z.eqb_spec (id t) taskId) as [ E | E ].
    + split; [ discriminate | intros H; exfalso; apply H; auto ].
    + rewrite IH. tauto.
Qed.

Lemma findTask_Some (taskId : Z) (l : list DaoTask) (t : DaoTask) :
  findTask taskId l = Some t → In t l ∧ id t = taskId.
Proof.
  unfold findTask. intros H. apply find_some in H as [Hin Hid].
  split; [ exact Hin | apply Z.eqb_eq, Hid ].
Qed.

Lemma findTask_mutateFirst (taskId : Z) (f : DaoTask → DaoTask) (l : list DaoTask) (t : DaoTask) :
  (∀ x, id (f x) = id x) →
  findTask taskId l = Some t →
  findTask taskId (mutateFirst taskId f l) = Some (f t).
Proof.
  intros Hf. unfold findTask. induction l as [ | x l IH ]; simpl; [ discriminate | ].
  destruct (Z.eqb_spec (id x) taskId) as [ E | E ]; simpl.
  - intros [= ->]. rewrite Hf. destruct (Z.eqb_spec (id t) taskId); [ reflexivity | contradiction ].
  - intros H. destruct (Z.eqb_spec (id x) taskId); [ contradiction | ]. apply IH, H.
Qed.

Lemma findTask_mutateFirst_other (j taskId : Z) (f : DaoTask → DaoTask) (l : list DaoTask) :
  (∀ x, id (f x) = id x) →
  j ≠ taskId →
  findTask j (mutateFirst taskId f l) = findTask j l.
Proof.
  intros Hf Hj. unfold findTask. induction l as [ | x l IH ]; simpl; [ reflexivity | ].
  destruct (Z.eqb_spec (id x) taskId) as [ E | E ]; simpl.
  - rewrite Hf. destruct (Z.eqb_spec (id x) j); [ lia | reflexivity ].
  - rewrite IH. reflexivity.
Qed.

Lemma mutateFirst_length (taskId : Z) (f : DaoTask → DaoTask) (l : list DaoTask) :
  List.length (mutateFirst taskId f l) = List.length l.
Proof.
  induction l as [ | x l IH ]; simpl; [ reflexivity | ].
  destruct (id x =? taskId); simpl; congruence.
Qed.

Lemma findById_Some (st : DaoStorage) (daoId : string) (dao : Dao) :
  findById st daoId = Some dao ↔
  ∃ i, findIndexById st daoId = Some i ∧ storage st !! i = Some dao.
Proof.
  unfold findById, findIndexById. destruct (idIndex st !! daoId) as [ i | ].
  - split; [ eauto | intros (j & [= <-] & H); exact H ].
  - split; [ discriminate | intros (j & [=] & _) ].
Qed.

(** Writing back an object with the same id and authority keeps the index
    and is seen by the next lookup. *)
Lemma updateAtIndex_same (st : DaoStorage) (i : nat) (daoId : string) (dao dao' : Dao) :
  findIndexById st daoId = Some i →
  storage st !! i = Some dao →
  dao_id dao' = dao_id dao →
  autoriteContractante dao' = autoriteContractante dao →
  updateAtIndex st i dao' = mkStorage (<[i := dao']> (storage st)) (idIndex st)
  ∧ findById (updateAtIndex st i dao') daoId = Some dao'.
Proof.
  intros Hi Hd Hid Haut. unfold updateAtIndex. rewrite Hd.
  rewrite bool_decide_eq_false_2 by (rewrite Hid, Haut; tauto).
  split; [ reflexivity | ].
  unfold findById. cbn [idIndex storage]. unfold findIndexById in Hi. rewrite Hi.
  apply list_lookup_insert_eq. eapply lookup_lt_Some, Hd.
Qed.

End TaskListFacts.

(** ** Task update *)

Section UpdateTaskFacts.

Import Express.

Lemma applyPatch_id (b : TaskPatch) (actor now : string) (t : DaoTask) :
  id (applyPatch b actor now t) = id t.
Proof. reflexivity. Qed.

Lemma mongo_applyPatch_id (b : TaskPatch) (actor now : string) (t : DaoTask) :
  id (Mongo.applyPatch b actor now t) = id t.
Proof. reflexivity. Qed.

(** A well-formed update of a task that exists goes through. *)
Lemma updateTaskHandler_found (now daoId : string) (taskId : Z) (body : TaskPatch)
    (u : AuthUser) (st : DaoStorage) (dao : Dao) (t : DaoTask) :
  invalidId daoId = false → 1 ≤ taskId → taskUpdateSchema body = true →
  findById st daoId = Some dao →
  findTask taskId (tasks dao) = Some t →
  let dao' :=
    withTasks dao (mutateFirst taskId (applyPatch body (au_id u) now) (tasks dao)) now in
  snd (updateTaskHandler now daoId (Some taskId) body u st) = ReplyDao 200 dao'
  ∧ findById (fst (updateTaskHandler now daoId (Some taskId) body u st)) daoId = Some dao'
  ∧ findTask taskId (tasks dao') = Some (applyPatch body (au_id u) now t).
Proof.
  intros Hid Htid Hschema Hdao Ht dao'.
  pose proof Hdao as Hdao0. apply findById_Some in Hdao0 as (i & Hi & Hsi).
  unfold updateTaskHandler. rewrite Hid.
  replace (taskId <? 1) with false by (symmetry; apply Z.ltb_ge; lia).
  rewrite Hschema, Hi, Hdao, Ht. cbn [negb fst snd].
  destruct (updateAtIndex_same st i daoId dao dao' Hi Hsi eq_refl eq_refl) as [_ Hfind].
  repeat split; [ exact Hfind | ].
  apply findTask_mutateFirst; [ apply applyPatch_id | exact Ht ].
Qed.

End UpdateTaskFacts.

(** C5. An update that names a task the Dao does not have changes nothing:
    the store comes back as it was (so the Dao's [updatedAt] and every
    task's audit stamps keep their values), the reply is an error, and for a
    well-formed request that error is 404 "Task not found", in the Express
    and in the MongoDB back end. *)
Theorem updateTask_missing_task_atomic
    (now daoId : string) (taskId : Z) (body : TaskPatch) (actor : AuthUser) (dao : Dao) :
  ¬ In taskId (List.map id (tasks dao)) →
  (∀ st, Express.findById st daoId = Some dao →
     let result := Express.updateTask now daoId (Some taskId) body (Some actor) st in
     fst result = st
     ∧ Express.findById (fst result) daoId = Some dao
     ∧ (∃ status error code, snd result = ReplyError status error code ∧ 400 ≤ status)
     ∧ (Express.invalidId daoId = false → 1 ≤ taskId →
        Express.taskUpdateSchema body = true →
        snd result = ReplyError 404 "Task not found" (Some "TASK_NOT_FOUND")))
  ∧ (∀ isObjectId validates (coll : gmap string Dao), coll !! daoId = Some dao →
       let result :=
         Mongo.updateTask isObjectId validates now daoId (Some taskId) body (Some actor) coll in
       fst result = coll
       ∧ (∃ status error code, snd result = ReplyError status error code ∧ 400 ≤ status)
       ∧ (isObjectId daoId = true →
          snd result = ReplyError 404 "Task not found" None)).
Proof.
  intros Hmissing. apply findTask_None in Hmissing. split.
  - intros st Hdao. cbv zeta. unfold Express.updateTask, Express.requireUser. rewrite route_requireUser.
    pose proof Hdao as Hdao0. apply findById_Some in Hdao0 as (i & Hi & Hsi).
    unfold Express.updateTaskHandler.
    destruct (Express.invalidId daoId); [ cbn; eauto 10 with lia | ].
    destruct (taskId <? 1) eqn:Hlt;
      [ cbn; repeat split; eauto 10 with lia; intros; apply Z.ltb_lt in Hlt; lia | ].
    destruct (Express.taskUpdateSchema body); cbn [negb];
      [ | cbn; repeat split; eauto 10 with lia; discriminate ].
    rewrite Hi, Hdao, Hmissing. cbn. unfold Express.err. eauto 10 with lia.
  - intros isObjectId validates coll Hdao. cbv zeta.
    unfold Mongo.updateTask, requireUser. rewrite route_requireUser.
    unfold Mongo.updateTaskHandler.
    destruct (isObjectId daoId); cbn [negb];
      [ | cbn; repeat split; eauto 10 with lia; discriminate ].
    rewrite Hdao, Hmissing. cbn. unfold Mongo.err. eauto 10 with lia.
Qed.

Lemma updateTask_missing_task_atomic_witness :
  fst (Express.updateTask laterStamp "dao-1" (Some 9) (mkPatch (Some 50) None None None)
         (Some marie) sampleStore) = sampleStore.
Proof.
  refine (proj1 (proj1 (updateTask_missing_task_atomic laterStamp "dao-1" 9
                          (mkPatch (Some 50) None None None) marie sampleDao _)
                   sampleStore _)).
  - simpl. lia.
  - vm_compute. reflexivity.
Defined.

Section MongoUpdateFacts.

Variable isObjectId : string → bool.
Variable validates : Dao → bool.

(** The MongoDB update of a task that exists either fails at the save,
    writing nothing, or stores the patched task. *)
Lemma mongo_updateTaskHandler_found (now daoId : string) (taskId : Z) (body : TaskPatch)
    (u : AuthUser) (coll : gmap string Dao) (dao : Dao) (t : DaoTask) :
  isObjectId daoId = true →
  coll !! daoId = Some dao →
  Express.findTask taskId (tasks dao) = Some t →
  let result := Mongo.updateTaskHandler isObjectId validates now daoId (Some taskId) body u coll in
  (result = (coll, ReplyError 500 "Failed to update task" None))
  ∨ (∃ dao', snd result = ReplyDao 200 dao'
             ∧ fst result !! daoId = Some dao'
             ∧ equipe dao' = equipe dao
             ∧ tasks dao'
               = Express.mutateFirst taskId (Mongo.applyPatch body (au_id u) now) (tasks dao)
             ∧ Express.findTask taskId (tasks dao')
               = Some (Mongo.applyPatch body (au_id u) now t)).
Proof.
  intros Hoid Hdao Ht. cbv zeta. unfold Mongo.updateTaskHandler.
  rewrite Hoid, Hdao, Ht. cbn [negb]. unfold Mongo.save.
  set (patched := Express.withTasks dao _ (updatedAt dao)).
  set (stamped := if bool_decide (patched = dao) then patched else _).
  assert (Htasks : tasks stamped = tasks patched ∧ equipe stamped = equipe dao).
  { unfold stamped. destruct (bool_decide (patched = dao)); split; reflexivity. }
  destruct Htasks as [Htasks Hequipe].
  destruct (validates stamped); [ right | left; reflexivity ].
  exists stamped. cbn [fst snd]. rewrite lookup_insert_eq, Htasks.
  repeat split; try assumption.
  apply findTask_mutateFirst; [ apply mongo_applyPatch_id | exact Ht ].
Qed.

End MongoUpdateFacts.

(** C6 as stated fails: assigning task 1 to ["ghost"], who is not in the
    team, is accepted by both back ends and stored. *)
Lemma assign_dangling_member_accepted :
  let patch := mkPatch None None None (Some "ghost") in
  ¬ In "ghost" (List.map tm_id (equipe sampleDao))
  ∧ (∃ dao',
       snd (Express.updateTask laterStamp "dao-1" (Some 1) patch (Some marie) sampleStore)
       = ReplyDao 200 dao'
       ∧ option_map assignedTo (Express.findTask 1 (tasks dao')) = Some (Some "ghost"))
  ∧ (∃ dao',
       snd (Mongo.updateTask (fun _ => true) (fun _ => true) laterStamp "dao-1" (Some 1) patch
              (Some marie) sampleCollection)
       = ReplyDao 200 dao'
       ∧ option_map assignedTo (Express.findTask 1 (tasks dao')) = Some (Some "ghost")).
Proof.
  cbv zeta. split; [ | split ].
  - simpl. intros [ H | [] ]. discriminate H.
  - eexists. split; vm_compute; reflexivity.
  - eexists. split; vm_compute; reflexivity.
Qed.

(** C6, amended.  A well-formed update with an [assignedTo] string succeeds
    whether or not the string names a member of the team, and the task is
    assigned to it (with HTML tags and outer blanks removed in the Express
    back end); the MongoDB back end does the same unless the save itself
    fails.  No reply is an invalid-reference failure. *)
Theorem assignment_not_checked_against_team
    (now daoId : string) (taskId : Z) (body : TaskPatch) (a : string)
    (actor : AuthUser) (dao : Dao) (t : DaoTask) :
  p_assignedTo body = Some a →
  Express.findTask taskId (tasks dao) = Some t →
  (∀ st, Express.invalidId daoId = false → 1 ≤ taskId →
         Express.taskUpdateSchema body = true →
         Express.findById st daoId = Some dao →
     let result := Express.updateTask now daoId (Some taskId) body (Some actor) st in
     ∃ dao' t', snd result = ReplyDao 200 dao'
                ∧ Express.findById (fst result) daoId = Some dao'
                ∧ equipe dao' = equipe dao
                ∧ Express.findTask taskId (tasks dao') = Some t'
                ∧ assignedTo t' = Some (sanitizeString a))
  ∧ (∀ isObjectId validates (coll : gmap string Dao),
       isObjectId daoId = true → coll !! daoId = Some dao →
       let result :=
         Mongo.updateTask isObjectId validates now daoId (Some taskId) body (Some actor) coll in
       result = (coll, ReplyError 500 "Failed to update task" None)
       ∨ (∃ dao' t', snd result = ReplyDao 200 dao'
                     ∧ fst result !! daoId = Some dao'
                     ∧ equipe dao' = equipe dao
                     ∧ Express.findTask taskId (tasks dao') = Some t'
                     ∧ assignedTo t' = Some a)).
Proof.
  intros Ha Ht. split.
  - intros st Hid Htid Hschema Hdao. cbv zeta.
    unfold Express.updateTask, Express.requireUser. rewrite route_requireUser.
    destruct (updateTaskHandler_found now daoId taskId body actor st dao t
                Hid Htid Hschema Hdao Ht) as (Hreply & Hstore & Hfind).
    eexists _, _. split; [ exact Hreply | ]. split; [ exact Hstore | ].
    split; [ reflexivity | ]. split; [ exact Hfind | ].
    cbn. rewrite Ha. reflexivity.
  - intros isObjectId validates coll Hoid Hdao. cbv zeta.
    unfold Mongo.updateTask, requireUser. rewrite route_requireUser.
    destruct (mongo_updateTaskHandler_found isObjectId validates now daoId taskId body
                actor coll dao t Hoid Hdao Ht)
      as [ Hfail | (dao' & Hreply & Hstore & Hequipe & _ & Hfind) ];
      [ left; exact Hfail | right ].
    exists dao', (Mongo.applyPatch body (au_id actor) now t).
    repeat split; try assumption. cbn. rewrite Ha. reflexivity.
Qed.

Lemma assignment_not_checked_against_team_witness :
  ∃ dao' t',
    snd (Express.updateTask laterStamp "dao-1" (Some 1) (mkPatch None None None (Some "ghost"))
           (Some marie) sampleStore) = ReplyDao 200 dao'
    ∧ Express.findById
        (fst (Express.updateTask laterStamp "dao-1" (Some 1)
                (mkPatch None None None (Some "ghost")) (Some marie) sampleStore)) "dao-1"
      = Some dao'
    ∧ equipe dao' = equipe sampleDao
    ∧ Express.findTask 1 (tasks dao') = Some t'
    ∧ assignedTo t' = Some (sanitizeString "ghost").
Proof.
  refine (proj1 (assignment_not_checked_against_team laterStamp "dao-1" 1
                   (mkPatch None None None (Some "ghost")) "ghost" marie sampleDao
                   (sampleTask 1) _ _) sampleStore _ _ _ _).
  - reflexivity.
  - reflexivity.
  - reflexivity.
  - lia.
  - reflexivity.
  - vm_compute. reflexivity.
Defined.

(** C7 as stated fails: a patch that sets [isApplicable] to false together
    with a progress of 50 leaves the task with progress 50, not null, in
    both back ends; a patch that only sets [isApplicable] to false keeps the
    earlier progress. *)
Lemma not_applicable_keeps_progress :
  (∃ dao',
     snd (Express.updateTask laterStamp "dao-1" (Some 1)
            (mkPatch (Some 50) None (Some false) None) (Some marie) sampleStore)
     = ReplyDao 200 dao'
     ∧ option_map (fun t => (isApplicable t, progress t)) (Express.findTask 1 (tasks dao'))
       = Some (false, Some 50))
  ∧ (∃ dao',
       snd (Express.updateTask laterStamp "dao-1" (Some 1)
              (mkPatch None None (Some false) None) (Some marie) sampleStore)
       = ReplyDao 200 dao'
       ∧ option_map (fun t => (isApplicable t, progress t)) (Express.findTask 1 (tasks dao'))
         = Some (false, Some 40))
  ∧ (∃ dao',
       snd (Mongo.updateTask (fun _ => true) (fun _ => true) laterStamp "dao-1" (Some 1)
              (mkPatch (Some 50) None (Some false) None) (Some marie) sampleCollection)
       = ReplyDao 200 dao'
       ∧ option_map (fun t => (isApplicable t, progress t)) (Express.findTask 1 (tasks dao'))
         = Some (false, Some 50)).
Proof.
  split; [ | split ]; eexists; split; vm_compute; reflexivity.
Qed.

Lemma percentOk_clamp (p : Z) : percentOk p = true → clampPercent p = p.
Proof.
  unfold percentOk, clampPercent. intros H.
  apply andb_prop in H as [H1 H2]. apply Z.leb_le in H1, H2. lia.
Qed.

Lemma express_applyPatch_patched (body : TaskPatch) (actorId now : string) (t : DaoTask) :
  Express.taskUpdateSchema body = true →
  patchedTask sanitizeString body actorId now t (Express.applyPatch body actorId now t).
Proof.
  intros Hschema. unfold Express.taskUpdateSchema in Hschema.
  apply andb_prop in Hschema as [Hschema _]. apply andb_prop in Hschema as [Hp _].
  unfold patchedTask, Express.applyPatch. cbn.
  destruct (p_progress body) as [ p | ]; [ rewrite (percentOk_clamp p Hp) | ];
    destruct (p_isApplicable body); cbn; tauto.
Qed.

Lemma mongo_applyPatch_patched (body : TaskPatch) (actorId now : string) (t : DaoTask) :
  patchedSubdocument body actorId now t (Mongo.applyPatch body actorId now t).
Proof.
  unfold patchedSubdocument, Mongo.applyPatch, clampPercent. cbn.
  destruct (p_isApplicable body); cbn; tauto.
Qed.

(** A progress out of the range 0..100 does not pass [taskUpdateSchema]. *)
Lemma taskUpdateSchema_out_of_range (body : TaskPatch) (p : Z) :
  p_progress body = Some p → ¬ 0 ≤ p ≤ 100 → Express.taskUpdateSchema body = false.
Proof.
  intros Hp Hout. unfold Express.taskUpdateSchema. rewrite Hp. cbn [optAll].
  replace (percentOk p) with false; [ reflexivity | ].
  symmetry. unfold percentOk. apply andb_false_iff.
  destruct (Z.leb_spec 0 p); [ right; apply Z.leb_gt; lia | left; reflexivity ].
Qed.

(** C7, amended.  A task update changes only the fields present in the
    patch (and the two audit stamps), on the task named and on no other; the
    Express back end stores the comment and the assignee sanitized, the
    MongoDB back end the comment trimmed and the assignee as sent.  A
    supplied progress is stored within 0..100 whether or not the task is
    applicable: the MongoDB back end clamps it, and the Express back end
    answers a value out of range with 400 and changes nothing.  Setting
    [isApplicable] to false does not touch the progress: it is the value
    supplied in the same patch, or else the earlier one. *)
Theorem updateTask_partial_update
    (now daoId : string) (taskId : Z) (body : TaskPatch)
    (actor : AuthUser) (dao : Dao) (t : DaoTask) :
  Express.findTask taskId (tasks dao) = Some t →
  (∀ st, Express.invalidId daoId = false → 1 ≤ taskId →
         Express.taskUpdateSchema body = true →
         Express.findById st daoId = Some dao →
     let result := Express.updateTask now daoId (Some taskId) body (Some actor) st in
     ∃ dao' t', snd result = ReplyDao 200 dao'
                ∧ Express.findById (fst result) daoId = Some dao'
                ∧ Express.findTask taskId (tasks dao') = Some t'
                ∧ (∀ j, j ≠ taskId →
                        Express.findTask j (tasks dao') = Express.findTask j (tasks dao))
                ∧ patchedTask sanitizeString body (au_id actor) now t t')
  ∧ (∀ st p, p_progress body = Some p → ¬ 0 ≤ p ≤ 100 →
       let result := Express.updateTask now daoId (Some taskId) body (Some actor) st in
       fst result = st
       ∧ (∃ error code, snd result = ReplyError 400 error code)
       ∧ (Express.invalidId daoId = false → 1 ≤ taskId →
          snd result = ReplyError 400 "Validation error" (Some "VALIDATION_ERROR")))
  ∧ (∀ isObjectId validates (coll : gmap string Dao),
       isObjectId daoId = true → coll !! daoId = Some dao →
       let result :=
         Mongo.updateTask isObjectId validates now daoId (Some taskId) body (Some actor) coll in
       result = (coll, ReplyError 500 "Failed to update task" None)
       ∨ (∃ dao' t', snd result = ReplyDao 200 dao'
                     ∧ fst result !! daoId = Some dao'
                     ∧ Express.findTask taskId (tasks dao') = Some t'
                     ∧ (∀ j, j ≠ taskId →
                             Express.findTask j (tasks dao') = Express.findTask j (tasks dao))
                     ∧ patchedSubdocument body (au_id actor) now t t')).
Proof.
  intros Ht. split; [ | split ].
  - intros st Hid Htid Hschema Hdao. cbv zeta.
    unfold Express.updateTask, Express.requireUser. rewrite route_requireUser.
    destruct (updateTaskHandler_found now daoId taskId body actor st dao t
                Hid Htid Hschema Hdao Ht) as (Hreply & Hstore & Hfind).
    eexists _, _. split; [ exact Hreply | ]. split; [ exact Hstore | ].
    split; [ exact Hfind | ]. split.
    + intros j Hj. cbn [tasks Express.withTasks].
      apply findTask_mutateFirst_other; [ apply applyPatch_id | exact Hj ].
    + apply express_applyPatch_patched, Hschema.
  - intros st p Hp Hout. cbv zeta.
    unfold Express.updateTask, Express.requireUser. rewrite route_requireUser.
    unfold Express.updateTaskHandler, Express.err.
    rewrite (taskUpdateSchema_out_of_range body p Hp Hout). cbn [negb].
    destruct (Express.invalidId daoId); cbn [fst snd].
    { split; [ reflexivity | ]. split; [ eauto | discriminate ]. }
    destruct (Z.ltb_spec taskId 1); cbn [fst snd].
    { split; [ reflexivity | ]. split; [ eauto | lia ]. }
    split; [ reflexivity | ]. split; [ eauto | reflexivity ].
  - intros isObjectId validates coll Hoid Hdao. cbv zeta.
    unfold Mongo.updateTask, requireUser. rewrite route_requireUser.
    destruct (mongo_updateTaskHandler_found isObjectId validates now daoId taskId body
                actor coll dao t Hoid Hdao Ht)
      as [ Hfail | (dao' & Hreply & Hstore & _ & Htasks & Hfind) ];
      [ left; exact Hfail | right ].
    exists dao', (Mongo.applyPatch body (au_id actor) now t).
    split; [ exact Hreply | ]. split; [ exact Hstore | ].
    split; [ exact Hfind | ]. split.
    + intros j Hj. rewrite Htasks.
      apply findTask_mutateFirst_other; [ apply mongo_applyPatch_id | exact Hj ].
    + apply mongo_applyPatch_patched.
Qed.

Lemma updateTask_partial_update_witness :
  ∃ dao' t',
    snd (Express.updateTask laterStamp "dao-1" (Some 1)
           (mkPatch (Some 50) None (Some false) None) (Some marie) sampleStore)
    = ReplyDao 200 dao'
    ∧ Express.findTask 1 (tasks dao') = Some t'
    ∧ progress t' = Some 50.
Proof.
  destruct (proj1 (updateTask_partial_update laterStamp "dao-1" 1
                     (mkPatch (Some 50) None (Some false) None) marie sampleDao
                     (sampleTask 1) eq_refl)
              sampleStore eq_refl ltac:(lia) eq_refl eq_refl)
    as (dao' & t' & Hreply & _ & Hfind & _ & Hpatched).
  exists dao', t'. split; [ exact Hreply | ]. split; [ exact Hfind | ].
  exact (proj1 (proj2 (proj2 Hpatched))).
Defined.

(** ** Task identifiers *)

Section AddTaskFacts.

Import Express.

Lemma fold_left_max (rest : list Z) (i : Z) :
  In (fold_left Z.max rest i) (i :: rest)
  ∧ ∀ x, In x (i :: rest) → x ≤ fold_left Z.max rest i.
Proof.
  revert i. induction rest as [ | y rest IH ]; intros i; simpl.
  - split; [ auto | intros x [ -> | [] ]; lia ].
  - destruct (IH (Z.max i y)) as [Hin Hle]. split.
    + destruct Hin as [ Hin | Hin ]; [ | tauto ].
      rewrite <- Hin.
      destruct (Z.max_spec i y) as [ [_ E] | [_ E] ]; rewrite E; tauto.
    + intros x [ -> | [ -> | Hx ] ].
      * specialize (Hle (Z.max x y) (or_introl eq_refl)). lia.
      * specialize (Hle (Z.max i x) (or_introl eq_refl)). lia.
      * apply Hle. right. exact Hx.
Qed.

(** Up to [2 ^ 53] in absolute value every integer is a number. *)
Lemma roundDouble_exact (n : Z) : Z.abs n ≤ 2 ^ 53 → roundDouble n = n.
Proof.
  intros Hn. unfold roundDouble. cbv zeta.
  destruct (Z.ltb_spec (Z.abs n) (2 ^ 53)) as [ Hlt | Hge ]; [ reflexivity | ].
  assert (Habs : Z.abs n = 2 ^ 53) by lia.
  destruct (Z.abs_eq_or_opp n) as [ E | E ]; rewrite E in Habs.
  - rewrite Habs. reflexivity.
  - assert (Hneg : n = - 2 ^ 53) by lia. rewrite Hneg. reflexivity.
Qed.

(** The new id is 1 on an empty list and otherwise, while the ids present
    are safe integers, the successor of the greatest id present. *)
Lemma newTaskId_spec (ids : list Z) :
  forallb isSafeInteger ids = true →
  (ids = [] → newTaskId ids = 1)
  ∧ (ids ≠ [] → In (newTaskId ids - 1) ids ∧ ∀ i, In i ids → i < newTaskId ids).
Proof.
  intros Hsafe. split.
  - intros ->. reflexivity.
  - intros Hne. destruct ids as [ | i rest ]; [ contradiction | ].
    unfold newTaskId. destruct (fold_left_max rest i) as [Hin Hle].
    rewrite roundDouble_exact.
    + replace (fold_left Z.max rest i + 1 - 1) with (fold_left Z.max rest i) by lia.
      split; [ exact Hin | ]. intros x Hx. specialize (Hle x Hx). lia.
    + rewrite forallb_forall in Hsafe. specialize (Hsafe _ Hin).
      unfold isSafeInteger in Hsafe. apply Z.leb_le in Hsafe.
      change (2 ^ 53) with 9007199254740992. lia.
Qed.

(** Past the safe integers the addition of numbers can return its larger
    argument: the id 9007199254740992 = 2 ^ 53, which [taskSchema] lets in,
    is given out again. *)
Lemma newTaskId_unsafe : newTaskId [1; 9007199254740992] = 9007199254740992.
Proof. reflexivity. Qed.

(** A well-formed addition to a Dao that exists goes through. *)
Lemma addTaskHandler_found (now daoId : string) (body v : TaskDraft)
    (u : AuthUser) (st : DaoStorage) (dao : Dao) :
  invalidId daoId = false → createTaskSchema body = Some v →
  findById st daoId = Some dao →
  let added := newTask v (newTaskId (List.map id (tasks dao))) (au_id u) now in
  let dao' := withTasks dao (tasks dao ++ [added]) now in
  snd (addTaskHandler now daoId body u st) = ReplyDao 201 dao'
  ∧ findById (fst (addTaskHandler now daoId body u st)) daoId = Some dao'.
Proof.
  intros Hid Hschema Hdao. cbv zeta.
  pose proof Hdao as Hdao0. apply findById_Some in Hdao0 as (i & Hi & Hsi).
  unfold addTaskHandler. rewrite Hid, Hschema, Hi, Hdao. cbn [fst snd].
  split; [ reflexivity | ].
  apply (updateAtIndex_same st i daoId dao); auto.
Qed.

End AddTaskFacts.

(** C4 as stated fails: after task 3 is deleted from a Dao whose tasks are
    1, 2 and 3, the task added next gets id 3 again. *)
Lemma deleted_task_id_reused :
  let afterDelete :=
    fst (Express.deleteTask laterStamp "dao-1" (Some 3) (Some adminUser) sampleStore) in
  let draft := mkDraft "Garantie" true (Some 0) None None in
  List.map id (tasks sampleDao) = [1; 2; 3]
  ∧ option_map (fun d => List.map id (tasks d)) (Express.findById afterDelete "dao-1")
    = Some [1; 2]
  ∧ ∃ dao',
      snd (Express.addTask laterStamp "dao-1" draft (Some adminUser) afterDelete)
      = ReplyDao 201 dao'
      ∧ List.map id (tasks dao') = [1; 2; 3].
Proof.
  cbv zeta. split; [ reflexivity | ]. split; [ vm_compute; reflexivity | ].
  eexists. split; vm_compute; reflexivity.
Qed.

(** C4, amended.  An addition by an admin appends one task whose id is 1
    when the Dao has no task and otherwise, while the ids now present are
    safe integers (below 2 ^ 53 in absolute value), the greatest id now
    present plus one; it then differs from every id now present.  Ids of
    deleted tasks are not remembered. *)
Theorem addTask_assigns_next_id
    (now daoId : string) (body v : TaskDraft) (actor : AuthUser)
    (st : Express.DaoStorage) (dao : Dao) :
  au_role actor = admin →
  Express.invalidId daoId = false →
  Express.createTaskSchema body = Some v →
  Express.findById st daoId = Some dao →
  forallb isSafeInteger (List.map id (tasks dao)) = true →
  let result := Express.addTask now daoId body (Some actor) st in
  let ids := List.map id (tasks dao) in
  ∃ (dao' : Dao) (added : DaoTask),
    snd result = ReplyDao 201 dao'
    ∧ Express.findById (fst result) daoId = Some dao'
    ∧ tasks dao' = (tasks dao ++ [added])%list
    ∧ (ids = [] → id added = 1)
    ∧ (ids ≠ [] → In (id added - 1) ids ∧ ∀ i, In i ids → i < id added)
    ∧ ¬ In (id added) ids.
Proof.
  intros Hrole Hid Hschema Hdao Hsafe. cbv zeta.
  unfold Express.addTask, Express.requireAdmin. rewrite (route_requireAdmin_admin _ _ _ Hrole).
  destruct (addTaskHandler_found now daoId body v actor st dao Hid Hschema Hdao)
    as [Hreply Hstore].
  destruct (newTaskId_spec (List.map id (tasks dao)) Hsafe) as [Hempty Hmax].
  eexists _, _. split; [ exact Hreply | ]. split; [ exact Hstore | ].
  split; [ reflexivity | ]. cbn [id Express.newTask].
  split; [ exact Hempty | ]. split; [ exact Hmax | ].
  intros Hin.
  assert (Hne : List.map id (tasks dao) ≠ []) by (intros E; rewrite E in Hin; destruct Hin).
  destruct (Hmax Hne) as [_ Hlt]. specialize (Hlt _ Hin). lia.
Qed.

Lemma addTask_assigns_next_id_witness :
  ∃ (dao' : Dao) (added : DaoTask),
    snd (Express.addTask laterStamp "dao-1" (mkDraft "Garantie" true (Some 0) None None)
           (Some adminUser) sampleStore) = ReplyDao 201 dao'
    ∧ tasks dao' = (tasks sampleDao ++ [added])%list
    ∧ ¬ In (id added) (List.map id (tasks sampleDao)).
Proof.
  destruct (addTask_assigns_next_id laterStamp "dao-1"
              (mkDraft "Garantie" true (Some 0) None None)
              (mkDraft "Garantie" true (Some 0) None None)
              adminUser sampleStore sampleDao eq_refl eq_refl eq_refl eq_refl eq_refl)
    as (dao' & added & Hreply & _ & Htasks & _ & _ & Hfresh).
  exists dao', added. split; [ exact Hreply | ]. split; [ exact Htasks | exact Hfresh ].
Defined.

(** ** Roles *)

(** C8. An actor with role [user] is refused (403) by the routes that add,
    delete and rename a task, whatever the request, and the store is left as
    it was; the same actor's well-formed update of an existing task
    (progress, comment, applicability, assignment) succeeds. *)
Theorem user_role_task_operations (actor : AuthUser) :
  au_role actor = user →
  (∀ now daoId body st,
     Express.addTask now daoId body (Some actor) st = (st, forbidden))
  ∧ (∀ now daoId taskId st,
       Express.deleteTask now daoId taskId (Some actor) st = (st, forbidden))
  ∧ (∀ now daoId taskId newName st,
       Express.renameTask now daoId taskId newName (Some actor) st = (st, forbidden))
  ∧ (∀ now daoId taskId body st dao t,
       Express.invalidId daoId = false → 1 ≤ taskId →
       Express.taskUpdateSchema body = true →
       Express.findById st daoId = Some dao →
       Express.findTask taskId (tasks dao) = Some t →
       let result := Express.updateTask now daoId (Some taskId) body (Some actor) st in
       ∃ dao' t', snd result = ReplyDao 200 dao'
                  ∧ Express.findById (fst result) daoId = Some dao'
                  ∧ Express.findTask taskId (tasks dao') = Some t'
                  ∧ patchedTask sanitizeString body (au_id actor) now t t').
Proof.
  intros Hrole. split; [ | split; [ | split ] ].
  - intros. exact (route_requireAdmin_user _ _ _ Hrole).
  - intros. exact (route_requireAdmin_user _ _ _ Hrole).
  - intros. exact (route_requireAdmin_user _ _ _ Hrole).
  - intros now daoId taskId body st dao t Hid Htid Hschema Hdao Ht. cbv zeta.
    unfold Express.updateTask, Express.requireUser. rewrite route_requireUser.
    destruct (updateTaskHandler_found now daoId taskId body actor st dao t
                Hid Htid Hschema Hdao Ht) as (Hreply & Hstore & Hfind).
    eexists _, _. split; [ exact Hreply | ]. split; [ exact Hstore | ].
    split; [ exact Hfind | ]. apply express_applyPatch_patched, Hschema.
Qed.

Lemma user_role_task_operations_witness :
  Express.addTask laterStamp "dao-1" (mkDraft "Garantie" true (Some 0) None None)
    (Some marie) sampleStore = (sampleStore, forbidden)
  ∧ Express.deleteTask laterStamp "dao-1" (Some 3) (Some marie) sampleStore
    = (sampleStore, forbidden).
Proof.
  pose proof (user_role_task_operations marie eq_refl) as (Hadd & Hdelete & _).
  split; [ apply Hadd | apply Hdelete ].
Defined.

(** ** Dao update *)

Section UpdateDaoFacts.

Variable dateParses : string → bool.
Variable isEmail : string → bool.

Lemma taskSchema_Some (t t' : DaoTask) :
  Express.taskSchema t = Some t' → t' = trimmedName t.
Proof.
  unfold Express.taskSchema. destruct (_ && _); [ | discriminate ].
  intros [= <-]. reflexivity.
Qed.

Lemma mapM_taskSchema (ts ts' : list DaoTask) :
  mapM Express.taskSchema ts = Some ts' → ts' = List.map trimmedName ts.
Proof.
  intros H. apply mapM_Some_1 in H.
  induction H as [ | t t' ts ts' Ht _ IH ]; [ reflexivity | ].
  simpl. rewrite (taskSchema_Some _ _ Ht), IH. reflexivity.
Qed.

(** The schema hands the [tasks] array on with nothing but the names
    trimmed. *)
Lemma updateDaoSchema_tasks (body v : DaoUpdate) (ts : list DaoTask) :
  Express.updateDaoSchema dateParses isEmail body = Some v →
  b_tasks body = Some ts →
  b_tasks v = Some (List.map trimmedName ts).
Proof.
  unfold Express.updateDaoSchema. intros H Hts. rewrite Hts in H.
  destruct (Express.trimmedField 1 50 _); [ | discriminate ].
  destruct (Express.trimmedField 1 500 _); [ | discriminate ].
  destruct (Express.trimmedField 1 200 (b_reference body)); [ | discriminate ].
  destruct (Express.trimmedField 1 200 (b_autoriteContractante body)); [ | discriminate ].
  destruct (Express.arrayField 1 20 _ _); [ | discriminate ].
  destruct (Express.arrayField 0 50 _ _) as [ parsedTasks | ] eqn:E; [ | discriminate ].
  destruct (optAll dateParses _); [ | discriminate ].
  injection H as <-. cbn [b_tasks].
  unfold Express.arrayField in E.
  destruct (bool_decide _); [ | discriminate ].
  destruct (mapM Express.taskSchema ts) as [ ts' | ] eqn:Em; [ | discriminate ].
  injection E as <-. rewrite (mapM_taskSchema _ _ Em). reflexivity.
Qed.

Lemma updateAtIndex_storage (st : Express.DaoStorage) (i : nat) (dao dao' : Dao) :
  Express.storage st !! i = Some dao →
  Express.storage (Express.updateAtIndex st i dao') !! i = Some dao'.
Proof.
  intros H. unfold Express.updateAtIndex. rewrite H.
  destruct (bool_decide _); cbn [Express.storage Express.rebuildIndexes];
    apply list_lookup_insert_eq; eapply lookup_lt_Some, H.
Qed.

End UpdateDaoFacts.

(** C10. A general Dao update sent by an actor with role [user] whose body
    carries a [tasks] array replaces the whole task list of the Dao with
    that array (names trimmed), whatever the list was: tasks can be added,
    removed and renamed this way, while the routes that add, delete and
    rename a task refuse the same actor. *)
Theorem user_replaces_task_list
    (dateParses isEmail : string → bool) (now daoId : string) (body v : DaoUpdate)
    (ts : list DaoTask) (actor : AuthUser) (st : Express.DaoStorage) (dao : Dao) :
  au_role actor = user →
  Express.invalidId daoId = false →
  Express.updateDaoSchema dateParses isEmail body = Some v →
  b_tasks body = Some ts →
  Express.duplicateNumber st daoId v = false →
  Express.findById st daoId = Some dao →
  let result := Express.updateDao dateParses isEmail now daoId body (Some actor) st in
  (∃ dao' i, snd result = ReplyDao 200 dao'
             ∧ Express.findIndexById st daoId = Some i
             ∧ Express.storage (fst result) !! i = Some dao'
             ∧ dao_id dao' = dao_id dao
             ∧ tasks dao' = List.map trimmedName ts)
  ∧ (∀ draft, snd (Express.addTask now daoId draft (Some actor) st) = forbidden)
  ∧ (∀ taskId, snd (Express.deleteTask now daoId taskId (Some actor) st) = forbidden)
  ∧ (∀ taskId newName,
       snd (Express.renameTask now daoId taskId newName (Some actor) st) = forbidden).
Proof.
  intros Hrole Hid Hschema Hts Hdup Hdao. cbv zeta. split.
  - unfold Express.updateDao, Express.requireUser. rewrite route_requireUser.
    apply findById_Some in Hdao as (i & Hi & Hsi).
    unfold Express.updateDaoHandler.
    rewrite Hid, Hschema, Hi, Hdup. unfold Express.getAll. rewrite Hsi. cbn [fst snd].
    eexists _, i. split; [ reflexivity | ]. split; [ reflexivity | ].
    split; [ eapply updateAtIndex_storage, Hsi | ]. split; [ reflexivity | ].
    cbn [tasks Express.mergeUpdate].
    rewrite (updateDaoSchema_tasks dateParses isEmail body v ts Hschema Hts). reflexivity.
  - repeat split; intros;
      unfold Express.addTask, Express.deleteTask, Express.renameTask, Express.requireAdmin;
      rewrite (route_requireAdmin_user _ _ _ Hrole); reflexivity.
Qed.

Lemma user_replaces_task_list_witness :
  let body := mkDaoUpdate None None None None None None (Some [sampleTask 7]) in
  ∃ dao' i,
    snd (Express.updateDao (fun _ => true) (fun _ => true) laterStamp "dao-1" body
           (Some marie) sampleStore) = ReplyDao 200 dao'
    ∧ Express.findIndexById sampleStore "dao-1" = Some i
    ∧ Express.storage
        (fst (Express.updateDao (fun _ => true) (fun _ => true) laterStamp "dao-1" body
                (Some marie) sampleStore)) !! i = Some dao'
    ∧ dao_id dao' = dao_id sampleDao
    ∧ tasks dao' = List.map trimmedName [sampleTask 7].
Proof.
  exact (proj1 (user_replaces_task_list (fun _ => true) (fun _ => true) laterStamp "dao-1"
                  (mkDaoUpdate None None None None None None (Some [sampleTask 7]))
                  (mkDaoUpdate None None None None None None (Some [sampleTask 7]))
                  [sampleTask 7] marie sampleStore sampleDao
                  eq_refl eq_refl eq_refl eq_refl eq_refl eq_refl)).
Defined.

(** ** Password reset *)

Section ResetFacts.

Import Auth.

Variable hash : string → string.

Lemma findActiveByEmail_Some (st : AuthState) (email : string) (u : User) :
  findActiveByEmail st email = Some u →
  Str.toLowerCase (usr_email u) = Str.toLowerCase email ∧ usr_isActive u = true.
Proof.
  unfold findActiveByEmail. intros H. apply find_some in H as [_ H].
  apply andb_prop in H as [H1 H2]. apply bool_decide_eq_true in H1. auto.
Qed.

(** What issuing a token leaves in the store. *)
Lemma generateResetToken_Some (st st1 : AuthState) (email token tok : string) (issued : Z) :
  generateResetToken st email issued token = (st1, Some tok) →
  tok = token
  ∧ ∃ u, findActiveByEmail st email = Some u
         ∧ st1 = mkAuth (users st) (userPasswords st)
                   (<[token := (usr_email u, issued + resetWindow)]> (resetTokens st)).
Proof.
  unfold generateResetToken.
  destruct (findActiveByEmail st email) as [ u | ] eqn:E; [ | discriminate ].
  intros [= <- <-]. eauto.
Qed.

Lemma verify_absent (st : AuthState) (token email : string) (now : Z) :
  resetTokens st !! token = None → verifyResetToken st token email now = (st, false).
Proof. intros H. unfold verifyResetToken. rewrite H. reflexivity. Qed.

Lemma reset_absent (st : AuthState) (token email pw : string) (now : Z) :
  resetTokens st !! token = None →
  resetPasswordWithToken hash st token email pw now = (st, false).
Proof.
  intros H. unfold resetPasswordWithToken. rewrite (verify_absent _ _ _ _ H). reflexivity.
Qed.

End ResetFacts.

(** C9. A reset token issued at [issued] is refused, by the verification
    and by the reset alike, at any time later than [issued] plus 15 minutes,
    even with the right code and address; up to that time it verifies, and a
    reset with it succeeds and stores the new password's hash; after that
    first reset every further verification or reset with the token is
    refused. *)
Theorem reset_token_window_and_single_use
    (hash : string → string) (st st1 : Auth.AuthState) (email token : string) (issued : Z) :
  Auth.generateResetToken st email issued token = (st1, Some token) →
  (∀ now pw, issued + minutes 15 < now →
     snd (Auth.verifyResetToken st1 token email now) = false
     ∧ snd (Auth.resetPasswordWithToken hash st1 token email pw now) = false
     ∧ Auth.userPasswords (fst (Auth.resetPasswordWithToken hash st1 token email pw now))
       = Auth.userPasswords st)
  ∧ (∀ now pw, now ≤ issued + minutes 15 →
       let used := Auth.resetPasswordWithToken hash st1 token email pw now in
       Auth.verifyResetToken st1 token email now = (st1, true)
       ∧ snd used = true
       ∧ (∃ u, Auth.findActiveByEmail st email = Some u
               ∧ Auth.userPasswords (fst used) !! Auth.usr_email u = Some (hash pw))
       ∧ ∀ now' pw' email',
           snd (Auth.verifyResetToken (fst used) token email' now') = false
           ∧ Auth.resetPasswordWithToken hash (fst used) token email' pw' now'
             = (fst used, false)).
Proof.
  intros Hgen. apply generateResetToken_Some in Hgen as (_ & u & Hu & ->).
  destruct (findActiveByEmail_Some _ _ _ Hu) as [Hmail _].
  assert (Hwin : issued + Auth.resetWindow = issued + minutes 15) by reflexivity.
  split.
  - intros now pw Hlate.
    assert (Hverify :
      Auth.verifyResetToken
        (Auth.mkAuth (Auth.users st) (Auth.userPasswords st)
           (<[token := (Auth.usr_email u, issued + Auth.resetWindow)]> (Auth.resetTokens st)))
        token email now
      = (Auth.mkAuth (Auth.users st) (Auth.userPasswords st)
           (delete token
              (<[token := (Auth.usr_email u, issued + Auth.resetWindow)]> (Auth.resetTokens st))),
         false)).
    { unfold Auth.verifyResetToken. cbn [Auth.resetTokens Auth.users Auth.userPasswords].
      rewrite lookup_insert_eq, bool_decide_eq_true_2 by exact Hmail. cbn [negb].
      replace (issued + Auth.resetWindow <? now) with true
        by (symmetry; apply Z.ltb_lt; lia).
      reflexivity. }
    unfold Auth.resetPasswordWithToken. rewrite Hverify. cbn. auto.
  - intros now pw Hintime. cbv zeta.
    assert (Hverify :
      Auth.verifyResetToken
        (Auth.mkAuth (Auth.users st) (Auth.userPasswords st)
           (<[token := (Auth.usr_email u, issued + Auth.resetWindow)]> (Auth.resetTokens st)))
        token email now
      = (Auth.mkAuth (Auth.users st) (Auth.userPasswords st)
           (<[token := (Auth.usr_email u, issued + Auth.resetWindow)]> (Auth.resetTokens st)),
         true)).
    { unfold Auth.verifyResetToken. cbn [Auth.resetTokens Auth.users Auth.userPasswords].
      rewrite lookup_insert_eq, bool_decide_eq_true_2 by exact Hmail. cbn [negb].
      replace (issued + Auth.resetWindow <? now) with false
        by (symmetry; apply Z.ltb_ge; lia).
      reflexivity. }
    split; [ exact Hverify | ].
    assert (Hused :
      Auth.resetPasswordWithToken hash
        (Auth.mkAuth (Auth.users st) (Auth.userPasswords st)
           (<[token := (Auth.usr_email u, issued + Auth.resetWindow)]> (Auth.resetTokens st)))
        token email pw now
      = (Auth.mkAuth (Auth.users st)
           (<[Auth.usr_email u := hash pw]> (Auth.userPasswords st))
           (delete token
              (<[token := (Auth.usr_email u, issued + Auth.resetWindow)]> (Auth.resetTokens st))),
         true)).
    { unfold Auth.resetPasswordWithToken. rewrite Hverify. cbn [negb].
      unfold Auth.findActiveByEmail in *. cbn [Auth.users]. rewrite Hu. reflexivity. }
    rewrite Hused. cbn [fst snd Auth.userPasswords].
    split; [ reflexivity | ]. split.
    + exists u. split; [ exact Hu | apply lookup_insert_eq ].
    + intros now' pw' email'.
      rewrite reset_absent, verify_absent
        by (cbn [Auth.resetTokens]; apply lookup_delete_eq).
      split; reflexivity.
Qed.

Lemma reset_token_window_and_single_use_witness :
  let issued := 1700000000000 in
  let st1 := fst (Auth.generateResetToken sampleAuth "Marie.Dubois@2snd.fr" issued "K3X9QZ") in
  snd (Auth.verifyResetToken st1 "K3X9QZ" "Marie.Dubois@2snd.fr" (issued + minutes 16)) = false
  ∧ snd (Auth.resetPasswordWithToken sampleHash st1 "K3X9QZ" "Marie.Dubois@2snd.fr" "nouveau1"
           (issued + minutes 14)) = true.
Proof.
  cbv zeta.
  pose proof (reset_token_window_and_single_use sampleHash sampleAuth
                (fst (Auth.generateResetToken sampleAuth "Marie.Dubois@2snd.fr"
                        1700000000000 "K3X9QZ"))
                "Marie.Dubois@2snd.fr" "K3X9QZ" 1700000000000 eq_refl) as [Hlate Hintime].
  split.
  - apply (Hlate (1700000000000 + minutes 16) "x"). unfold minutes. lia.
  - apply (Hintime (1700000000000 + minutes 14) "nouveau1"). unfold minutes. lia.
Defined.

(** * Further properties of the code around the claims *)

(** ** The store and its index *)

Section StoreFacts.

Import Express.

Lemma indexFrom_lookup (l : list Dao) (i : nat) (m : gmap string nat) (k : string) :
  indexFrom i l m !! k
  = match lastPos k l with
    | Some j => Some (i + j)%nat
    | None => m !! k
    end.
Proof.
  revert i m. induction l as [ | d l IH ]; intros i m; simpl; [ reflexivity | ].
  rewrite IH. destruct (lastPos k l) as [ j | ].
  - f_equal. lia.
  - case_bool_decide as E.
    + subst k. rewrite lookup_insert_eq. f_equal. lia.
    + rewrite lookup_insert_ne by exact E. reflexivity.
Qed.

Lemma lastPos_Some (k : string) (l : list Dao) (j : nat) :
  lastPos k l = Some j → ∃ d, l !! j = Some d ∧ dao_id d = k.
Proof.
  revert j. induction l as [ | d l IH ]; intros j; simpl; [ discriminate | ].
  destruct (lastPos k l) as [ j' | ].
  - intros [= <-]. exact (IH j' eq_refl).
  - case_bool_decide as E; [ | discriminate ].
    intros [= <-]. exists d. auto.
Qed.

(** The Dao at the last position with id [k] is the last of those with
    id [k]. *)
Lemma lastPos_last (k : string) (l : list Dao) :
  match lastPos k l with
  | Some j => l !! j
  | None => None
  end = last (withId k l).
Proof.
  unfold withId. induction l as [ | d l IH ]; simpl; [ reflexivity | ].
  destruct (lastPos k l) as [ j | ] eqn:Ej.
  - change ((d :: l) !! S j) with (l !! j). rewrite IH.
    case_bool_decide; [ | reflexivity ].
    rewrite last_cons. destruct (last _) eqn:E; [ reflexivity | ].
    destruct (lastPos_Some k l j Ej) as (x & Hx & _). congruence.
  - symmetry in IH. apply last_None in IH. rewrite IH.
    case_bool_decide; reflexivity.
Qed.

Lemma findById_indexed (st : DaoStorage) (k : string) :
  indexed st → findById st k = last (withId k (storage st)).
Proof.
  intros Hix. unfold findById. rewrite Hix, indexFrom_lookup, lookup_empty.
  rewrite <- lastPos_last. destruct (lastPos k (storage st)); reflexivity.
Qed.

Lemma withId_In (k : string) (l : list Dao) (d : Dao) :
  In d (withId k l) ↔ In d l ∧ dao_id d = k.
Proof.
  unfold withId. rewrite filter_In, bool_decide_eq_true. reflexivity.
Qed.

Lemma withId_nil (k : string) (l : list Dao) :
  withId k l = [] ↔ ¬ In k (List.map dao_id l).
Proof.
  split.
  - intros E Hin. apply in_map_iff in Hin as (d & Hd & Hin).
    assert (H : In d (withId k l)) by (apply withId_In; auto).
    rewrite E in H. destruct H.
  - intros Hno. destruct (withId k l) as [ | d l' ] eqn:E; [ reflexivity | ].
    exfalso. apply Hno.
    assert (H : In d (withId k l)) by (rewrite E; left; reflexivity).
    apply withId_In in H as [Hin <-]. apply in_map, Hin.
Qed.

End StoreFacts.

(** On a consistent store, what [findById] answers carries the id asked
    for and is in the array. *)
Lemma findById_indexed_Some (st : Express.DaoStorage) (k : string) (d : Dao) :
  indexed st → Express.findById st k = Some d → dao_id d = k ∧ In d (Express.storage st).
Proof.
  intros Hix Hd. rewrite (findById_indexed st k Hix) in Hd.
  apply last_Some_elem_of, list_elem_of_In, withId_In in Hd. tauto.
Qed.

(** X1. While the index is what [rebuildIndexes] computes, [findById]
    answers the last Dao of the array that has the id asked for: the Dao it
    returns carries that id and is in the array, and it returns nothing
    exactly when no Dao of the array has the id. *)
Theorem findById_last_with_id (st : Express.DaoStorage) (k : string) :
  indexed st →
  Express.findById st k = last (withId k (Express.storage st))
  ∧ (∀ d, Express.findById st k = Some d → dao_id d = k ∧ In d (Express.storage st))
  ∧ (Express.findById st k = None ↔ ¬ In k (List.map dao_id (Express.storage st))).
Proof.
  intros Hix. rewrite (findById_indexed st k Hix). split; [ reflexivity | ]. split.
  - intros d Hd. apply (findById_indexed_Some st k d Hix).
    rewrite (findById_indexed st k Hix). exact Hd.
  - rewrite last_None. apply withId_nil.
Qed.

Lemma findById_last_with_id_witness :
  Express.findById sampleStore "dao-1" = last (withId "dao-1" (Express.storage sampleStore)).
Proof.
  exact (proj1 (findById_last_with_id sampleStore "dao-1" eq_refl)).
Defined.

Section IndexInvariant.

Import Express.

Lemma indexFrom_ids (l l' : list Dao) (i : nat) (m : gmap string nat) :
  List.map dao_id l = List.map dao_id l' → indexFrom i l m = indexFrom i l' m.
Proof.
  revert l' i m. induction l as [ | d l IH ]; intros [ | d' l' ] i m H;
    try discriminate H; [ reflexivity | ].
  simpl in *. injection H as Hd Hl. rewrite Hd. apply IH, Hl.
Qed.

Lemma insert_same_id (l : list Dao) (i : nat) (old new : Dao) :
  l !! i = Some old → dao_id new = dao_id old →
  List.map dao_id (<[i := new]> l) = List.map dao_id l.
Proof.
  revert i. induction l as [ | d l IH ]; intros [ | i ] Hold Hid; simpl in *;
    try discriminate Hold.
  - injection Hold as ->. rewrite Hid. reflexivity.
  - f_equal. apply IH; assumption.
Qed.

Lemma rebuildIndexes_indexed (l : list Dao) : indexed (rebuildIndexes l).
Proof. reflexivity. Qed.

(** Skipping the rebuild when the id and the authority are unchanged is
    sound. *)
Lemma updateAtIndex_indexed (st : DaoStorage) (i : nat) (dao : Dao) :
  indexed st → indexed (updateAtIndex st i dao).
Proof.
  intros Hix. unfold updateAtIndex.
  destruct (storage st !! i) as [ old | ] eqn:Hold; [ | exact Hix ].
  case_bool_decide as Hchanged; [ reflexivity | ].
  unfold indexed. cbn [idIndex storage]. rewrite Hix.
  apply indexFrom_ids. symmetry. apply (insert_same_id _ _ old); [ exact Hold | ].
  destruct (decide (dao_id old = dao_id dao)) as [ E | E ]; [ congruence | tauto ].
Qed.

Lemma add_indexed (st : DaoStorage) (dao : Dao) : indexed (add st dao).
Proof. reflexivity. Qed.

Lemma deleteById_indexed (st : DaoStorage) (k : string) :
  indexed st → indexed (fst (deleteById st k)).
Proof.
  intros Hix. unfold deleteById. destruct (findIndexById st k); [ reflexivity | exact Hix ].
Qed.

End IndexInvariant.

(** Closes a goal [indexed st'] where [st'] is what a handler returns: the
    store it was given, or a store written through the store's own
    operations. *)
Ltac handler_indexed Hix :=
  repeat case_match; cbn [fst snd];
  first [ exact Hix
        | apply updateAtIndex_indexed; exact Hix
        | apply add_indexed
        | apply deleteById_indexed; exact Hix ].

(** X2. The index stays what [rebuildIndexes] computes, whatever is done
    through the store's operations and through the routes: [updateAtIndex]
    may skip the rebuild without the index going stale, and every Dao and
    task handler returns a store whose index is consistent. *)
Theorem index_consistency_kept
    (dateParses isEmail : string → bool) (defaults : list DaoTask) (st : Express.DaoStorage) :
  indexed st →
  (∀ i dao, indexed (Express.updateAtIndex st i dao))
  ∧ (∀ dao, indexed (Express.add st dao))
  ∧ (∀ k, indexed (fst (Express.deleteById st k)))
  ∧ (∀ now daoId taskId body u,
       indexed (fst (Express.updateTaskHandler now daoId taskId body u st)))
  ∧ (∀ now daoId body u, indexed (fst (Express.addTaskHandler now daoId body u st)))
  ∧ (∀ now daoId taskId newName u,
       indexed (fst (Express.renameTaskHandler now daoId taskId newName u st)))
  ∧ (∀ now daoId taskId u, indexed (fst (Express.deleteTaskHandler now daoId taskId u st)))
  ∧ (∀ now daoId body u,
       indexed (fst (Express.updateDaoHandler dateParses isEmail now daoId body u st)))
  ∧ (∀ now newId body,
       indexed (fst (Express.createDaoHandler dateParses isEmail defaults now newId body st)))
  ∧ (∀ daoId, indexed (fst (Express.deleteDaoHandler daoId st))).
Proof.
  intros Hix.
  split; [ intros; apply updateAtIndex_indexed, Hix | ].
  split; [ intros; apply add_indexed | ].
  split; [ intros; apply deleteById_indexed, Hix | ].
  split; [ intros; unfold Express.updateTaskHandler; handler_indexed Hix | ].
  split; [ intros; unfold Express.addTaskHandler; handler_indexed Hix | ].
  split; [ intros; unfold Express.renameTaskHandler; handler_indexed Hix | ].
  split; [ intros; unfold Express.deleteTaskHandler; handler_indexed Hix | ].
  split; [ intros; unfold Express.updateDaoHandler; handler_indexed Hix | ].
  split; [ intros; unfold Express.createDaoHandler; handler_indexed Hix | ].
  intros; unfold Express.deleteDaoHandler; handler_indexed Hix.
Qed.

Lemma index_consistency_kept_witness :
  indexed
    (fst (Express.updateTaskHandler laterStamp "dao-1" (Some 1)
            (mkPatch (Some 50) None None None) marie sampleStore)).
Proof.
  exact (proj1 (proj2 (proj2 (proj2
           (index_consistency_kept (fun _ => true) (fun _ => true) [] sampleStore eq_refl))))
           laterStamp "dao-1" (Some 1) (mkPatch (Some 50) None None None) marie).
Defined.

Section AddDeleteFacts.

Import Express.

Lemma withId_app (k : string) (l1 l2 : list Dao) :
  withId k (l1 ++ l2) = (withId k l1 ++ withId k l2)%list.
Proof. unfold withId. apply List.filter_app. Qed.

Lemma withId_delete_other (k : string) (l : list Dao) (i : nat) (x : Dao) :
  l !! i = Some x → dao_id x ≠ k → withId k (delete i l) = withId k l.
Proof.
  unfold withId. revert i. induction l as [ | d l IH ]; intros [ | i ] Hx Hne; simpl in *;
    try discriminate Hx.
  - injection Hx as ->. rewrite bool_decide_eq_false_2 by exact Hne. reflexivity.
  - rewrite (IH i Hx Hne). reflexivity.
Qed.

Lemma withId_delete_unique (l : list Dao) (i : nat) (x : Dao) :
  NoDup (List.map dao_id l) → l !! i = Some x → withId (dao_id x) (delete i l) = [].
Proof.
  unfold withId. revert i. induction l as [ | d l IH ]; intros [ | i ] Hnd Hx; simpl in *;
    try discriminate Hx; apply NoDup_cons in Hnd as [Hd Hnd].
  - injection Hx as ->. apply withId_nil. intros Hin. apply Hd, list_elem_of_In, Hin.
  - rewrite (IH i Hnd Hx). rewrite bool_decide_eq_false_2; [ reflexivity | ].
    intros E. apply Hd. rewrite E. apply list_elem_of_In, in_map.
    apply list_elem_of_In. eapply list_elem_of_lookup_2, Hx.
Qed.

Lemma length_delete_lt (l : list Dao) (i : nat) (x : Dao) :
  l !! i = Some x → S (List.length (delete i l)) = List.length l.
Proof.
  revert i. induction l as [ | d l IH ]; intros [ | i ] Hx; simpl in *;
    try discriminate Hx; [ reflexivity | ].
  f_equal. apply (IH i Hx).
Qed.

End AddDeleteFacts.

Lemma findById_add_same (st : Express.DaoStorage) (dao : Dao) :
  indexed st → Express.findById (Express.add st dao) (dao_id dao) = Some dao.
Proof.
  intros Hix. rewrite (findById_indexed _ _ (add_indexed st dao)).
  cbn [Express.add Express.rebuildIndexes Express.storage].
  rewrite withId_app. unfold withId at 2. cbn [List.filter].
  rewrite bool_decide_eq_true_2 by reflexivity. apply last_snoc.
Qed.

Lemma size_add (st : Express.DaoStorage) (dao : Dao) :
  Express.size (Express.add st dao) = S (Express.size st).
Proof.
  unfold Express.size. cbn [Express.add Express.rebuildIndexes Express.storage].
  rewrite length_app. simpl. lia.
Qed.

(** X3. A Dao put in with [add] is what [findById] then answers for its id,
    even when an older Dao carries the same id; the store grows by one and
    the answer for every other id is as before. *)
Theorem add_then_findById (st : Express.DaoStorage) (dao : Dao) :
  indexed st →
  Express.findById (Express.add st dao) (dao_id dao) = Some dao
  ∧ Express.size (Express.add st dao) = S (Express.size st)
  ∧ (∀ k, k ≠ dao_id dao →
          Express.findById (Express.add st dao) k = Express.findById st k).
Proof.
  intros Hix. split; [ | split ].
  - apply findById_add_same, Hix.
  - apply size_add.
  - intros k Hk.
    rewrite (findById_indexed _ _ (add_indexed st dao)), (findById_indexed _ _ Hix).
    cbn [Express.add Express.rebuildIndexes Express.storage].
    rewrite withId_app. unfold withId at 2. cbn [List.filter].
    rewrite bool_decide_eq_false_2 by congruence. rewrite app_nil_r. reflexivity.
Qed.

Lemma add_then_findById_witness :
  Express.findById (Express.add sampleStore sampleDao) "dao-1" = Some sampleDao.
Proof.
  exact (proj1 (add_then_findById sampleStore sampleDao eq_refl)).
Defined.

Lemma deleteById_absent (st : Express.DaoStorage) (k : string) :
  indexed st →
  Express.findById st k = None → Express.deleteById st k = (st, false).
Proof.
  intros Hix Hnone. unfold Express.deleteById, Express.findIndexById.
  unfold Express.findById in Hnone.
  destruct (Express.idIndex st !! k) as [ i | ] eqn:Ei; [ | reflexivity ].
  exfalso. rewrite Hix, indexFrom_lookup, lookup_empty in Ei.
  destruct (lastPos k (Express.storage st)) as [ j | ] eqn:Ej; [ | discriminate ].
  injection Ei as <-. destruct (lastPos_Some _ _ _ Ej) as (x & Hx & _).
  simpl in Hnone. congruence.
Qed.

Lemma deleteById_present (st : Express.DaoStorage) (k : string) (d : Dao) :
  indexed st →
  Express.findById st k = Some d →
  snd (Express.deleteById st k) = true
  ∧ S (Express.size (fst (Express.deleteById st k))) = Express.size st
  ∧ (∀ k', k' ≠ k →
           Express.findById (fst (Express.deleteById st k)) k'
           = Express.findById st k')
  ∧ (NoDup (List.map dao_id (Express.storage st)) →
     Express.findById (fst (Express.deleteById st k)) k = None).
Proof.
  intros Hix Hd.
  pose proof (findById_indexed_Some st k d Hix Hd) as [Hdk _].
  apply findById_Some in Hd as (i & Hi & Hsi).
  unfold Express.deleteById. rewrite Hi. cbn [fst snd].
  split; [ reflexivity | ]. split; [ | split ].
  - unfold Express.size. cbn [Express.rebuildIndexes Express.storage].
    apply (length_delete_lt _ _ d Hsi).
  - intros k' Hk'.
    rewrite (findById_indexed _ _ (rebuildIndexes_indexed _)), (findById_indexed _ _ Hix).
    cbn [Express.rebuildIndexes Express.storage].
    rewrite (withId_delete_other k' _ i d Hsi) by congruence. reflexivity.
  - intros Hnd.
    rewrite (findById_indexed _ _ (rebuildIndexes_indexed _)).
    cbn [Express.rebuildIndexes Express.storage].
    rewrite <- Hdk, (withId_delete_unique _ i d Hnd Hsi). reflexivity.
Qed.

(** X4. [deleteById] on an id that is not in the store answers [false] and
    changes nothing.  On an id that is, it answers [true], takes exactly one
    Dao out, and leaves the answer of [findById] for every other id as it
    was; when the ids of the store are distinct, the id deleted is no longer
    found. *)
Theorem deleteById_removes_one (st : Express.DaoStorage) (k : string) :
  indexed st →
  (Express.findById st k = None → Express.deleteById st k = (st, false))
  ∧ (∀ d, Express.findById st k = Some d →
       snd (Express.deleteById st k) = true
       ∧ S (Express.size (fst (Express.deleteById st k))) = Express.size st
       ∧ (∀ k', k' ≠ k →
                Express.findById (fst (Express.deleteById st k)) k'
                = Express.findById st k')
       ∧ (NoDup (List.map dao_id (Express.storage st)) →
          Express.findById (fst (Express.deleteById st k)) k = None)).
Proof.
  intros Hix. split.
  - apply deleteById_absent, Hix.
  - intros d. apply deleteById_present, Hix.
Qed.

Lemma deleteById_removes_one_witness :
  Express.findById (fst (Express.deleteById sampleStore "dao-1")) "dao-1" = None.
Proof.
  refine (proj2 (proj2 (proj2 (proj2 (deleteById_removes_one sampleStore "dao-1" eq_refl)
                                 sampleDao eq_refl))) _).
  cbn. apply NoDup_cons. split; [ apply not_elem_of_nil | apply NoDup_nil_2 ].
Defined.

(** ** Sanitizing *)

Section SanitizeFacts.

Import Str.

Lemma afterGt_length (s r : string) :
  afterGt s = Some r → (String.length r < String.length s)%nat.
Proof.
  revert r. induction s as [ | c s IH ]; intros r; simpl; [ discriminate | ].
  destruct (Ascii.eqb c ">"%char).
  - intros [= <-]. lia.
  - intros H. specialize (IH r H). lia.
Qed.

(** Without any [">"] there is nothing to strip. *)
Lemma stripTagsFuel_no_gt (fuel : nat) (s : string) :
  afterGt s = None → stripTagsFuel fuel s = s.
Proof.
  revert s. induction fuel as [ | fuel IH ]; intros s H; [ reflexivity | ].
  destruct s as [ | c s ]; [ reflexivity | ]. simpl in *.
  destruct (Ascii.eqb c ">"%char); [ discriminate | ].
  rewrite H, (IH s H). destruct (Ascii.eqb c "<"%char); reflexivity.
Qed.

(** With enough fuel what comes out has no tag. *)
Lemma stripTagsFuel_hasTag (fuel : nat) (s : string) :
  (String.length s ≤ fuel)%nat → hasTag (stripTagsFuel fuel s) = false.
Proof.
  revert s. induction fuel as [ | fuel IH ]; intros s Hlen.
  - destruct s; [ reflexivity | simpl in Hlen; lia ].
  - destruct s as [ | c s ]; [ reflexivity | ]. simpl in Hlen. cbn [stripTagsFuel].
    destruct (Ascii.eqb c "<"%char) eqn:Ec.
    + destruct (afterGt s) as [ rest | ] eqn:Eg.
      * apply IH. apply afterGt_length in Eg. lia.
      * rewrite (stripTagsFuel_no_gt fuel s Eg). cbn [hasTag]. rewrite Ec, Eg.
        rewrite bool_decide_eq_false_2 by (intros [? [=]]).
        simpl. rewrite <- (stripTagsFuel_no_gt fuel s Eg). apply IH. lia.
    + cbn [hasTag]. rewrite Ec. simpl. apply IH. lia.
Qed.

(** A string without a tag is left as it is. *)
Lemma stripTagsFuel_tag_free (fuel : nat) (s : string) :
  hasTag s = false → stripTagsFuel fuel s = s.
Proof.
  revert s. induction fuel as [ | fuel IH ]; intros s H; [ reflexivity | ].
  destruct s as [ | c s ]; [ reflexivity | ]. cbn [hasTag stripTagsFuel] in *.
  apply orb_false_elim in H as [H1 H2].
  destruct (Ascii.eqb c "<"%char).
  - simpl in H1. apply bool_decide_eq_false in H1.
    destruct (afterGt s) as [ rest | ]; [ exfalso; apply H1; eauto | ].
    rewrite (IH s H2). reflexivity.
  - rewrite (IH s H2). reflexivity.
Qed.

Lemma hasTag_tail (c : ascii) (s : string) : hasTag (String c s) = false → hasTag s = false.
Proof. cbn [hasTag]. intros H. apply orb_false_elim in H. tauto. Qed.

Lemma hasTag_trimStart (s : string) : hasTag s = false → hasTag (trimStart s) = false.
Proof.
  induction s as [ | c s IH ]; intros H; [ reflexivity | ]. cbn [trimStart].
  destruct (isSpace c); [ apply IH, (hasTag_tail c), H | exact H ].
Qed.

Lemma afterGt_trimEnd (s : string) : afterGt s = None → afterGt (trimEnd s) = None.
Proof.
  induction s as [ | c s IH ]; intros H; [ reflexivity | ]. simpl in *.
  destruct (Ascii.eqb c ">"%char) eqn:Ec; [ discriminate | ].
  specialize (IH H). destruct (trimEnd s) as [ | c' r ].
  - destruct (isSpace c); [ reflexivity | ]. simpl. rewrite Ec. reflexivity.
  - cbn [afterGt]. rewrite Ec. exact IH.
Qed.

Lemma hasTag_trimEnd (s : string) : hasTag s = false → hasTag (trimEnd s) = false.
Proof.
  induction s as [ | c s IH ]; intros H; [ reflexivity | ].
  cbn [hasTag] in H. apply orb_false_elim in H as [H1 H2]. specialize (IH H2).
  cbn [trimEnd]. destruct (trimEnd s) as [ | c' r ] eqn:Et.
  - destruct (isSpace c); [ reflexivity | ]. cbn [hasTag afterGt].
    rewrite bool_decide_eq_false_2 by (intros [? [=]]).
    rewrite andb_false_r. reflexivity.
  - cbn [hasTag] in *. rewrite IH, orb_false_r.
    destruct (Ascii.eqb c "<"%char); [ | reflexivity ].
    rewrite andb_true_l in *.
    apply bool_decide_eq_false in H1. apply bool_decide_eq_false_2.
    intros Hsome. apply H1.
    destruct (afterGt s) as [ rest | ] eqn:Eg; [ eauto | ].
    apply afterGt_trimEnd in Eg. rewrite Et in Eg. rewrite Eg in Hsome.
    destruct Hsome as [? [=]].
Qed.

Lemma trimStart_fixed (s : string) : trimStart (trimStart s) = trimStart s.
Proof.
  induction s as [ | c s IH ]; [ reflexivity | ]. cbn [trimStart].
  destruct (isSpace c) eqn:Ec; [ exact IH | ]. cbn [trimStart]. rewrite Ec. reflexivity.
Qed.

Lemma trimEnd_cons (c : ascii) (s : string) :
  trimEnd (String c s)
  = match trimEnd s with
    | "" => if isSpace c then "" else String c ""
    | r => String c r
    end.
Proof. reflexivity. Qed.

Lemma trimEnd_fixed (s : string) : trimEnd (trimEnd s) = trimEnd s.
Proof.
  induction s as [ | c s IH ]; [ reflexivity | ]. rewrite trimEnd_cons.
  destruct (trimEnd s) as [ | c' r ] eqn:Et.
  - destruct (isSpace c) eqn:Ec; [ reflexivity | ].
    rewrite trimEnd_cons. cbn [trimEnd]. rewrite Ec. reflexivity.
  - rewrite trimEnd_cons, IH. reflexivity.
Qed.

(** Trimming the end does not uncover white space at the start. *)
Lemma trimStart_trimEnd (s : string) :
  trimStart s = s → trimStart (trimEnd s) = trimEnd s.
Proof.
  destruct s as [ | c s ]; [ reflexivity | ]. cbn [trimStart trimEnd].
  destruct (isSpace c) eqn:Ec.
  - intros H. exfalso.
    assert (Hlen : (String.length (trimStart s) ≤ String.length s)%nat).
    { clear. induction s as [ | c s IH ]; simpl; [ lia | ].
      destruct (isSpace c); simpl; lia. }
    rewrite H in Hlen. simpl in Hlen. lia.
  - intros _. destruct (trimEnd s); cbn [trimStart]; rewrite Ec; reflexivity.
Qed.

Lemma trim_fixed (s : string) : trim (trim s) = trim s.
Proof.
  unfold trim.
  rewrite (trimStart_trimEnd (trimStart s) (trimStart_fixed s)).
  apply trimEnd_fixed.
Qed.

Lemma sanitizeString_tag_free (input : string) : hasTag (sanitizeString input) = false.
Proof.
  unfold sanitizeString, Str.trim, Str.stripTags.
  apply hasTag_trimEnd, hasTag_trimStart, stripTagsFuel_hasTag. lia.
Qed.

End SanitizeFacts.

(** X5. What [sanitizeString] returns holds no HTML tag (no ["<"] with a
    [">"] after it) and no outer white space, so sanitizing again changes
    nothing: stripping the tags of the result, trimming it, and sanitizing
    it all give it back. *)
Theorem sanitizeString_clean (input : string) :
  hasTag (sanitizeString input) = false
  ∧ Str.stripTags (sanitizeString input) = sanitizeString input
  ∧ Str.trim (sanitizeString input) = sanitizeString input
  ∧ sanitizeString (sanitizeString input) = sanitizeString input.
Proof.
  pose proof (sanitizeString_tag_free input) as Hfree.
  assert (Hstrip : Str.stripTags (sanitizeString input) = sanitizeString input)
    by (apply stripTagsFuel_tag_free, Hfree).
  assert (Htrim : Str.trim (sanitizeString input) = sanitizeString input)
    by (unfold sanitizeString; apply trim_fixed).
  repeat split; try assumption.
  unfold sanitizeString at 1. rewrite Hstrip. exact Htrim.
Qed.

(** A string with no tag and no outer white space goes through
    [sanitizeString] unchanged. *)
Lemma sanitizeString_fixed (s : string) :
  hasTag s = false → Str.trim s = s → sanitizeString s = s.
Proof.
  intros Hfree Htrim. unfold sanitizeString, Str.stripTags.
  rewrite (stripTagsFuel_tag_free _ _ Hfree). exact Htrim.
Qed.

(** ** Failed requests *)

(** Closes a goal [fst r = st] from [H : snd r = ReplyError _ _ _], where
    [r] is what a handler returns: either the store is the one given, or the
    reply is not an error. *)
Ltac error_keeps_store H :=
  repeat case_match; cbn [fst snd] in *; first [ reflexivity | discriminate H ].

(** On a consistent store the position that the index gives holds a Dao,
    so the deletion of a Dao fails only before anything is written. *)
Lemma deleteDaoHandler_failed (daoId : string) (st : Express.DaoStorage) (r : Reply) :
  indexed st →
  snd (Express.deleteDaoHandler daoId st) = Express.DeleteFailed r →
  fst (Express.deleteDaoHandler daoId st) = st.
Proof.
  intros Hix. unfold Express.deleteDaoHandler.
  destruct (Express.invalidId daoId); [ reflexivity | ].
  unfold Express.findIndexById.
  destruct (Express.idIndex st !! daoId) as [ i | ] eqn:Ei; [ | reflexivity ].
  rewrite Hix, indexFrom_lookup, lookup_empty in Ei.
  destruct (lastPos daoId (Express.storage st)) as [ j | ] eqn:Ej; [ | discriminate ].
  injection Ei as <-. destruct (lastPos_Some _ _ _ Ej) as (x & Hx & _).
  unfold Express.getAll. rewrite Hx. cbn [fst snd]. discriminate.
Qed.

(** The index matters: were it to name a position past the array, the
    deletion would rebuild it and the read of the serial of the missing Dao
    would then throw, which the handler answers with 500. *)
Lemma deleteDaoHandler_stale_index :
  let st := Express.mkStorage [] {[ "dao-9" := 0%nat ]} in
  let result := Express.deleteDaoHandler "dao-9" st in
  snd result
  = Express.DeleteFailed (ReplyError 500 "Failed to delete DAO" (Some "DELETE_ERROR"))
  ∧ Express.idIndex (fst result) !! "dao-9" = None
  ∧ Express.idIndex st !! "dao-9" = Some 0%nat.
Proof.
  cbv zeta. split; [ reflexivity | ]. split; reflexivity.
Qed.

(** X6. A request that a Dao or task route answers with an error leaves the
    store exactly as it was: validation failures, unknown Daos or tasks,
    refused roles, a duplicate serial and a full store are all detected
    before anything is written.  For the deletion of a Dao this holds while
    the index is what [rebuildIndexes] computes, which the store's
    operations and the routes keep it. *)
Theorem express_error_keeps_store
    (dateParses isEmail : string → bool) (defaults : list DaoTask)
    (st : Express.DaoStorage) (status : Z) (error : string) (code : option string) :
  (∀ now daoId taskId body cred,
     snd (Express.updateTask now daoId taskId body cred st) = ReplyError status error code →
     fst (Express.updateTask now daoId taskId body cred st) = st)
  ∧ (∀ now daoId body cred,
       snd (Express.addTask now daoId body cred st) = ReplyError status error code →
       fst (Express.addTask now daoId body cred st) = st)
  ∧ (∀ now daoId taskId newName cred,
       snd (Express.renameTask now daoId taskId newName cred st)
       = ReplyError status error code →
       fst (Express.renameTask now daoId taskId newName cred st) = st)
  ∧ (∀ now daoId taskId cred,
       snd (Express.deleteTask now daoId taskId cred st) = ReplyError status error code →
       fst (Express.deleteTask now daoId taskId cred st) = st)
  ∧ (∀ now daoId body cred,
       snd (Express.updateDao dateParses isEmail now daoId body cred st)
       = ReplyError status error code →
       fst (Express.updateDao dateParses isEmail now daoId body cred st) = st)
  ∧ (∀ now newId body,
       snd (Express.createDaoHandler dateParses isEmail defaults now newId body st)
       = ReplyError status error code →
       fst (Express.createDaoHandler dateParses isEmail defaults now newId body st) = st)
  ∧ (∀ daoId,
       indexed st →
       snd (Express.deleteDaoHandler daoId st)
       = Express.DeleteFailed (ReplyError status error code) →
       fst (Express.deleteDaoHandler daoId st) = st).
Proof.
  split; [ | split; [ | split; [ | split; [ | split; [ | split ] ] ] ] ].
  - intros now daoId taskId body cred H.
    unfold Express.updateTask, route, Express.updateTaskHandler in *. error_keeps_store H.
  - intros now daoId body cred H.
    unfold Express.addTask, route, Express.addTaskHandler in *. error_keeps_store H.
  - intros now daoId taskId newName cred H.
    unfold Express.renameTask, route, Express.renameTaskHandler in *. error_keeps_store H.
  - intros now daoId taskId cred H.
    unfold Express.deleteTask, route, Express.deleteTaskHandler in *. error_keeps_store H.
  - intros now daoId body cred H.
    unfold Express.updateDao, route, Express.updateDaoHandler in *. error_keeps_store H.
  - intros now newId body H.
    unfold Express.createDaoHandler in *. error_keeps_store H.
  - intros daoId Hix H. exact (deleteDaoHandler_failed daoId st _ Hix H).
Qed.

Lemma express_error_keeps_store_witness :
  fst (Express.addTask laterStamp "dao-1" (mkDraft "" true None None None)
         (Some adminUser) sampleStore) = sampleStore.
Proof.
  exact (proj1 (proj2 (express_error_keeps_store (fun _ => true) (fun _ => true) []
                         sampleStore 400 "Validation error" (Some "VALIDATION_ERROR")))
           laterStamp "dao-1" (mkDraft "" true None None None) (Some adminUser) eq_refl).
Defined.

(** ** Distinct task ids *)

Section TaskIdFacts.

Import Express.

Lemma mutateFirst_ids (taskId : Z) (f : DaoTask → DaoTask) (l : list DaoTask) :
  (∀ x, id (f x) = id x) →
  List.map id (mutateFirst taskId f l) = List.map id l.
Proof.
  intros Hf. induction l as [ | t l IH ]; simpl; [ reflexivity | ].
  destruct (id t =? taskId); simpl; [ rewrite Hf | rewrite IH ]; reflexivity.
Qed.

Lemma spliceFirst_In (taskId : Z) (l : list DaoTask) (t : DaoTask) :
  In t (spliceFirst taskId l) → In t l.
Proof.
  induction l as [ | x l IH ]; simpl; [ tauto | ].
  destruct (id x =? taskId); simpl; tauto.
Qed.

Lemma spliceFirst_NoDup (taskId : Z) (l : list DaoTask) :
  NoDup (List.map id l) →
  NoDup (List.map id (spliceFirst taskId l))
  ∧ ¬ In taskId (List.map id (spliceFirst taskId l)).
Proof.
  induction l as [ | x l IH ]; simpl; intros Hnd.
  - split; [ constructor | tauto ].
  - apply NoDup_cons in Hnd as [Hx Hnd]. destruct (IH Hnd) as [IH1 IH2].
    destruct (Z.eqb_spec (id x) taskId) as [ E | E ].
    + split; [ exact Hnd | ]. rewrite <- E. intros Hin. apply Hx, list_elem_of_In, Hin.
    + simpl. split.
      * apply NoDup_cons. split; [ | exact IH1 ].
        intros Hin. apply Hx. apply list_elem_of_In. apply list_elem_of_In in Hin.
        apply in_map_iff in Hin as (y & Hy & Hin). apply in_map_iff. exists y.
        split; [ exact Hy | apply (spliceFirst_In taskId), Hin ].
      * intros [ H | H ]; [ contradiction | apply IH2, H ].
Qed.

Lemma newTask_NoDup (l : list DaoTask) (v : TaskDraft) (actor now : string) :
  forallb isSafeInteger (List.map id l) = true →
  NoDup (List.map id l) →
  NoDup (List.map id (l ++ [newTask v (newTaskId (List.map id l)) actor now])).
Proof.
  intros Hsafe Hnd. rewrite map_app. apply NoDup_app. split; [ exact Hnd | ]. split.
  - intros x Hx Hnew. apply list_elem_of_In in Hx, Hnew.
    destruct Hnew as [ <- | [] ]. cbn [id newTask] in Hx.
    destruct (newTaskId_spec (List.map id l) Hsafe) as [_ Hmax].
    assert (Hne : List.map id l ≠ []) by (intros E; rewrite E in Hx; destruct Hx).
    destruct (Hmax Hne) as [_ Hlt]. specialize (Hlt _ Hx). lia.
  - apply NoDup_singleton.
Qed.

End TaskIdFacts.

(** X7. The four task routes keep the task ids of a Dao distinct: when they
    are distinct before, they are distinct in the Dao that an update, a
    renaming or a deletion replies with, and after a deletion no task
    carries the deleted id; they are distinct after an addition when the ids
    present are safe integers (below 2 ^ 53 in absolute value), and the id
    2 ^ 53 is given out a second time. *)
Theorem task_ids_stay_distinct
    (st : Express.DaoStorage) (daoId : string) (dao : Dao) :
  Express.findById st daoId = Some dao →
  NoDup (List.map id (tasks dao)) →
  (∀ now taskId body cred status dao',
     snd (Express.updateTask now daoId taskId body cred st) = ReplyDao status dao' →
     List.map id (tasks dao') = List.map id (tasks dao))
  ∧ (∀ now body cred status dao',
       forallb isSafeInteger (List.map id (tasks dao)) = true →
       snd (Express.addTask now daoId body cred st) = ReplyDao status dao' →
       NoDup (List.map id (tasks dao')))
  ∧ (List.map id (tasks dao) = [9007199254740992] →
     ∀ now body cred status dao',
       snd (Express.addTask now daoId body cred st) = ReplyDao status dao' →
       List.map id (tasks dao') = [9007199254740992; 9007199254740992])
  ∧ (∀ now taskId newName cred status dao',
       snd (Express.renameTask now daoId taskId newName cred st) = ReplyDao status dao' →
       List.map id (tasks dao') = List.map id (tasks dao))
  ∧ (∀ now taskId cred deletedId deletedName dao',
       snd (Express.deleteTask now daoId taskId cred st)
       = ReplyTaskDeleted deletedId deletedName dao' →
       NoDup (List.map id (tasks dao'))
       ∧ taskId = Some deletedId
       ∧ ¬ In deletedId (List.map id (tasks dao'))).
Proof.
  intros Hdao Hnd. split; [ | split; [ | split; [ | split ] ] ].
  - intros now taskId body cred status dao' H.
    unfold Express.updateTask, route, authenticate, Express.requireUser, Express.requireAdmin,
      authorize, Express.updateTaskHandler in H.
    rewrite Hdao in H. repeat case_match; cbn [snd] in H; simplify_eq.
    cbn [tasks Express.withTasks]. apply mutateFirst_ids. reflexivity.
  - intros now body cred status dao' Hsafe H.
    unfold Express.addTask, route, authenticate, Express.requireUser, Express.requireAdmin,
      authorize, Express.addTaskHandler in H.
    rewrite Hdao in H. repeat case_match; cbn [snd] in H; simplify_eq.
    cbn [tasks Express.withTasks]. apply newTask_NoDup; assumption.
  - intros Hids now body cred status dao' H.
    unfold Express.addTask, route, authenticate, Express.requireUser, Express.requireAdmin,
      authorize, Express.addTaskHandler in H.
    rewrite Hdao in H. repeat case_match; cbn [snd] in H; simplify_eq.
    cbn [tasks Express.withTasks]. rewrite map_app, Hids. reflexivity.
  - intros now taskId newName cred status dao' H.
    unfold Express.renameTask, route, authenticate, Express.requireUser, Express.requireAdmin,
      authorize, Express.renameTaskHandler in H.
    rewrite Hdao in H. repeat case_match; cbn [snd] in H; simplify_eq.
    cbn [tasks Express.withTasks]. apply mutateFirst_ids. reflexivity.
  - intros now taskId cred deletedId deletedName dao' H.
    unfold Express.deleteTask, route, authenticate, Express.requireUser, Express.requireAdmin,
      authorize, Express.deleteTaskHandler in H.
    rewrite Hdao in H. repeat case_match; cbn [snd] in H; simplify_eq.
    cbn [tasks Express.withTasks].
    match goal with
    | Hf : Express.findTask ?k _ = Some ?t |- _ =>
        destruct (findTask_Some _ _ _ Hf) as [_ Hid];
        destruct (spliceFirst_NoDup k (tasks dao) Hnd) as [Hdistinct Hgone]
    end.
    rewrite Hid. split; [ exact Hdistinct | ]. split; [ reflexivity | exact Hgone ].
Qed.

Lemma task_ids_stay_distinct_witness :
  NoDup (List.map id
           (tasks sampleDao ++ [Express.newTask (mkDraft "Garantie" true (Some 0) None None)
                                  4 "1" laterStamp])).
Proof.
  refine (proj1 (proj2 (task_ids_stay_distinct sampleStore "dao-1" sampleDao eq_refl _))
            laterStamp (mkDraft "Garantie" true (Some 0) None None) (Some adminUser)
            201 _ eq_refl eq_refl).
  apply NoDup_ListNoDup. repeat (constructor; [ simpl; lia | ]). constructor.
Defined.

(** ** Creating and deleting a Dao *)

Lemma existsb_numero_false (l : list Dao) (n : string) :
  existsb (fun dao => bool_decide (numeroListe dao = n)) l = false
  ↔ ¬ In n (List.map numeroListe l).
Proof.
  induction l as [ | d l IH ]; simpl; [ tauto | ].
  rewrite orb_false_iff, IH, bool_decide_eq_false. tauto.
Qed.

Section CreateDaoFacts.

Import Express.

Variable dateParses : string → bool.
Variable isEmail : string → bool.
Variable defaults : list DaoTask.

Lemma createDaoSchema_Some (body v : DaoCreate) :
  createDaoSchema dateParses isEmail body = Some v →
  c_numeroListe v = Str.trim (c_numeroListe body)
  ∧ c_objetDossier v = Str.trim (c_objetDossier body)
  ∧ c_reference v = Str.trim (c_reference body)
  ∧ c_autoriteContractante v = Str.trim (c_autoriteContractante body)
  ∧ c_dateDepot v = c_dateDepot body
  ∧ (c_tasks body = None → c_tasks v = None).
Proof.
  unfold createDaoSchema. intros H.
  destruct (_ && _); [ | discriminate ].
  destruct (arrayField 1 20 _ _) as [ [ e | ] | ]; try discriminate.
  destruct (arrayField 0 50 _ _) as [ t | ] eqn:Et; [ | discriminate ].
  injection H as <-. cbn. repeat split.
  intros Hnone. rewrite Hnone in Et. cbn in Et. congruence.
Qed.

End CreateDaoFacts.

(** X8. [POST /api/dao], once past its guards: a body that passes the
    schema, in a store of at most 10000 Daos none of which has the trimmed
    serial, is answered 201 with a Dao that [findById] then returns under
    the new id; its serial, subject, reference, authority and member names
    hold no HTML tag, both its time stamps are the clock's, and without a
    [tasks] array its tasks are the default tasks, each with a null
    progress.  A serial that a Dao already has is refused.  When the serial
    needs no sanitizing, the serials of the store stay distinct. *)
Theorem createDao_stores_clean_dao
    (dateParses isEmail : string → bool) (defaults : list DaoTask)
    (now newId : string) (body v : Express.DaoCreate) (st : Express.DaoStorage) :
  indexed st →
  Express.createDaoSchema dateParses isEmail body = Some v →
  Z.of_nat (Express.size st) ≤ 10000 →
  let result := Express.createDaoHandler dateParses isEmail defaults now newId body st in
  (In (Express.c_numeroListe v) (List.map numeroListe (Express.storage st)) →
   result = (st, ReplyError 400 "DAO number already exists" (Some "DUPLICATE_NUMBER")))
  ∧ (¬ In (Express.c_numeroListe v) (List.map numeroListe (Express.storage st)) →
     ∃ dao,
       snd result = ReplyDao 201 dao
       ∧ Express.findById (fst result) newId = Some dao
       ∧ Express.size (fst result) = S (Express.size st)
       ∧ dao_id dao = newId ∧ createdAt dao = now ∧ updatedAt dao = now
       ∧ numeroListe dao = sanitizeString (Str.trim (Express.c_numeroListe body))
       ∧ hasTag (numeroListe dao) = false
       ∧ hasTag (objetDossier dao) = false
       ∧ hasTag (reference dao) = false
       ∧ hasTag (autoriteContractante dao) = false
       ∧ Forall (fun m => hasTag (tm_name m) = false) (equipe dao)
       ∧ (Express.c_tasks body = None →
          tasks dao = List.map Express.blankTask defaults
          ∧ Forall (fun t => progress t = None) (tasks dao))
       ∧ (NoDup (List.map numeroListe (Express.storage st)) →
          sanitizeString (Express.c_numeroListe v) = Express.c_numeroListe v →
          NoDup (List.map numeroListe (Express.storage (fst result))))).
Proof.
  intros Hix Hschema Hsize. cbv zeta.
  unfold Express.createDaoHandler, Express.getAll. rewrite Hschema.
  replace (10000 <? Z.of_nat (Express.size st)) with false
    by (symmetry; apply Z.ltb_ge; lia).
  destruct (createDaoSchema_Some dateParses isEmail body v Hschema)
    as (Hn & _ & _ & _ & _ & Htasks).
  split.
  - intros Hin.
    destruct (existsb _ (Express.storage st)) eqn:E; [ reflexivity | ].
    apply existsb_numero_false in E. contradiction.
  - intros Hfresh. apply existsb_numero_false in Hfresh as E. rewrite E. cbn [fst snd].
    set (dao := Express.newDao defaults v newId now).
    pose proof (findById_add_same st dao Hix) as Hfind.
    pose proof (size_add st dao) as Hgrow.
    exists dao. split; [ reflexivity | ]. split; [ exact Hfind | ].
    split; [ exact Hgrow | ].
    split; [ reflexivity | ]. split; [ reflexivity | ]. split; [ reflexivity | ].
    split; [ cbn; rewrite Hn; reflexivity | ].
    split; [ apply sanitizeString_tag_free | ]. split; [ apply sanitizeString_tag_free | ].
    split; [ apply sanitizeString_tag_free | ]. split; [ apply sanitizeString_tag_free | ].
    split; [ | split ].
    + cbn [equipe dao Express.newDao]. apply Forall_forall. intros m Hm.
      apply list_elem_of_In, in_map_iff in Hm as (m0 & <- & _). apply sanitizeString_tag_free.
    + intros Hnone. cbn [tasks dao Express.newDao]. rewrite (Htasks Hnone).
      split; [ reflexivity | ]. apply Forall_forall. intros t Ht.
      apply list_elem_of_In, in_map_iff in Ht as (t0 & <- & _). reflexivity.
    + intros Hnd Hclean.
      cbn [Express.add Express.rebuildIndexes Express.storage].
      rewrite map_app. apply NoDup_app. split; [ exact Hnd | ]. split.
      * intros n Hn1 Hn2. apply list_elem_of_In in Hn2 as [ <- | [] ].
        cbn [numeroListe dao Express.newDao] in Hn1. rewrite Hclean in Hn1.
        apply Hfresh, list_elem_of_In, Hn1.
      * apply NoDup_singleton.
Qed.

Lemma createDao_stores_clean_dao_witness :
  ∃ dao,
    snd (Express.createDaoHandler (fun _ => true) (fun _ => true) [sampleTask 1]
           laterStamp "dao_2" sampleCreate sampleStore) = ReplyDao 201 dao
    ∧ Express.findById
        (fst (Express.createDaoHandler (fun _ => true) (fun _ => true) [sampleTask 1]
                laterStamp "dao_2" sampleCreate sampleStore)) "dao_2" = Some dao.
Proof.
  destruct (proj2 (createDao_stores_clean_dao (fun _ => true) (fun _ => true) [sampleTask 1]
                     laterStamp "dao_2" sampleCreate sampleCreate sampleStore
                     eq_refl eq_refl ltac:(cbn; lia))
              ltac:(simpl; intros [ H | [] ]; discriminate H))
    as (dao & Hreply & Hfind & _).
  exists dao. split; [ exact Hreply | exact Hfind ].
Defined.



(** ** The serial handed out *)

(** X10. A serial that the Express route hands out is a well-formed serial
    of the year, is not among the serials it was computed from, and its
    sequence number is greater than that of every serial of the year in
    use. *)
Theorem nextNumberExpress_fresh (existing : list string) (year : N) (s : string) :
  Serial.nextNumberExpress existing year = Serial.NextNumber s →
  Serial.isOfYear year s = true
  ∧ ¬ In s existing
  ∧ (1 ≤ Serial.seqAnchored s ≤ 999)%N
  ∧ ∀ t, In t existing → Serial.isOfYear year t = true →
         (Serial.seqAnchored t < Serial.seqAnchored s)%N.
Proof.
  unfold Serial.nextNumberExpress.
  destruct ((year <? 2020) || (2100 <? year))%N eqn:Hrange; [ discriminate | ].
  apply orb_false_elim in Hrange as [H1 H2]. apply N.ltb_ge in H1, H2.
  assert (Hy : (2020 ≤ year ≤ 2100)%N) by lia.
  pose proof (fun n => seqs_of_year existing year n Hy) as Hseqs.
  set (cur := List.filter (Serial.isOfYear year) existing) in *.
  assert (Hcur : ∀ t, In t existing → Serial.isOfYear year t = true → In t cur)
    by (intros t Ht Hc; apply filter_In; auto).
  destruct cur as [ | c cur' ] eqn:Ecur.
  - intros [= <-]. change (Serial.first year) with (Serial.format year 1).
    destruct (format_counted year 1 Hy ltac:(lia)) as [Hc Hs].
    split; [ exact Hc | ]. split; [ intros Hin; exact (Hcur _ Hin Hc) | ].
    split; [ rewrite Hs; lia | ]. intros t Ht Hct. destruct (Hcur t Ht Hct).
  - rewrite next_of_positive.
    set (M := Serial.maxOf (List.map Serial.seqAnchored (c :: cur'))) in *.
    destruct (N.ltb_spec 999 (M + 1)) as [ Hfull | Hroom ]; [ discriminate | ].
    intros [= <-].
    destruct (format_counted year (M + 1) Hy Hroom) as [Hc Hs].
    split; [ exact Hc | ]. split; [ | split; [ rewrite Hs; lia | ] ].
    + intros Hin.
      assert (Hmem : In (M + 1)%N (List.map Serial.seqAnchored (c :: cur')))
        by (apply Hseqs; auto).
      apply maxOf_upper in Hmem. fold M in Hmem. lia.
    + intros t Ht Hct. rewrite Hs.
      assert (Hmem : In (Serial.seqAnchored t) (List.map Serial.seqAnchored (c :: cur')))
        by (apply in_map, Hcur; assumption).
      apply maxOf_upper in Hmem. fold M in Hmem. lia.
Qed.

Lemma nextNumberExpress_fresh_witness :
  ¬ In "DAO-2025-008" ["DAO-2025-007"; "DAO-2024-123"; "DAO-2025-003"].
Proof.
  exact (proj1 (proj2 (nextNumberExpress_fresh
                         ["DAO-2025-007"; "DAO-2024-123"; "DAO-2025-003"] 2025
                         "DAO-2025-008" ltac:(vm_compute; reflexivity)))).
Defined.

(** ** The Dao page *)

Section PageFacts.

Import Page.

Lemma ceilDiv_le (a b k : Z) : 0 < b → (ceilDiv a b ≤ k ↔ a ≤ k * b).
Proof.
  intros Hb. unfold ceilDiv.
  pose proof (Z.div_mod (- a) b ltac:(lia)) as Hdm.
  pose proof (Z.mod_pos_bound (- a) b Hb) as Hmod.
  split; intros H; nia.
Qed.

Lemma length_filter_split {A} (p q : A → bool) (l : list A) :
  (∀ x, p x && q x = false) →
  (List.length (List.filter p l) + List.length (List.filter q l)
   = List.length (List.filter (fun x => p x || q x) l))%nat.
Proof.
  intros Hpq. induction l as [ | x l IH ]; simpl; [ reflexivity | ].
  specialize (Hpq x). destruct (p x), (q x); simpl in *; try discriminate Hpq; lia.
Qed.

Lemma filter_same {A} (p q : A → bool) (l : list A) :
  (∀ x, In x l → p x = q x) → List.filter p l = List.filter q l.
Proof.
  induction l as [ | x l IH ]; simpl; intros H; [ reflexivity | ].
  rewrite (H x (or_introl eq_refl)), IH by (intros; apply H; auto). reflexivity.
Qed.

End PageFacts.

(** X11. The day count of the Dao page is the time left rounded up to whole
    days, so a deadline is flagged overdue only once it is a full day or
    more in the past.  For a task that is not at 100, the row is green
    exactly when more than four days are left, blue when more than three
    and at most four are left, and red otherwise; at 100 it is grey. *)
Theorem formatDate_bands (date today progress : Z) :
  let info := Page.formatDate date today in
  let left := date - today in
  (Page.di_isOverdue info = true ↔ left ≤ - msPerDay)
  ∧ (- msPerDay < left ≤ 0 → Page.di_daysDiff info = 0)
  ∧ (progress = 100 → getProgressColor (Page.di_daysDiff info) progress = "bg-gray-400")
  ∧ (progress ≠ 100 →
     (getProgressColor (Page.di_daysDiff info) progress = "bg-green-500"
      ↔ 4 * msPerDay < left)
     ∧ (getProgressColor (Page.di_daysDiff info) progress = "bg-blue-500"
        ↔ 3 * msPerDay < left ≤ 4 * msPerDay)
     ∧ (getProgressColor (Page.di_daysDiff info) progress = "bg-red-500"
        ↔ left ≤ 3 * msPerDay)).
Proof.
  cbv zeta. unfold Page.formatDate. cbn [Page.di_isOverdue Page.di_daysDiff].
  set (d := Page.ceilDiv (date - today) msPerDay).
  assert (Hms : 0 < msPerDay) by (unfold msPerDay; lia).
  pose proof (ceilDiv_le (date - today) msPerDay (-1) Hms) as Hm1.
  pose proof (ceilDiv_le (date - today) msPerDay 0 Hms) as H0.
  pose proof (ceilDiv_le (date - today) msPerDay 3 Hms) as H3.
  pose proof (ceilDiv_le (date - today) msPerDay 4 Hms) as H4.
  fold d in Hm1, H0, H3, H4.
  split; [ rewrite Z.ltb_lt; lia | ]. split; [ lia | ].
  unfold getProgressColor. split.
  - intros ->. reflexivity.
  - intros Hp. replace (progress =? 100) with false by (symmetry; apply Z.eqb_neq, Hp).
    destruct (Z.ltb_spec d 0); [ | destruct (Z.leb_spec 5 d); [ | destruct (Z.leb_spec d 3) ] ];
      (split; [ | split ]); (split; [ intros E; try discriminate E | intros E ]);
      try reflexivity; try lia.
Qed.

(** X12. On the Dao page, when no applicable task has a negative progress,
    the counters of completed, in-progress and to-do tasks add up to the
    number of applicable tasks; the task export with every box ticked keeps
    every task, and with no box ticked keeps none. *)
Theorem page_counters_partition (tasks : list DaoTask) :
  Forall (fun t => isApplicable t = true → 0 ≤ progressOrZero t) tasks →
  (Page.completedTasks tasks + Page.inProgressTasks tasks + Page.todoTasks tasks
   = Page.applicableTasks tasks)%nat
  ∧ Page.filteredTasks (Page.mkExportOptions true true true true) tasks = tasks
  ∧ Page.filteredTasks (Page.mkExportOptions false false false false) tasks = [].
Proof.
  intros Hvalid. rewrite Forall_forall in Hvalid. split; [ | split ].
  - unfold Page.completedTasks, Page.inProgressTasks, Page.todoTasks, Page.applicableTasks.
    rewrite length_filter_split
      by (intros t; destruct (isApplicable t); simpl; [ | reflexivity ];
          destruct (Z.leb_spec 100 (progressOrZero t)), (Z.ltb_spec 0 (progressOrZero t)),
            (Z.ltb_spec (progressOrZero t) 100); simpl; try reflexivity; lia).
    rewrite length_filter_split
      by (intros t; destruct (isApplicable t); simpl; [ | reflexivity ];
          destruct (Z.leb_spec 100 (progressOrZero t)), (Z.ltb_spec 0 (progressOrZero t)),
            (Z.ltb_spec (progressOrZero t) 100), (Z.eqb_spec (progressOrZero t) 0);
          simpl; try reflexivity; lia).
    f_equal. apply filter_same. intros t Ht.
    apply list_elem_of_In in Ht. specialize (Hvalid t Ht).
    destruct (isApplicable t); simpl; [ | reflexivity ]. specialize (Hvalid eq_refl).
    destruct (Z.leb_spec 100 (progressOrZero t)), (Z.ltb_spec 0 (progressOrZero t)),
      (Z.ltb_spec (progressOrZero t) 100), (Z.eqb_spec (progressOrZero t) 0);
      simpl; try reflexivity; lia.
  - unfold Page.filteredTasks. apply forallb_filter_id, forallb_forall. intros t _.
    unfold Page.exportKeeps. cbn.
    rewrite !andb_false_r. destruct (isApplicable t); reflexivity.
  - unfold Page.filteredTasks.
    induction tasks as [ | t l IH ]; [ reflexivity | ]. cbn [List.filter].
    rewrite IH
      by (intros x Hx; apply Hvalid, list_elem_of_In; right; apply list_elem_of_In, Hx).
    assert (Hhead : t ∈ t :: l) by (apply list_elem_of_In; left; reflexivity).
    specialize (Hvalid t Hhead).
    unfold Page.exportKeeps. cbn. rewrite !andb_true_r.
    destruct (isApplicable t); simpl; [ | reflexivity ]. specialize (Hvalid eq_refl).
    destruct (Z.leb_spec 100 (progressOrZero t)), (Z.ltb_spec 0 (progressOrZero t)),
      (Z.ltb_spec (progressOrZero t) 100), (Z.eqb_spec (progressOrZero t) 0);
      simpl; try reflexivity; lia.
Qed.

Lemma page_counters_partition_witness :
  (Page.completedTasks (tasks sampleDao) + Page.inProgressTasks (tasks sampleDao)
   + Page.todoTasks (tasks sampleDao) = Page.applicableTasks (tasks sampleDao))%nat.
Proof.
  refine (proj1 (page_counters_partition (tasks sampleDao) _)).
  repeat constructor; cbn; lia.
Defined.

(** X13. In the global export dialog every Dao falls in exactly one of the
    three groups (completed, in progress, at risk), so the three counts add
    up to the number of Daos, and the export holds as many Daos as the
    groups that are ticked. *)
Theorem global_export_partition
    (statusOf : Dao → DaoStatus) (options : Page.GlobalExportOptions) (daos : list Dao) :
  let count (ticked : bool) (group : list Dao) : nat :=
    if ticked then List.length group else 0%nat in
  (List.length (Page.completedDaos statusOf daos)
   + List.length (Page.inProgressDaos statusOf daos)
   + List.length (Page.atRiskDaos statusOf daos) = List.length daos)%nat
  ∧ (List.length (Page.filteredDaos statusOf options daos)
     = count (Page.g_includeCompleted options) (Page.completedDaos statusOf daos)
       + count (Page.g_includeInProgress options) (Page.inProgressDaos statusOf daos)
       + count (Page.g_includeAtRisk options) (Page.atRiskDaos statusOf daos))%nat
  ∧ ∀ dao, In dao (Page.filteredDaos statusOf options daos) → In dao daos.
Proof.
  cbv zeta. split; [ | split ].
  - unfold Page.completedDaos, Page.inProgressDaos, Page.atRiskDaos.
    induction daos as [ | d l IH ]; simpl; [ reflexivity | ].
    destruct (statusOf d); simpl; lia.
  - unfold Page.filteredDaos, Page.completedDaos, Page.inProgressDaos, Page.atRiskDaos.
    destruct options as [ c p r ]. cbn [Page.g_includeCompleted Page.g_includeInProgress
                                          Page.g_includeAtRisk].
    induction daos as [ | d l IH ]; simpl; [ destruct c, p, r; reflexivity | ].
    destruct (statusOf d), c, p, r; simpl in *; lia.
  - intros dao H. unfold Page.filteredDaos in H. apply filter_In in H. tauto.
Qed.

(** ** Users *)

Section UserListFacts.

Import Auth.

Lemma lowerChar_fixed (c : ascii) : Str.lowerChar (Str.lowerChar c) = Str.lowerChar c.
Proof. destruct c as [[] [] [] [] [] [] [] []]; vm_compute; reflexivity. Qed.

Lemma toLowerCase_fixed (s : string) : Str.toLowerCase (Str.toLowerCase s) = Str.toLowerCase s.
Proof.
  induction s as [ | c s IH ]; [ reflexivity | ].
  cbn [Str.toLowerCase]. rewrite lowerChar_fixed, IH. reflexivity.
Qed.

Lemma NoDup_map_inj {A B} (f : A → B) (l : list A) (x y : A) :
  NoDup (List.map f l) → In x l → In y l → f x = f y → x = y.
Proof.
  induction l as [ | a l IH ]; simpl; [ tauto | ].
  intros Hnd Hx Hy E. apply NoDup_cons in Hnd as [Ha Hnd].
  destruct Hx as [ -> | Hx ], Hy as [ -> | Hy ]; auto.
  - exfalso. apply Ha. rewrite E. apply list_elem_of_In, in_map, Hy.
  - exfalso. apply Ha. rewrite <- E. apply list_elem_of_In, in_map, Hx.
Qed.

(** With at most one user satisfying [p], changing the first that does is
    changing all that do. *)
Lemma mutateFirstUser_map (p : User → bool) (f : User → User) (l : list User) :
  (∀ x y, In x l → In y l → p x = true → p y = true → x = y) →
  NoDup l →
  mutateFirstUser p f l = List.map (fun u => if p u then f u else u) l.
Proof.
  induction l as [ | a l IH ]; simpl; intros Huniq Hnd; [ reflexivity | ].
  apply NoDup_cons in Hnd as [Ha Hnd].
  destruct (p a) eqn:Ea.
  - f_equal. symmetry. rewrite <- (map_id l) at 2. apply map_ext_in.
    intros x Hx. destruct (p x) eqn:Ex; [ | reflexivity ].
    exfalso. apply Ha. rewrite (Huniq a x); auto. apply list_elem_of_In, Hx.
  - f_equal. apply IH; [ | exact Hnd ]. intros x y Hx Hy. apply Huniq; auto.
Qed.

Lemma NoDup_of_map {A B} (f : A → B) (l : list A) : NoDup (List.map f l) → NoDup l.
Proof.
  induction l as [ | a l IH ]; simpl; intros H; [ constructor | ].
  apply NoDup_cons in H as [Ha H]. apply NoDup_cons. split; [ | apply IH, H ].
  intros Hin. apply Ha. apply list_elem_of_In, in_map. apply list_elem_of_In, Hin.
Qed.

Lemma find_none_map {A} (q : A → bool) (g : A → A) (l : list A) :
  (∀ x, In x l → q (g x) = false) → List.find q (List.map g l) = None.
Proof.
  induction l as [ | a l IH ]; simpl; intros H; [ reflexivity | ].
  rewrite (H a (or_introl eq_refl)). apply IH. intros; apply H; auto.
Qed.

Lemma findUserById_Some (st : AuthState) (i : string) (u : User) :
  findUserById st i = Some u → In u (users st) ∧ usr_id u = i.
Proof.
  unfold findUserById. intros H. apply find_some in H as [Hin Hid].
  apply bool_decide_eq_true in Hid. auto.
Qed.

(** The users after user [i], found as [u], has been changed by [f], when
    ids are distinct. *)
Lemma mutate_by_id (st : AuthState) (i : string) (f : User → User) :
  distinctIds st →
  mutateFirstUser (fun u => bool_decide (usr_id u = i)) f (users st)
  = List.map (fun u => if bool_decide (usr_id u = i) then f u else u) (users st).
Proof.
  intros Hids. apply mutateFirstUser_map.
  - intros x y Hx Hy Ex Ey. apply bool_decide_eq_true in Ex, Ey.
    apply (NoDup_map_inj usr_id (users st)); auto. congruence.
  - apply (NoDup_of_map usr_id), Hids.
Qed.

End UserListFacts.

Section DeactivateFacts.

Import Auth.

(** Once user [u] of id [i] is deactivated, no active user answers to the
    id or to the address, when ids and addresses are distinct. *)
Lemma deactivated_not_found (st : AuthState) (i : string) (u : User) :
  distinctIds st → distinctEmails st →
  findUserById st i = Some u →
  let users' :=
    mutateFirstUser (fun u => bool_decide (usr_id u = i)) deactivated (users st) in
  (∀ email, Str.toLowerCase email = Str.toLowerCase (usr_email u) →
     List.find (fun x => bool_decide (Str.toLowerCase (usr_email x) = Str.toLowerCase email)
                         && usr_isActive x) users' = None)
  ∧ List.find (fun x => bool_decide (usr_id x = i) && usr_isActive x) users' = None
  ∧ ∀ x, In x (List.filter usr_isActive users') → usr_id x ≠ i.
Proof.
  intros Hids Hmails Hu. cbv zeta. rewrite (mutate_by_id st i deactivated Hids).
  apply findUserById_Some in Hu as [Hin Hid].
  split; [ | split ].
  - intros email Hemail. apply find_none_map. intros x Hx.
    destruct (decide (usr_id x = i)) as [ Ex | Ex ].
    + rewrite !(bool_decide_eq_true_2 _ Ex). cbn. rewrite ?andb_false_r. reflexivity.
    + rewrite (bool_decide_eq_false_2 _ Ex).
      apply andb_false_intro1, bool_decide_eq_false_2. intros E. apply Ex.
      rewrite <- Hid. f_equal.
      apply (NoDup_map_inj _ (users st) x u Hmails Hx Hin). congruence.
  - apply find_none_map. intros x Hx.
    destruct (decide (usr_id x = i)) as [ Ex | Ex ].
    + rewrite !(bool_decide_eq_true_2 _ Ex). cbn. rewrite ?andb_false_r. reflexivity.
    + rewrite !(bool_decide_eq_false_2 _ Ex). reflexivity.
  - intros x Hx. apply filter_In in Hx as [Hx Hactive].
    apply in_map_iff in Hx as (y & <- & Hy). intros E.
    destruct (decide (usr_id y = i)) as [ Ey | Ey ].
    + rewrite (bool_decide_eq_true_2 _ Ey) in Hactive. discriminate Hactive.
    + rewrite (bool_decide_eq_false_2 _ Ey) in E. contradiction.
Qed.

End DeactivateFacts.

(** X14. A user that [deactivateUser] has deactivated is locked out, when
    ids and addresses are distinct: no password logs the address in, no
    token carrying the id verifies (however valid its signature), no reset
    token is issued for the address and none already issued resets the
    password, the user is not listed among the active users, and no session
    of the id is kept.  Deactivating an unknown id answers [false] and
    changes nothing. *)
Theorem deactivated_user_locked_out
    (hash : string → string) (compare : string → string → bool) (sign : AuthUser → string)
    (verifyStrict verifyLoose : string → option AuthUser)
    (svc : Auth.Service) (i : string) :
  distinctIds (Auth.state svc) → distinctEmails (Auth.state svc) →
  let result := Auth.deactivateUser verifyLoose svc i in
  (Auth.findUserById (Auth.state svc) i = None → result = (svc, false))
  ∧ (∀ u, Auth.findUserById (Auth.state svc) i = Some u →
       snd result = true
       ∧ (∀ email password now,
            Str.toLowerCase email = Str.toLowerCase (Auth.usr_email u) →
            Auth.login compare sign (fst result) email password now = (fst result, None))
       ∧ (∀ token decoded,
            verifyStrict token = Some decoded → au_id decoded = i →
            snd (Auth.verifyToken verifyStrict (fst result) token) = None)
       ∧ (∀ now token,
            Auth.generateResetToken (Auth.state (fst result)) (Auth.usr_email u) now token
            = (Auth.state (fst result), None))
       ∧ (∀ token password now,
            snd (Auth.resetPasswordWithToken hash (Auth.state (fst result)) token
                   (Auth.usr_email u) password now) = false)
       ∧ (∀ x, In x (Auth.getAllUsers (Auth.state (fst result))) → Auth.usr_id x ≠ i)
       ∧ (∀ token, token ∈ Auth.activeSessions (fst result) →
                   au_id <$> verifyLoose token ≠ Some i)).
Proof.
  intros Hids Hmails. cbv zeta. unfold Auth.deactivateUser. split.
  - intros ->. reflexivity.
  - intros u Hu. rewrite Hu. cbn [fst snd].
    destruct (deactivated_not_found (Auth.state svc) i u Hids Hmails Hu)
      as (Hmail & Hid & Hlist).
    split; [ reflexivity | ]. split; [ | split; [ | split; [ | split; [ | split ] ] ] ].
    + intros email password now Hemail.
      unfold Auth.login, Auth.findActiveByEmail. cbn [Auth.state Auth.users].
      rewrite (Hmail email Hemail). reflexivity.
    + intros token decoded Hdec <-. unfold Auth.verifyToken. rewrite Hdec.
      cbn [Auth.state Auth.users]. rewrite Hid. reflexivity.
    + intros now token. unfold Auth.generateResetToken, Auth.findActiveByEmail.
      cbn [Auth.state Auth.users]. rewrite (Hmail _ eq_refl). reflexivity.
    + intros token password now. unfold Auth.resetPasswordWithToken.
      destruct (Auth.verifyResetToken _ token (Auth.usr_email u) now) as [st1 ok] eqn:Ev.
      destruct ok; [ | reflexivity ]. cbn [negb].
      assert (Husers : Auth.users st1
                       = Auth.mutateFirstUser (fun u => bool_decide (Auth.usr_id u = i))
                           Auth.deactivated (Auth.users (Auth.state svc))).
      { unfold Auth.verifyResetToken in Ev. cbn [Auth.resetTokens Auth.users] in Ev.
        repeat case_match; simplify_eq; reflexivity. }
      unfold Auth.findActiveByEmail. rewrite Husers, (Hmail _ eq_refl). reflexivity.
    + intros x Hx. apply Hlist, Hx.
    + intros token Htoken. cbn [Auth.activeSessions] in Htoken.
      apply elem_of_filter in Htoken. tauto.
Qed.

Lemma deactivated_user_locked_out_witness :
  snd (Auth.login (fun _ _ => true) (fun _ => "jwt")
         (fst (Auth.deactivateUser (fun _ => None) (Auth.mkService sampleAuth ∅) "2"))
         "Marie.Dubois@2snd.fr" "marie123" laterStamp) = None.
Proof.
  pose proof (proj2 (deactivated_user_locked_out sampleHash (fun _ _ => true) (fun _ => "jwt")
                       (fun _ => None) (fun _ => None) (Auth.mkService sampleAuth ∅) "2"
                       ltac:(apply NoDup_singleton) ltac:(apply NoDup_singleton))
                _ eq_refl) as (_ & Hlogin & _).
  rewrite (Hlogin "Marie.Dubois@2snd.fr" "marie123" laterStamp eq_refl). reflexivity.
Defined.

(** ** The user routes and the creation of users *)

Section MutateFacts.

Import Auth.

Lemma find_mutate_other (p q : User → bool) (f : User → User) (l : list User) :
  (∀ x, p x = true → q x = false ∧ q (f x) = false) →
  List.find q (mutateFirstUser p f l) = List.find q l.
Proof.
  intros H. induction l as [ | a l IH ]; simpl; [ reflexivity | ].
  destruct (p a) eqn:Ea; simpl.
  - destruct (H a Ea) as [-> ->]. reflexivity.
  - rewrite IH. reflexivity.
Qed.

Lemma In_mutate_other (p : User → bool) (f : User → User) (l : list User) (x : User) :
  In x l → p x = false → In x (mutateFirstUser p f l).
Proof.
  induction l as [ | a l IH ]; simpl; [ tauto | ].
  intros [ -> | Hx ] Hp.
  - rewrite Hp. left. reflexivity.
  - destruct (p a); simpl; auto.
Qed.

End MutateFacts.

(** X15. The route that deactivates a user never touches the record of the
    caller: a caller naming its own id is refused with 400 and nothing
    changes, and otherwise only the user named is deactivated, so every
    other active user, the caller included, stays active, and no password
    or reset token is touched. *)
Theorem deactivate_route_spares_caller
    (verifyLoose : string → option AuthUser) (targetId : string) (actor : AuthUser)
    (svc : Auth.Service) :
  let result := AuthRoutes.deactivateHandler verifyLoose targetId actor svc in
  (au_id actor = targetId →
   result = (svc, AuthRoutes.UserError 400 "Cannot deactivate your own account"))
  ∧ Auth.findUserById (Auth.state (fst result)) (au_id actor)
    = Auth.findUserById (Auth.state svc) (au_id actor)
  ∧ (∀ x, In x (Auth.getAllUsers (Auth.state svc)) → Auth.usr_id x ≠ targetId →
          In x (Auth.getAllUsers (Auth.state (fst result))))
  ∧ Auth.userPasswords (Auth.state (fst result)) = Auth.userPasswords (Auth.state svc)
  ∧ Auth.resetTokens (Auth.state (fst result)) = Auth.resetTokens (Auth.state svc).
Proof.
  cbv zeta. unfold AuthRoutes.deactivateHandler.
  destruct (decide (au_id actor = targetId)) as [ E | E ].
  - rewrite (bool_decide_eq_true_2 _ E). cbn [fst snd]. auto.
  - rewrite (bool_decide_eq_false_2 _ E). split; [ contradiction | ].
    unfold Auth.deactivateUser.
    destruct (Auth.findUserById (Auth.state svc) targetId) as [ u | ] eqn:Hu;
      cbn [fst snd Auth.state Auth.userPasswords Auth.resetTokens]; [ | auto ].
    split; [ | split; [ | auto ] ].
    + unfold Auth.findUserById. cbn [Auth.users]. apply find_mutate_other.
      intros x Hx. apply bool_decide_eq_true in Hx. cbn.
      rewrite bool_decide_eq_false_2 by congruence. auto.
    + intros x Hx Hne. unfold Auth.getAllUsers in *. cbn [Auth.users].
      apply filter_In in Hx as [Hx Hactive]. apply filter_In. split; [ | exact Hactive ].
      apply In_mutate_other; [ exact Hx | ]. apply bool_decide_eq_false_2, Hne.
Qed.

(** ** Creating a user *)

Section CreateUserFacts.

Import Auth.

Lemma existsb_email_false (l : list User) (email : string) :
  existsb (fun u => bool_decide (Str.toLowerCase (usr_email u) = Str.toLowerCase email)) l
  = false
  ↔ ¬ In (Str.toLowerCase email) (List.map (fun u => Str.toLowerCase (usr_email u)) l).
Proof.
  induction l as [ | u l IH ]; simpl; [ tauto | ].
  rewrite orb_false_iff, IH, bool_decide_eq_false. tauto.
Qed.

Lemma find_app_none {A} (q : A → bool) (l : list A) (x : A) :
  (∀ y, In y l → q y = false) → q x = true → List.find q (l ++ [x]) = Some x.
Proof.
  induction l as [ | a l IH ]; simpl; intros H Hx.
  - rewrite Hx. reflexivity.
  - rewrite (H a (or_introl eq_refl)). apply IH; auto.
Qed.

End CreateUserFacts.

(** X16. [createUser] refuses an address that a user already has, letter
    case aside, and otherwise appends an active user whose address is
    stored in lower case: addresses stay distinct and in lower case and the
    user is found by the address as typed.  Unless that address is
    ["__proto__"], the hash of the given password (or of the default one)
    is stored under it and, with a [compare] that accepts a password against
    its own hash, that password logs the user in.  For ["__proto__"] the
    plain object drops the write: the hashes are as before, and no password
    logs the user in. *)
Theorem createUser_then_login
    (hash : string → string) (compare : string → string → bool) (sign : AuthUser → string)
    (st : Auth.AuthState) (name email : string) (role : UserRole)
    (password : option string) (newId createdAt : string) :
  distinctEmails st → lowercaseEmails st →
  let taken :=
    In (Str.toLowerCase email)
       (List.map (fun u => Str.toLowerCase (Auth.usr_email u)) (Auth.users st)) in
  let used := match password with
              | Some p => if bool_decide (p = "") then "changeme123" else p
              | None => "changeme123"
              end in
  (taken → Auth.createUser hash st name email role password newId createdAt = None)
  ∧ (¬ taken →
     ∃ st' u,
       Auth.createUser hash st name email role password newId createdAt = Some (st', u)
       ∧ Auth.users st' = (Auth.users st ++ [u])%list
       ∧ Auth.usr_email u = Str.toLowerCase email
       ∧ Auth.usr_isActive u = true
       ∧ distinctEmails st' ∧ lowercaseEmails st'
       ∧ Auth.findActiveByEmail st' email = Some u
       ∧ (Str.toLowerCase email ≠ "__proto__" →
          Auth.userPasswords st' !! Auth.usr_email u = Some (hash used)
          ∧ (∀ sessions now,
               compare used (hash used) = true → hash used ≠ "" →
               snd (Auth.login compare sign (Auth.mkService st' sessions) email used now)
               = Some (Auth.authUserOf u, sign (Auth.authUserOf u))))
       ∧ (Str.toLowerCase email = "__proto__" →
          Auth.userPasswords st' = Auth.userPasswords st
          ∧ (Auth.userPasswords st !! "__proto__" = None →
             ∀ sessions typed now,
               Auth.login compare sign (Auth.mkService st' sessions) email typed now
               = (Auth.mkService st' sessions, None)))).
Proof.
  intros Hmails Hlower. cbv zeta. unfold Auth.createUser. split.
  - intros Htaken.
    destruct (existsb _ (Auth.users st)) eqn:E; [ reflexivity | ].
    apply existsb_email_false in E. contradiction.
  - intros Hfree. apply existsb_email_false in Hfree as E. rewrite E.
    set (u := Auth.mkUser newId name (Str.toLowerCase email) role createdAt true None).
    eexists _, u. split; [ reflexivity | ]. cbn [Auth.users Auth.userPasswords].
    split; [ reflexivity | ]. split; [ reflexivity | ]. split; [ reflexivity | ].
    assert (Hfind : ∀ passwords tokens,
               Auth.findActiveByEmail (Auth.mkAuth (Auth.users st ++ [u]) passwords tokens) email
               = Some u).
    { intros passwords tokens. unfold Auth.findActiveByEmail. cbn [Auth.users].
      apply find_app_none.
      - intros y Hy. apply andb_false_intro1, bool_decide_eq_false_2. intros Ey.
        apply Hfree. rewrite <- Ey. apply (in_map (fun u => Str.toLowerCase (Auth.usr_email u))), Hy.
      - cbn. rewrite toLowerCase_fixed, bool_decide_eq_true_2 by reflexivity. reflexivity. }
    split; [ | split; [ | split; [ apply Hfind | split ] ] ].
    + unfold distinctEmails. cbn [Auth.users]. rewrite map_app. apply NoDup_app.
      split; [ exact Hmails | ]. split; [ | apply NoDup_singleton ].
      intros e He Hnew. apply list_elem_of_In in Hnew as [ <- | [] ].
      apply Hfree. cbn [Auth.usr_email u] in He. rewrite toLowerCase_fixed in He.
      apply list_elem_of_In, He.
    + intros x Hx. cbn [Auth.users] in Hx. apply in_app_or in Hx as [ Hx | [ <- | [] ] ].
      * apply Hlower, Hx.
      * apply toLowerCase_fixed.
    + intros Hkey. unfold Auth.assign. cbn [Auth.usr_email u].
      rewrite (bool_decide_eq_false_2 _ Hkey).
      split; [ apply lookup_insert_eq | ].
      intros sessions now Hcompare Hhash. unfold Auth.login. cbn [Auth.state].
      rewrite Hfind. cbn [Auth.userPasswords Auth.usr_email u]. rewrite lookup_insert_eq.
      rewrite (bool_decide_eq_false_2 _ Hhash), Hcompare. reflexivity.
    + intros Hkey. unfold Auth.assign. cbn [Auth.usr_email u].
      rewrite (bool_decide_eq_true_2 _ Hkey).
      split; [ reflexivity | ].
      intros Hnone sessions typed now. unfold Auth.login. cbn [Auth.state].
      rewrite Hfind. cbn [Auth.userPasswords Auth.usr_email u]. rewrite Hkey, Hnone.
      reflexivity.
Qed.

Lemma createUser_then_login_witness :
  ∃ st' u,
    Auth.createUser sampleHash sampleAuth "Pierre Martin" "Pierre.Martin@2snd.fr" user
      (Some "pierre123") "3" laterStamp = Some (st', u)
    ∧ Auth.findActiveByEmail st' "Pierre.Martin@2snd.fr" = Some u.
Proof.
  destruct (proj2 (createUser_then_login sampleHash (fun _ _ => true) (fun _ => "jwt")
                     sampleAuth "Pierre Martin" "Pierre.Martin@2snd.fr" user
                     (Some "pierre123") "3" laterStamp
                     ltac:(apply NoDup_singleton)
                     ltac:(intros u [ <- | [] ]; reflexivity))
              ltac:(simpl; intros [ H | [] ]; discriminate H))
    as (st' & u & Hcreate & _ & _ & _ & _ & _ & Hfind & _).
  exists st', u. split; [ exact Hcreate | exact Hfind ].
Defined.

(** ** Profiles and password hashes *)

Section ProfileFacts.

Import Auth.

Lemma find_mutate_same (p : User → bool) (f : User → User) (l : list User) (u : User) :
  List.find p l = Some u → p (f u) = true →
  List.find p (mutateFirstUser p f l) = Some (f u).
Proof.
  induction l as [ | a l IH ]; simpl; [ discriminate | ].
  destruct (p a) eqn:Ea; simpl.
  - intros [= ->] Hf. rewrite Hf. reflexivity.
  - intros Hu Hf. rewrite Ea. apply IH; assumption.
Qed.

(** Replacing the key of the one element that satisfies [p] by a key that
    no other element has keeps the keys distinct. *)
Lemma NoDup_replace {A B} (f : A → B) (p : A → bool) (v : B) (l : list A) :
  NoDup (List.map f l) →
  (∀ x, In x l → p x = false → f x ≠ v) →
  (∀ x y, In x l → In y l → p x = true → p y = true → x = y) →
  NoDup (List.map (fun x => if p x then v else f x) l).
Proof.
  induction l as [ | a l IH ]; simpl; intros Hnd Hv Huniq; [ constructor | ].
  apply NoDup_cons in Hnd as [Ha Hnd]. apply NoDup_cons. split.
  - intros Hin. apply list_elem_of_In, in_map_iff in Hin as (y & Ey & Hy).
    apply Ha, list_elem_of_In.
    destruct (p a) eqn:Ea, (p y) eqn:Epy.
    + rewrite (Huniq a y); auto. apply in_map, Hy.
    + exfalso. apply (Hv y); auto.
    + exfalso. apply (Hv a); auto.
    + rewrite <- Ey. apply in_map, Hy.
  - apply IH; [ exact Hnd | | ]; intros; [ apply Hv | apply Huniq ]; auto.
Qed.

Lemma existsb_false_In {A} (q : A → bool) (l : list A) (x : A) :
  existsb q l = false → In x l → q x = false.
Proof.
  intros E Hx. destruct (q x) eqn:Eq; [ | reflexivity ].
  rewrite <- E. symmetry. apply existsb_exists. exists x. auto.
Qed.

(** What [updateProfile] needs of the new address once it has gone past its
    check: no other user has it, letter case aside. *)
Lemma updateProfile_address_free (st : AuthState) (i name email : string) (u : User)
    (st' : AuthState) (r : option User) :
  distinctIds st → distinctEmails st →
  findUserById st i = Some u →
  updateProfile st i name email = Some (st', r) →
  (∀ x, In x (users st) → usr_id x ≠ i →
        Str.toLowerCase (usr_email x) ≠ Str.toLowerCase email)
  ∧ users st' = mutateFirstUser (fun u => bool_decide (usr_id u = i))
                  (withProfile name email) (users st)
  ∧ r = Some (withProfile name email u)
  ∧ resetTokens st' = resetTokens st
  ∧ userPasswords st'
    = if bool_decide (email ≠ usr_email u)
      then moveHash (userPasswords st) (usr_email u) email
      else userPasswords st.
Proof.
  intros Hids Hmails Hu. unfold updateProfile. rewrite Hu.
  pose proof (findUserById_Some _ _ _ Hu) as [Hin Hid].
  destruct (decide (email ≠ usr_email u)) as [ Hne | He ].
  - rewrite !(bool_decide_eq_true_2 _ Hne).
    destruct (existsb _ (users st)) eqn:E; [ discriminate | ].
    intros [= <- <-]. cbn [users userPasswords resetTokens].
    split; [ | auto ]. intros x Hx Hxi Heq.
    pose proof (existsb_false_In _ _ x E Hx) as Hq. cbn in Hq.
    rewrite (bool_decide_eq_true_2 _ Heq), (bool_decide_eq_false_2 _ Hxi) in Hq.
    discriminate Hq.
  - rewrite !(bool_decide_eq_false_2 _ He). intros [= <- <-].
    cbn [users userPasswords resetTokens]. split; [ | auto ].
    apply dec_stable in He. subst email. intros x Hx Hxi Heq. apply Hxi.
    rewrite <- Hid. f_equal.
    apply (NoDup_map_inj (fun u => Str.toLowerCase (usr_email u)) (users st)); auto.
Qed.

End ProfileFacts.

(** X17. [updateProfile] moves the password hash with the user: from a
    store whose ids and addresses are distinct and whose addresses are in
    lower case, a profile update that does not throw leaves such a store,
    the user found under the same id is the renamed one, the hash that was
    under the old address is the one under the new address, and every other
    user is kept with its own hash; reset tokens are not touched, and an
    unknown id changes nothing. *)
Theorem updateProfile_hash_follows_user
    (st : Auth.AuthState) (i name email : string) (st' : Auth.AuthState)
    (r : option Auth.User) :
  distinctIds st → distinctEmails st → lowercaseEmails st →
  Auth.updateProfile st i name email = Some (st', r) →
  distinctIds st' ∧ distinctEmails st' ∧ lowercaseEmails st'
  ∧ Auth.findUserById st' i = r
  ∧ Auth.resetTokens st' = Auth.resetTokens st
  ∧ (Auth.findUserById st i = None → st' = st)
  ∧ (∀ u, Auth.findUserById st i = Some u →
       r = Some (Auth.withProfile name email u)
       ∧ Auth.userPasswords st' !! Str.toLowerCase email
         = Auth.userPasswords st !! Auth.usr_email u)
  ∧ (∀ x, In x (Auth.users st) → Auth.usr_id x ≠ i →
       In x (Auth.users st')
       ∧ Auth.userPasswords st' !! Auth.usr_email x
         = Auth.userPasswords st !! Auth.usr_email x).
Proof.
  intros Hids Hmails Hlower Hup.
  destruct (Auth.findUserById st i) as [ u | ] eqn:Hu.
  2:{ unfold Auth.updateProfile in Hup. rewrite Hu in Hup. injection Hup as <- <-.
      repeat (split; [ first [ assumption | reflexivity ] | ]).
      split; [ discriminate | auto ]. }
  destruct (updateProfile_address_free st i name email u st' r Hids Hmails Hu Hup)
    as (Hfree & Husers & -> & Htokens & Hpw).
  pose proof (findUserById_Some _ _ _ Hu) as [Hin Hid].
  assert (Hmap : Auth.users st'
                 = List.map (fun u => if bool_decide (Auth.usr_id u = i)
                                      then Auth.withProfile name email u else u)
                     (Auth.users st)).
  { rewrite Husers. apply mutate_by_id, Hids. }
  assert (Huniq : ∀ x y, In x (Auth.users st) → In y (Auth.users st) →
                         bool_decide (Auth.usr_id x = i) = true →
                         bool_decide (Auth.usr_id y = i) = true → x = y).
  { intros x y Hx Hy Ex Ey. apply bool_decide_eq_true in Ex, Ey.
    apply (NoDup_map_inj Auth.usr_id (Auth.users st)); auto. congruence. }
  split; [ | split; [ | split; [ | split; [ | split; [ exact Htokens | split; [ discriminate | split ] ] ] ] ] ].
  - unfold distinctIds. rewrite Hmap, map_map.
    erewrite map_ext; [ exact Hids | ]. intros x. cbn. destruct (bool_decide (Auth.usr_id x = i)); reflexivity.
  - unfold distinctEmails. rewrite Hmap, map_map.
    erewrite map_ext.
    + apply (NoDup_replace (fun u => Str.toLowerCase (Auth.usr_email u))
               (fun u => bool_decide (Auth.usr_id u = i)) (Str.toLowerCase email)
               (Auth.users st) Hmails).
      * intros x Hx Ex. apply bool_decide_eq_false in Ex. apply Hfree; assumption.
      * exact Huniq.
    + intros x. cbn. destruct (bool_decide (Auth.usr_id x = i)); [ | reflexivity ]. cbn. apply toLowerCase_fixed.
  - intros x Hx. rewrite Hmap in Hx. apply in_map_iff in Hx as (y & <- & Hy).
    destruct (bool_decide (Auth.usr_id y = i)); [ apply toLowerCase_fixed | apply Hlower, Hy ].
  - unfold Auth.findUserById. rewrite Husers. apply find_mutate_same; [ exact Hu | ].
    apply bool_decide_eq_true_2. exact Hid.
  - intros u0 [= <-]. split; [ reflexivity | ]. rewrite Hpw.
    destruct (decide (email ≠ Auth.usr_email u)) as [ He | He ];
      [ rewrite (bool_decide_eq_true_2 _ He) | rewrite (bool_decide_eq_false_2 _ He) ].
    + unfold Auth.moveHash. destruct (Auth.userPasswords st !! Auth.usr_email u) eqn:El.
      * apply lookup_insert_eq.
      * apply lookup_delete_eq.
    + apply dec_stable in He. subst email. rewrite (Hlower u Hin). reflexivity.
  - intros x Hx Hxi. split.
    + rewrite Husers. apply In_mutate_other; [ exact Hx | ].
      apply bool_decide_eq_false_2, Hxi.
    + rewrite Hpw.
      destruct (decide (email ≠ Auth.usr_email u)) as [ He | He ];
        [ rewrite (bool_decide_eq_true_2 _ He)
        | rewrite (bool_decide_eq_false_2 _ He); reflexivity ].
      assert (Hnew : Str.toLowerCase email ≠ Auth.usr_email x).
      { rewrite <- (Hlower x Hx). intros E. apply (Hfree x Hx Hxi). symmetry. exact E. }
      assert (Hold : Auth.usr_email u ≠ Auth.usr_email x).
      { intros E. apply Hxi. rewrite <- Hid. f_equal.
        apply (NoDup_map_inj (fun u => Str.toLowerCase (Auth.usr_email u)) (Auth.users st));
          auto. cbn. rewrite E. reflexivity. }
      unfold Auth.moveHash. destruct (Auth.userPasswords st !! Auth.usr_email u).
      * rewrite lookup_insert_ne, lookup_delete_ne by assumption. reflexivity.
      * rewrite !lookup_delete_ne by assumption. reflexivity.
Qed.

Lemma updateProfile_hash_follows_user_witness :
  ∃ st' r,
    Auth.updateProfile sampleAuth "2" "Marie D." "M.Dubois@2snd.fr" = Some (st', r)
    ∧ Auth.userPasswords st' !! "m.dubois@2snd.fr" = Some "$2a$12$seed".
Proof.
  eexists _, _. split; [ reflexivity | ].
  refine (proj2 (proj1 (proj2 (proj2 (proj2 (proj2 (proj2 (proj2
            (updateProfile_hash_follows_user sampleAuth "2" "Marie D." "M.Dubois@2snd.fr"
               _ _ _ _ _ eq_refl))))))) _ eq_refl)).
  - apply NoDup_singleton.
  - apply NoDup_singleton.
  - intros u [ <- | [] ]. reflexivity.
Defined.

(** ** Sessions *)

Section SessionFacts.

Import Auth.

Lemma In_mutate_same (p : User → bool) (f : User → User) (l : list User) (u : User) :
  List.find p l = Some u → In (f u) (mutateFirstUser p f l).
Proof.
  induction l as [ | a l IH ]; simpl; [ discriminate | ].
  destruct (p a) eqn:Ea; simpl.
  - intros [= ->]. left. reflexivity.
  - intros Hu. right. apply IH, Hu.
Qed.

Lemma find_is_Some {A} (q : A → bool) (l : list A) (x : A) :
  In x l → q x = true → ∃ y, List.find q l = Some y.
Proof.
  intros Hx Hq. destruct (List.find q l) as [ y | ] eqn:E; [ eauto | ].
  rewrite (find_none q l E x Hx) in Hq. discriminate Hq.
Qed.

End SessionFacts.

(** X18. What [verifyToken] answers depends on the token and on the users,
    never on the set of sessions: the users are left as they are, the token
    is in the set afterwards exactly when it was accepted, no other session
    is touched, and a token logged out before is answered as if it had not
    been, which puts it back into the set. *)
Theorem verifyToken_ignores_sessions
    (verifyStrict : string → option AuthUser) (svc : Auth.Service) (token : string) :
  let result := Auth.verifyToken verifyStrict svc token in
  Auth.state (fst result) = Auth.state svc
  ∧ (token ∈ Auth.activeSessions (fst result) ↔ snd result ≠ None)
  ∧ (∀ t, t ≠ token →
          (t ∈ Auth.activeSessions (fst result) ↔ t ∈ Auth.activeSessions svc))
  ∧ Auth.verifyToken verifyStrict (Auth.logout svc token) token = result.
Proof.
  cbv zeta. unfold Auth.verifyToken, Auth.logout. cbn [Auth.state Auth.activeSessions].
  assert (Hdrop : (Auth.activeSessions svc ∖ {[token]}) ∖ {[token]}
                  = Auth.activeSessions svc ∖ {[token]}).
  { apply set_eq. intros t. rewrite !elem_of_difference. tauto. }
  assert (Hback : {[token]} ∪ Auth.activeSessions svc ∖ {[token]}
                  = {[token]} ∪ Auth.activeSessions svc).
  { apply set_eq. intros t. rewrite !elem_of_union, elem_of_difference, elem_of_singleton.
    destruct (decide (t = token)); tauto. }
  assert (Hadded : ∀ t, t ≠ token →
            (t ∈ {[token]} ∪ Auth.activeSessions svc ↔ t ∈ Auth.activeSessions svc)).
  { intros t Ht. rewrite elem_of_union, elem_of_singleton. tauto. }
  assert (Hdropped : ∀ t, t ≠ token →
            (t ∈ Auth.activeSessions svc ∖ {[token]} ↔ t ∈ Auth.activeSessions svc)).
  { intros t Ht. rewrite elem_of_difference, elem_of_singleton. tauto. }
  assert (Hout : ¬ token ∈ Auth.activeSessions svc ∖ {[token]}).
  { rewrite elem_of_difference, elem_of_singleton. tauto. }
  assert (Hin : token ∈ {[token]} ∪ Auth.activeSessions svc).
  { apply elem_of_union_l, elem_of_singleton. reflexivity. }
  destruct (verifyStrict token) as [ decoded | ];
    [ destruct (List.find _ (Auth.users (Auth.state svc))) | ];
    cbn [fst snd Auth.state Auth.activeSessions];
    rewrite ?Hdrop, ?Hback.
  - split; [ reflexivity | ]. split; [ | split; [ exact Hadded | reflexivity ] ].
    split; [ discriminate | intros _; exact Hin ].
  - split; [ reflexivity | ]. split; [ | split; [ exact Hdropped | reflexivity ] ].
    split; [ intros H; destruct (Hout H) | congruence ].
  - split; [ reflexivity | ]. split; [ | split; [ exact Hdropped | reflexivity ] ].
    split; [ intros H; destruct (Hout H) | congruence ].
Qed.

(** X19. A login that succeeds hands out the token of the active user found
    under the address, records it as a session, and changes neither a
    password nor a reset token; when [jwt.verify] decodes that token to the
    user it was signed for, [verifyToken] accepts it right away. *)
Theorem login_then_verifyToken
    (compare : string → string → bool) (sign : AuthUser → string)
    (verifyStrict : string → option AuthUser)
    (svc svc' : Auth.Service) (email password now : string) (au : AuthUser) (token : string) :
  Auth.login compare sign svc email password now = (svc', Some (au, token)) →
  (∃ u hashed,
      Auth.findActiveByEmail (Auth.state svc) email = Some u
      ∧ au = Auth.authUserOf u
      ∧ Auth.userPasswords (Auth.state svc) !! Auth.usr_email u = Some hashed
      ∧ compare password hashed = true)
  ∧ token = sign au
  ∧ token ∈ Auth.activeSessions svc'
  ∧ Auth.userPasswords (Auth.state svc') = Auth.userPasswords (Auth.state svc)
  ∧ Auth.resetTokens (Auth.state svc') = Auth.resetTokens (Auth.state svc)
  ∧ (verifyStrict token = Some au →
     snd (Auth.verifyToken verifyStrict svc' token) = Some au).
Proof.
  unfold Auth.login.
  destruct (Auth.findActiveByEmail (Auth.state svc) email) as [ u | ] eqn:Hu;
    [ | intros [= ] ].
  destruct (Auth.userPasswords (Auth.state svc) !! Auth.usr_email u) as [ hashed | ] eqn:Hh;
    [ | intros [= ] ].
  destruct (bool_decide (hashed = "")); [ intros [= ] | ].
  destruct (compare password hashed) eqn:Hc; cbn [negb]; [ | intros [= ] ].
  intros [= <- <- <-]. cbn [Auth.state Auth.activeSessions Auth.userPasswords Auth.resetTokens].
  split; [ exists u, hashed; auto | ].
  split; [ reflexivity | ].
  split; [ apply elem_of_union_l, elem_of_singleton; reflexivity | ].
  split; [ reflexivity | ]. split; [ reflexivity | ].
  intros Hv. unfold Auth.verifyToken. rewrite Hv. cbn [Auth.state Auth.users].
  unfold Auth.findActiveByEmail in Hu.
  pose proof (In_mutate_same _ (Auth.withLastLogin now) _ _ Hu) as Hin.
  apply find_some in Hu as [_ Hactive]. apply andb_true_iff in Hactive as [_ Hactive].
  destruct (find_is_Some
              (fun x => bool_decide (Auth.usr_id x = au_id (Auth.authUserOf u))
                        && Auth.usr_isActive x) _ _ Hin) as [y ->].
  - cbn. rewrite bool_decide_eq_true_2 by reflexivity. exact Hactive.
  - reflexivity.
Qed.

Lemma login_then_verifyToken_witness :
  snd (Auth.verifyToken (fun _ => Some marie)
         (fst (Auth.login (fun _ _ => true) (fun _ => "jwt")
                 (Auth.mkService sampleAuth ∅) "Marie.Dubois@2snd.fr" "marie123" laterStamp))
         "jwt")
  = Some marie.
Proof.
  exact (proj2 (proj2 (proj2 (proj2 (proj2
           (login_then_verifyToken (fun _ _ => true) (fun _ => "jwt") (fun _ => Some marie)
              (Auth.mkService sampleAuth ∅) _ "Marie.Dubois@2snd.fr" "marie123" laterStamp
              marie "jwt" eq_refl))))) eq_refl).
Defined.

(** ** Reset tokens *)

Section ResetTokenFacts.

Import Auth.

(** The answer of [verifyResetToken] is read off the entry of the token. *)
Lemma verifyResetToken_entry (st1 st2 : AuthState) (token email : string) (now : Z) :
  resetTokens st1 !! token = resetTokens st2 !! token →
  snd (verifyResetToken st1 token email now) = snd (verifyResetToken st2 token email now).
Proof.
  unfold verifyResetToken. intros ->.
  destruct (resetTokens st2 !! token) as [ [owner expires] | ]; [ | reflexivity ].
  destruct (negb _); [ reflexivity | ]. destruct (expires <? now); reflexivity.
Qed.

Lemma generateResetToken_other (st : AuthState) (token other email : string) (now : Z) :
  token ≠ other →
  resetTokens (fst (generateResetToken st email now token)) !! other
  = resetTokens st !! other.
Proof.
  intros Hne. unfold generateResetToken.
  destruct (findActiveByEmail st email); cbn [fst resetTokens]; [ | reflexivity ].
  apply lookup_insert_ne, Hne.
Qed.

Lemma resetPasswordWithToken_other (hash : string → string) (st : AuthState)
    (token other email newPassword : string) (now : Z) :
  token ≠ other →
  resetTokens (fst (resetPasswordWithToken hash st token email newPassword now)) !! other
  = resetTokens st !! other.
Proof.
  intros Hne. unfold resetPasswordWithToken, verifyResetToken.
  destruct (resetTokens st !! token) as [ [owner expires] | ] eqn:E;
    cbn [negb fst]; [ | reflexivity ].
  destruct (negb (bool_decide _)); cbn [negb fst]; [ reflexivity | ].
  destruct (expires <? now); cbn [negb fst resetTokens].
  - apply lookup_delete_ne, Hne.
  - destruct (findActiveByEmail st email); cbn [fst resetTokens]; [ | reflexivity ].
    apply lookup_delete_ne, Hne.
Qed.

End ResetTokenFacts.

(** X20. Reset tokens do not interfere: issuing a token and resetting a
    password with a token leave every other token as it was, so an older
    token of the same user is answered after a newer one has been issued or
    used as it was before; and a token presented with an address that is not
    its own is refused without being consumed, whatever the clock. *)
Theorem reset_tokens_independent
    (hash : string → string) (st : Auth.AuthState)
    (token other email newPassword : string) (now : Z) :
  token ≠ other →
  let issued := fst (Auth.generateResetToken st email now token) in
  let used := fst (Auth.resetPasswordWithToken hash st token email newPassword now) in
  Auth.resetTokens issued !! other = Auth.resetTokens st !! other
  ∧ Auth.resetTokens used !! other = Auth.resetTokens st !! other
  ∧ (∀ otherEmail later,
       snd (Auth.verifyResetToken issued other otherEmail later)
       = snd (Auth.verifyResetToken st other otherEmail later)
       ∧ snd (Auth.verifyResetToken used other otherEmail later)
         = snd (Auth.verifyResetToken st other otherEmail later))
  ∧ (∀ owner expires,
       Auth.resetTokens st !! token = Some (owner, expires) →
       Str.toLowerCase owner ≠ Str.toLowerCase email →
       Auth.resetPasswordWithToken hash st token email newPassword now = (st, false)).
Proof.
  intros Hne. cbv zeta.
  pose proof (generateResetToken_other st token other email now Hne) as Hissued.
  pose proof (resetPasswordWithToken_other hash st token other email newPassword now Hne)
    as Hused.
  split; [ exact Hissued | ]. split; [ exact Hused | ]. split.
  - intros otherEmail later. split; apply verifyResetToken_entry; assumption.
  - intros owner expires Hentry Hother.
    unfold Auth.resetPasswordWithToken, Auth.verifyResetToken. rewrite Hentry.
    rewrite (bool_decide_eq_false_2 _ Hother). reflexivity.
Qed.

Lemma reset_tokens_independent_witness :
  snd (Auth.verifyResetToken
         (fst (Auth.generateResetToken
                 (fst (Auth.generateResetToken sampleAuth "marie.dubois@2snd.fr" 0 "AAAAAA"))
                 "marie.dubois@2snd.fr" (minutes 5) "BBBBBB"))
         "AAAAAA" "marie.dubois@2snd.fr" (minutes 10))
  = true.
Proof.
  rewrite (proj1 (proj1 (proj2 (proj2
             (reset_tokens_independent sampleHash
                (fst (Auth.generateResetToken sampleAuth "marie.dubois@2snd.fr" 0 "AAAAAA"))
                "BBBBBB" "AAAAAA" "marie.dubois@2snd.fr" "x" (minutes 5)
                ltac:(discriminate)))) "marie.dubois@2snd.fr" (minutes 10))).
  reflexivity.
Defined.

(** ** The validators of the Mongo schema *)

Section ValidatorFacts.

Lemma size_list_to_set_le (l : list Z) : (size (list_to_set l : gset Z) ≤ List.length l)%nat.
Proof.
  induction l as [ | a l IH ].
  - rewrite list_to_set_nil, size_empty. reflexivity.
  - rewrite list_to_set_cons. cbn [List.length].
    rewrite size_union_alt.
    rewrite size_singleton.
    pose proof (subseteq_size (list_to_set l ∖ {[a]}) (list_to_set l : gset Z)) as Hle.
    assert (list_to_set l ∖ {[a]} ⊆ (list_to_set l : gset Z)) as Hsub.
    { intros x. rewrite elem_of_difference. tauto. }
    specialize (Hle Hsub). lia.
Qed.

Lemma size_list_to_set_NoDup (l : list Z) :
  size (list_to_set l : gset Z) = List.length l ↔ NoDup l.
Proof.
  split; [ | apply size_list_to_set ].
  induction l as [ | a l IH ]; intros Hsize; [ constructor | ].
  rewrite list_to_set_cons in Hsize. cbn [List.length] in Hsize.
  pose proof (size_list_to_set_le l) as Hle.
  destruct (decide (a ∈ l)) as [ Hin | Hout ].
  - exfalso.
    assert ({[a]} ∪ list_to_set l = (list_to_set l : gset Z)) as E.
    { apply set_eq. intros x. rewrite elem_of_union, elem_of_singleton, elem_of_list_to_set.
      split; [ intros [ -> | ]; assumption | auto ]. }
    rewrite E in Hsize. lia.
  - apply NoDup_cons. split; [ exact Hout | ]. apply IH.
    rewrite size_union in Hsize.
    + rewrite size_singleton in Hsize. lia.
    + intros x. rewrite elem_of_singleton, elem_of_list_to_set. intros -> Hx. exact (Hout Hx).
Qed.

End ValidatorFacts.

(** X21. The validator of the tasks of a Mongo Dao accepts a list exactly
    when the ids of its tasks are pairwise distinct, and the task update of
    the Mongo back end cannot make it fail: the list it saves has the ids,
    in the order, of the list it read, and its answer from the validator is
    the same. *)
Theorem mongo_task_id_validator (v : list DaoTask) :
  (Mongo.uniqueTaskIds v = true ↔ NoDup (List.map id v))
  ∧ ∀ taskId body actor now,
      let v' := Express.mutateFirst taskId (Mongo.applyPatch body actor now) v in
      List.map id v' = List.map id v
      ∧ Mongo.uniqueTaskIds v' = Mongo.uniqueTaskIds v.
Proof.
  split.
  - unfold Mongo.uniqueTaskIds. cbv zeta. rewrite bool_decide_eq_true.
    apply size_list_to_set_NoDup.
  - intros taskId body actor now. cbv zeta.
    assert (E : List.map id (Express.mutateFirst taskId (Mongo.applyPatch body actor now) v)
                = List.map id v).
    { apply mutateFirst_ids. intros x. reflexivity. }
    split; [ exact E | ]. unfold Mongo.uniqueTaskIds. cbv zeta. rewrite E. reflexivity.
Qed.

(** X22. Progress stays a percentage on both back ends, by different
    means: the Mongo route clamps the number it is given, so the task it
    writes always passes the schema's range, and stores a number already in
    range as it is; the Express route stores the number as it is and relies
    on its body schema.  On a body that the Express schema accepts and whose
    comment and assignee need no sanitizing, the two routes write the same
    task. *)
Theorem task_progress_stays_percentage
    (body : TaskPatch) (actor now : string) (t : DaoTask) :
  (Mongo.progressInRange t = true →
   Mongo.progressInRange (Mongo.applyPatch body actor now t) = true)
  ∧ (∀ p, p_progress body = Some p →
          Mongo.progressInRange (Mongo.applyPatch body actor now t) = true
          ∧ (progress (Mongo.applyPatch body actor now t) = Some p ↔ 0 ≤ p ≤ 100))
  ∧ (Express.taskUpdateSchema body = true →
     (Mongo.progressInRange t = true →
      Mongo.progressInRange (Express.applyPatch body actor now t) = true)
     ∧ (optAll (fun c => bool_decide (sanitizeString c = c)) (p_comment body) = true →
        optAll (fun a => bool_decide (sanitizeString a = a)) (p_assignedTo body) = true →
        Express.applyPatch body actor now t = Mongo.applyPatch body actor now t)).
Proof.
  assert (Hclamp : ∀ p, percentOk (Z.max 0 (Z.min 100 p)) = true).
  { intros p. unfold percentOk. apply andb_true_iff. split; apply Z.leb_le; lia. }
  split; [ | split ].
  - unfold Mongo.progressInRange, Mongo.applyPatch. cbn [progress].
    destruct (p_progress body); [ intros _; apply Hclamp | auto ].
  - intros p Hp. unfold Mongo.progressInRange, Mongo.applyPatch. cbn [progress].
    rewrite Hp. cbn [optAll]. split; [ apply Hclamp | ].
    split; [ intros [= E]; lia | intros Hr; f_equal; lia ].
  - unfold Express.taskUpdateSchema. intros Hschema.
    apply andb_true_iff in Hschema as [Hschema Hassignee].
    apply andb_true_iff in Hschema as [Hprogress Hcomment]. split.
    + unfold Mongo.progressInRange, Express.applyPatch. cbn [progress].
      destruct (p_progress body); [ intros _; exact Hprogress | auto ].
    + intros Hc Ha.
      assert (Htrim : ∀ c, sanitizeString c = c → Str.trim c = c).
      { intros c E. rewrite <- E. unfold sanitizeString. apply trim_fixed. }
      unfold Express.applyPatch, Mongo.applyPatch.
      destruct (p_progress body) as [ p | ], (p_comment body) as [ c | ],
        (p_assignedTo body) as [ a | ]; cbn [optAll] in *;
        repeat match goal with
          | H : bool_decide (sanitizeString ?x = ?x) = true |- _ =>
              apply bool_decide_eq_true in H; rewrite ?(Htrim _ H); rewrite H
          | H : percentOk _ = true |- _ =>
              apply andb_true_iff in H as [?%Z.leb_le ?%Z.leb_le]
          end;
        rewrite ?Z.min_r, ?Z.max_r by lia; try reflexivity.
Qed.

(** ** Changing a password *)

Section PasswordFacts.

Import Auth.

(** With distinct addresses, an active user is the one found under its own
    address. *)
Lemma findActiveByEmail_member (st : AuthState) (u : User) :
  distinctEmails st → In u (users st) → usr_isActive u = true →
  findActiveByEmail st (usr_email u) = Some u.
Proof.
  intros Hmails Hin Hactive. unfold findActiveByEmail.
  destruct (find_is_Some
              (fun x => bool_decide (Str.toLowerCase (usr_email x)
                                     = Str.toLowerCase (usr_email u)) && usr_isActive x)
              (users st) u Hin) as [y Hy].
  - rewrite Hactive, bool_decide_eq_true_2 by reflexivity. reflexivity.
  - rewrite Hy. f_equal. apply find_some in Hy as [Hyin Hq].
    apply andb_true_iff in Hq as [Hq _]. apply bool_decide_eq_true in Hq.
    apply (NoDup_map_inj (fun u => Str.toLowerCase (usr_email u)) (users st)); auto.
Qed.

End PasswordFacts.

(** X23. [changePassword] answers [false] and changes nothing for an
    unknown id; for a known one it answers [true], stores the hash of the
    new password under the address of that user and touches no user, no
    reset token and no hash under another address; when addresses are
    distinct, the user is active and [compare] accepts the password against
    its own hash, the new password then logs the user in. *)
Theorem changePassword_then_login
    (hash : string → string) (compare : string → string → bool) (sign : AuthUser → string)
    (st : Auth.AuthState) (i newPassword : string) :
  distinctEmails st →
  let result := Auth.changePassword hash st i newPassword in
  (Auth.findUserById st i = None → result = (st, false))
  ∧ ∀ u, Auth.findUserById st i = Some u →
      snd result = true
      ∧ Auth.users (fst result) = Auth.users st
      ∧ Auth.resetTokens (fst result) = Auth.resetTokens st
      ∧ Auth.userPasswords (fst result) !! Auth.usr_email u = Some (hash newPassword)
      ∧ (∀ e, e ≠ Auth.usr_email u →
              Auth.userPasswords (fst result) !! e = Auth.userPasswords st !! e)
      ∧ (Auth.usr_isActive u = true →
         compare newPassword (hash newPassword) = true → hash newPassword ≠ "" →
         ∀ sessions now,
           snd (Auth.login compare sign (Auth.mkService (fst result) sessions)
                  (Auth.usr_email u) newPassword now)
           = Some (Auth.authUserOf u, sign (Auth.authUserOf u))).
Proof.
  intros Hmails. cbv zeta. unfold Auth.changePassword. split.
  - intros ->. reflexivity.
  - intros u Hu. rewrite Hu. cbn [fst snd Auth.users Auth.resetTokens Auth.userPasswords].
    split; [ reflexivity | ]. split; [ reflexivity | ]. split; [ reflexivity | ].
    split; [ apply lookup_insert_eq | ].
    split; [ intros e He; apply lookup_insert_ne; congruence | ].
    intros Hactive Hcompare Hhash sessions now.
    apply findUserById_Some in Hu as [Hin _].
    pose proof (findActiveByEmail_member st u Hmails Hin Hactive) as Hfind.
    unfold Auth.login. cbn [Auth.state].
    unfold Auth.findActiveByEmail in *. cbn [Auth.users]. rewrite Hfind.
    cbn [Auth.userPasswords]. rewrite lookup_insert_eq.
    rewrite (bool_decide_eq_false_2 _ Hhash), Hcompare. reflexivity.
Qed.

Lemma changePassword_then_login_witness :
  snd (Auth.login (fun _ _ => true) (fun _ => "jwt")
         (Auth.mkService (fst (Auth.changePassword sampleHash sampleAuth "2" "nouveau1")) ∅)
         "marie.dubois@2snd.fr" "nouveau1" laterStamp)
  = Some (marie, "jwt").
Proof.
  exact (proj2 (proj2 (proj2 (proj2 (proj2
           (proj2 (changePassword_then_login sampleHash (fun _ _ => true) (fun _ => "jwt")
                     sampleAuth "2" "nouveau1" ltac:(apply NoDup_singleton))
              _ eq_refl)))))
           eq_refl eq_refl ltac:(discriminate) ∅ laterStamp).
Defined.
